(** * nse-bse-mcp: response limiter, document handler and tool routing

    A shallow embedding of [src/utils/response-limiter.ts], of the
    document handler ([handleDocumentTool], [downloadAndExtract],
    [downloadFile], [extractPdfText], [getAllFiles],
    [readDocumentPages]), of [src/handlers/nse-handler.ts], of the tool
    execution handler of [src/index.ts] and of [addFilterProperties],
    together with the properties their specification states about them
    and further properties that the code shows.

    Conventions of the embedding:
    - a JavaScript string is a sequence of UTF-16 code units; the model
      holds one code unit per [ascii], hence covers code units below 256;
      the texts sent to the client, whose headers hold code units above
      255, are lists of code units ([Format.text16]);
    - a JavaScript number that the code uses as a count, an index or a
      size is a [Z] (so [maxSizeMB] is a whole number of megabytes and a
      number inside a value is an integer, NaN or an infinity); the two
      places where the code divides or multiplies doubles
      ([wordsPerItem], [estimatedTokens]) are computed in IEEE binary64
      with the Standard Library's [SpecFloat];
    - an object is the list of its own enumerable properties in the
      engine's enumeration order;
    - the file system is a tree of directories and files, a request is
      the list of the events that the event loop delivers for it, and
      the libraries from outside the repository (URL parsing, pdf-parse,
      the unzip commands) are the fields of the class [Runtime]; the
      client of nse-bse-api is the class [NSEClient]. *)

From Stdlib Require Import ZArith List String Ascii Bool Lia.
From Stdlib Require Import DecimalString SpecFloat.
From stdpp Require Import base option list strings.

Local Open Scope string_scope.
Local Open Scope Z_scope.
Set Warnings "-register-all".

(** ** JavaScript primitives used by the two modules *)
Module JS.

(** Code units matched by the regular-expression class [\s] (and removed
    by [String.prototype.trim]) among the code units below 256: TAB, LF,
    VT, FF, CR, SPACE and NO-BREAK SPACE. *)
Definition is_space (c : ascii) : bool :=
  let n := nat_of_ascii c in
  ((9 <=? n) && (n <=? 13) || (n =? 32) || (n =? 160))%nat.

Fixpoint trimStart (s : string) : string :=
  match s with
  | String c r => if is_space c then trimStart r else s
  | EmptyString => EmptyString
  end.

(** [trimEnd] drops the trailing white space: a code unit is kept when it
    is not white space or when something is kept after it. *)
Fixpoint trimEnd (s : string) : string :=
  match s with
  | String c r =>
      match trimEnd r with
      | EmptyString => if is_space c then EmptyString else String c EmptyString
      | r' => String c r'
      end
  | EmptyString => EmptyString
  end.

Definition trim (s : string) : string := trimEnd (trimStart s).

(** [text.split(/\s+/)]: the pieces between the maximal runs of white
    space. [cur] is the piece being read, reversed; [inws] tells that the
    previous code unit was white space. A leading or trailing run yields
    an empty first or last piece, and the empty string yields [[""]]. *)
Fixpoint split_go (cur : string) (inws : bool) (s : string) : list string :=
  match s with
  | EmptyString => [String.rev cur]
  | String c r =>
      if is_space c then
        if inws then split_go cur true r
        else String.rev cur :: split_go EmptyString true r
      else split_go (String c cur) false r
  end.

Definition split_ws (s : string) : list string := split_go EmptyString false s.

(** A word: a non-empty string without white space. *)
Fixpoint spaceless (s : string) : bool :=
  match s with
  | EmptyString => true
  | String c r => negb (is_space c) && spaceless r
  end.

Definition word (s : string) : Prop := s <> "" /\ spaceless s = true.

(** [Array.prototype.join] on strings. *)
Fixpoint join (sep : string) (l : list string) : string :=
  match l with
  | [] => ""
  | [x] => x
  | x :: r => x +:+ sep +:+ join sep r
  end.

(** [Array.prototype.slice(0, n)] for an integer [n >= 0]. *)
Definition slice0 {A} (n : Z) (l : list A) : list A := take (Z.to_nat n) l.

(** [String(n)] for an integer. *)
Definition show (n : Z) : string := NilZero.string_of_int (Z.to_int n).

(** [s.repeat(n)]. *)
Fixpoint repeat_str (s : string) (n : nat) : string :=
  match n with O => "" | S k => s +:+ repeat_str s k end.

(** *** IEEE binary64 *)
Definition double := spec_float.
Definition of_Z (n : Z) : double := binary_normalize 53 1024 n 0 false.
Definition fdiv (x y : double) : double := SFdiv 53 1024 x y.
Definition fmul (x y : double) : double := SFmul 53 1024 x y.

(** The numbers that reach the code's outputs: the results of
    [Math.floor], [Math.ceil] and [Math.max], and the counts. Each is an
    integer, NaN or an infinity. *)
Inductive number := Int (z : Z) | NaN | PosInf | NegInf.

(** [Math.floor] and [Math.ceil] of a double: the value of a finite
    double is [(-1)^s * m * 2^e]. *)
Definition floor (x : double) : number :=
  match x with
  | S754_zero _ => Int 0
  | S754_finite s m e =>
      let v := if s then Z.neg m else Z.pos m in
      Int (if 0 <=? e then v * 2 ^ e else v / 2 ^ (- e))
  | S754_infinity s => if s then NegInf else PosInf
  | S754_nan => NaN
  end.

Definition ceil (x : double) : number :=
  match x with
  | S754_zero _ => Int 0
  | S754_finite s m e =>
      let v := if s then Z.neg m else Z.pos m in
      Int (if 0 <=? e then v * 2 ^ e else - ((- v) / 2 ^ (- e)))
  | S754_infinity s => if s then NegInf else PosInf
  | S754_nan => NaN
  end.

(** [Math.max(a, b)]: NaN when an argument is NaN. *)
Definition max (a b : number) : number :=
  match a, b with
  | NaN, _ | _, NaN => NaN
  | PosInf, _ | _, PosInf => PosInf
  | NegInf, x | x, NegInf => x
  | Int x, Int y => Int (Z.max x y)
  end.

(** ToBoolean of a number: [0] and NaN are falsy. *)
Definition truthy (a : number) : bool :=
  match a with
  | Int z => negb (z =? 0)
  | NaN => false
  | _ => true
  end.

(** [a > 0]. *)
Definition positive (a : number) : bool :=
  match a with
  | Int z => 0 <? z
  | PosInf => true
  | _ => false
  end.

(** [a <= b] on numbers, false when an argument is NaN. *)
Definition le (a b : number) : bool :=
  match a, b with
  | NaN, _ | _, NaN => false
  | NegInf, _ | _, PosInf => true
  | _, NegInf | PosInf, _ => false
  | Int x, Int y => x <=? y
  end.

(** [String(a)], as a template literal prints it (integers below 1e21 in
    absolute value print as their decimal digits). *)
Definition show_number (a : number) : string :=
  match a with
  | Int z => show z
  | NaN => "NaN"
  | PosInf => "Infinity"
  | NegInf => "-Infinity"
  end.

(** The literal [1.3]: the double nearest to 13/10. *)
Definition lit_1_3 : double := fdiv (of_Z 13) (of_Z 10).

(** *** Quoting of a string by [JSON.stringify] *)
Definition hex_digit (n : nat) : ascii :=
  ascii_of_nat (if (n <? 10)%nat then 48 + n else 87 + n).

Definition quote_char (c : ascii) : string :=
  let n := nat_of_ascii c in
  if (n =? 8)%nat then "\b"
  else if (n =? 9)%nat then "\t"
  else if (n =? 10)%nat then "\n"
  else if (n =? 12)%nat then "\f"
  else if (n =? 13)%nat then "\r"
  else if (n =? 34)%nat then "\" +:+ String c ""
  else if (n =? 92)%nat then "\\"
  else if (n <? 32)%nat then
    "\u00" +:+ String (hex_digit (n / 16)) (String (hex_digit (n mod 16)) "")
  else String c "".

Fixpoint quote_body (s : string) : string :=
  match s with
  | EmptyString => ""
  | String c r => quote_char c +:+ quote_body r
  end.

Definition dquote : string := String (ascii_of_nat 34) "".
Definition quote (s : string) : string := dquote +:+ quote_body s +:+ dquote.

Definition LF : string := String (ascii_of_nat 10) "".

(** [a || b] on strings: the empty string is falsy. *)
Definition orElse (a b : string) : string :=
  match a with EmptyString => b | _ => a end.

(** [s.length] *)
Definition strlen (s : string) : Z := Z.of_nat (String.length s).

(** [s.toLowerCase()] on code units below 256: the letters A-Z and the
    Latin-1 capitals (192-222 except the multiplication sign 215). *)
Definition lower_char (c : ascii) : ascii :=
  let n := nat_of_ascii c in
  if ((65 <=? n) && (n <=? 90) || (192 <=? n) && (n <=? 222) && negb (n =? 215))%nat
  then ascii_of_nat (n + 32) else c.

Fixpoint toLowerCase (s : string) : string :=
  match s with
  | EmptyString => EmptyString
  | String c r => String (lower_char c) (toLowerCase r)
  end.

(** [s.split(sep)] for a one-character separator. *)
Fixpoint split_on (sep : ascii) (cur : string) (s : string) : list string :=
  match s with
  | EmptyString => [String.rev cur]
  | String c r =>
      if Ascii.eqb c sep then String.rev cur :: split_on sep EmptyString r
      else split_on sep (String c cur) r
  end.

End JS.

(** Outcome of a call that may throw. *)
Inductive outcome (A : Type) : Type :=
| Return (a : A)
| Throw (err : string).
Arguments Return {A} a.
Arguments Throw {A} err.

(** ** src/utils/response-limiter.ts *)
Module Limiter.
Import JS.

(** A JavaScript value as the limiter sees it ([any]): the result of a
    market-data call, or a value the limiter builds itself. *)
Inductive json : Type :=
| JUndefined
| JNull
| JBool (b : bool)
| JNum (n : number)
| JStr (s : string)
| JArr (items : list json)
| JObj (props : list (string * json)).

Definition MAX_WORDS : Z := 3500.

Record LimitOptions := {
  maxItems : option number;
  fields : option (list string);
  summary : option bool;
}.

(** [options = {}] *)
Definition no_options : LimitOptions :=
  {| maxItems := None; fields := None; summary := None |}.

Record RecommendedFilters := {
  rec_maxItems : number;
  suggestedFields : option (list string);
}.

Record ResponseMetadata := {
  totalItems : option Z;
  totalWords : Z;
  estimatedTokens : number;
  availableFields : option (list string);
  schema : json;
  sampleData : json;
  exceedsLimit : bool;
  recommendedFilters : option RecommendedFilters;
}.

Record Limited := {
  data : json;
  truncated : bool;
  message : option string;
  metadata : option ResponseMetadata;
}.

Definition len {A} (l : list A) : Z := Z.of_nat (length l).

(** *** Language-level helpers on values *)
Definition typeof (v : json) : string :=
  match v with
  | JUndefined => "undefined"
  | JBool _ => "boolean"
  | JNum _ => "number"
  | JStr _ => "string"
  | JNull | JArr _ | JObj _ => "object"
  end.

(** [typeof v === 'object' && v !== null] *)
Definition isObject (v : json) : bool :=
  match v with JArr _ | JObj _ => true | _ => false end.

Fixpoint indexed (i : Z) (l : list json) : list (string * json) :=
  match l with
  | [] => []
  | x :: r => (show i, x) :: indexed (i + 1) r
  end.

(** The own enumerable properties that [for ... in] and [Object.keys]
    enumerate: the indices of an array, the properties of an object. *)
Definition ownProps (v : json) : list (string * json) :=
  match v with
  | JArr items => indexed 0 items
  | JObj props => props
  | _ => []
  end.

Definition keys (v : json) : list string := map fst (ownProps v).

Fixpoint lookup (k : string) (props : list (string * json)) : option json :=
  match props with
  | [] => None
  | (k', v) :: r => if String.eqb k' k then Some v else lookup k r
  end.

(** [o[k]] on own properties. *)
Definition get (k : string) (props : list (string * json)) : json :=
  default JUndefined (lookup k props).

(** [k in o], on the enumerable own properties (names inherited from a
    prototype, and the [length] of an array, are not modelled). *)
Definition has (k : string) (props : list (string * json)) : bool :=
  match lookup k props with Some _ => true | None => false end.

Definition is_digit (c : ascii) : bool :=
  let n := nat_of_ascii c in ((48 <=? n) && (n <=? 57))%nat.

Fixpoint digits_value (acc : Z) (s : string) : option Z :=
  match s with
  | EmptyString => Some acc
  | String c r =>
      if is_digit c then digits_value (10 * acc + Z.of_nat (nat_of_ascii c) - 48) r
      else None
  end.

(** An array index: the canonical decimal numeral of an integer in
    [0, 2^32 - 2]. Such keys are enumerated first, in ascending order. *)
Definition arrayIndex (k : string) : option Z :=
  match k with
  | EmptyString => None
  | _ =>
      match digits_value 0 k with
      | Some n => if String.eqb (show n) k && (n <? 4294967295) then Some n else None
      | None => None
      end
  end.

Definition entersBefore (k k' : string) : bool :=
  match arrayIndex k, arrayIndex k' with
  | Some n, Some n' => n <? n'
  | Some _, None => true
  | None, _ => false
  end.

Fixpoint replace (k : string) (v : json) (props : list (string * json)) :=
  match props with
  | [] => []
  | (k', v') :: r =>
      if String.eqb k' k then (k, v) :: r else (k', v') :: replace k v r
  end.

Fixpoint define (k : string) (v : json) (props : list (string * json)) :=
  match props with
  | [] => [(k, v)]
  | (k', v') :: r =>
      if entersBefore k k' then (k, v) :: props else (k', v') :: define k v r
  end.

(** [o[k] = v]: an existing property keeps its place, a new one enters
    in enumeration order (after the properties present, unless it is an
    array index). *)
Definition assign (k : string) (v : json) (props : list (string * json)) :=
  if has k props then replace k v props else define k v props.

(** *** [JSON.stringify(value, null, gap)] *)
Definition wrap (opening closing gap stepback indent : string)
    (partial : list string) : string :=
  match partial with
  | [] => opening +:+ closing
  | _ =>
      match gap with
      | EmptyString => opening +:+ join "," partial +:+ closing
      | _ =>
          opening +:+ LF +:+ indent +:+ join ("," +:+ LF +:+ indent) partial
          +:+ LF +:+ stepback +:+ closing
      end
  end.

(** [None] is the [undefined] that [JSON.stringify] returns for a value
    with no JSON form; inside an array it prints as [null], inside an
    object the property is left out. *)
Fixpoint serialize (gap indent : string) (v : json) {struct v} : option string :=
  match v with
  | JUndefined => None
  | JNull => Some "null"
  | JBool b => Some (if b then "true" else "false")
  | JNum (Int z) => Some (show z)
  | JNum _ => Some "null"
  | JStr s => Some (quote s)
  | JArr items =>
      let inner := indent +:+ gap in
      Some (wrap "[" "]" gap indent inner
              (map (fun x => default "null" (serialize gap inner x)) items))
  | JObj props =>
      let inner := indent +:+ gap in
      Some (wrap "{" "}" gap indent inner
              ((fix members (ps : list (string * json)) : list string :=
                  match ps with
                  | [] => []
                  | (k, x) :: r =>
                      match serialize gap inner x with
                      | Some t =>
                          (quote k +:+ ":" +:+
                           match gap with EmptyString => "" | _ => " " end +:+ t)
                          :: members r
                      | None => members r
                      end
                  end) props))
  end.

(** [JSON.stringify(v, null, 2)] and [JSON.stringify(v)]. *)
Definition stringify2 (v : json) : option string := serialize "  " "" v.
Definition stringify (v : json) : option string := serialize "" "" v.

(** *** The functions of the module *)

(** Count words in text *)
Definition countWords (text : string) : Z := len (split_ws (trim text)).

(** Truncate text to word limit *)
Definition truncateToWords (text : string) (maxWords : Z) : string :=
  let words := split_ws (trim text) in
  if len words <=? maxWords then text
  else
    let truncated := join " " (slice0 maxWords words) in
    let remaining := len words - maxWords in
    truncated +:+ LF +:+ LF +:+ "[... " +:+ show remaining
    +:+ " more words truncated. Use filters to get specific data.]".

(** The end of the marker that [truncateToWords] appends. *)
Definition marker_tail : string :=
  " more words truncated. Use filters to get specific data.]".

(** [result.slice(0, n)] for a number [n > 0]. *)
Definition sliceTo (n : number) (l : list json) : list json :=
  match n with
  | Int z => slice0 z l
  | PosInf => l
  | _ => []
  end.

(** The projection of one item on [fields]: [filtered[field] =
    item[field]] for each field present in the item. *)
Fixpoint project (fs : list string) (item filtered : list (string * json)) :=
  match fs with
  | [] => filtered
  | field :: r =>
      project r item
        (if has field item then assign field (get field item) filtered else filtered)
  end.

(** Limit array data by selecting specific fields and limiting items *)
Definition limitArrayData (d : json) (options : LimitOptions) : json :=
  match d with
  | JArr [] => d
  | JArr items =>
      let result :=
        match maxItems options with
        | Some n => if truthy n && positive n then sliceTo n items else items
        | None => items
        end in
      let result :=
        match fields options, result with
        | Some ((_ :: _) as fs), _ :: _ =>
            map (fun item =>
                   if isObject item then JObj (project fs (ownProps item) [])
                   else item) result
        | _, _ => result
        end in
      JArr result
  | _ => d
  end.

Definition typeName (value : json) : json :=
  match value with JArr _ => JStr "array" | _ => JStr (typeof value) end.

(** Extract schema from data *)
Definition extractSchema (d : json) : json :=
  match d with
  | JArr (sample :: _) =>
      if isObject sample
      then JObj (map (fun kv => (fst kv, typeName (snd kv))) (ownProps sample))
      else JNull
  | JArr [] | JObj _ =>
      JObj (map (fun kv =>
                   (fst kv,
                    match snd kv with
                    | JArr value =>
                        JObj [("type", JStr "array"); ("length", JNum (Int (len value)))]
                    | value => JStr (typeof value)
                    end)) (ownProps d))
  | _ => JNull
  end.

(** Get available fields from data *)
Definition getAvailableFields (d : json) : option (list string) :=
  match d with
  | JArr (sample :: _) => if isObject sample then Some (keys sample) else None
  | JArr [] | JObj _ => Some (keys d)
  | _ => None
  end.

(** [countWords(sampleStr) / sampleSize] and
    [Math.floor(MAX_WORDS / wordsPerItem)], in binary64; [None] stands
    for the [TypeError] of [countWords(undefined)]. *)
Definition itemsThatFit (sample : list json) (sampleSize : Z) : option number :=
  match stringify2 (JArr sample) with
  | Some sampleStr =>
      let wordsPerItem := fdiv (of_Z (countWords sampleStr)) (of_Z sampleSize) in
      Some (floor (fdiv (of_Z MAX_WORDS) wordsPerItem))
  | None => None
  end.

(** Create metadata about the response *)
Definition createResponseMetadata (d : json) (wordCount : Z)
    : outcome ResponseMetadata :=
  let exceeds := MAX_WORDS <? wordCount in
  let total := match d with JArr items => Some (len items) | _ => None end in
  let available := getAvailableFields d in
  let sch := extractSchema d in
  let sample :=
    match d with
    | JArr items => JArr (slice0 3 items)
    | JObj props => JObj (take 5 props)
    | _ => JUndefined
    end in
  let finish recommended :=
    Return {| totalItems := total;
              totalWords := wordCount;
              estimatedTokens := ceil (fmul (of_Z wordCount) lit_1_3);
              availableFields := available;
              schema := sch;
              sampleData := sample;
              exceedsLimit := exceeds;
              recommendedFilters := recommended |} in
  match d with
  | JArr ((_ :: _) as items) =>
      if exceeds then
        match itemsThatFit (slice0 3 items) 3 with
        | Some fit =>
            finish (Some {| rec_maxItems := max (Int 10) fit;
                            suggestedFields := slice0 7 <$> available |})
        | None => Throw "TypeError"
        end
      else finish None
  | _ => finish None
  end.

(** Create summary for array data *)
Definition createArraySummary (d : json) : string :=
  match d with
  | JArr ((sample :: _) as items) =>
      let fieldNames := if isObject sample then join ", " (keys sample) else "N/A" in
      "Total items: " +:+ show (len items) +:+ LF
      +:+ "Available fields: " +:+ fieldNames +:+ LF +:+ LF
      +:+ "First 3 items:" +:+ LF
      +:+ default "undefined" (stringify2 (JArr (slice0 3 items)))
  | _ => "No data available"
  end.

(** The object a [ResponseMetadata] is, as a value. *)
Definition optional {A} (f : A -> json) (o : option A) : json :=
  match o with Some a => f a | None => JUndefined end.

Definition strings (l : list string) : json := JArr (map JStr l).

Definition metadataValue (m : ResponseMetadata) : json :=
  JObj [("totalItems", optional (fun n => JNum (Int n)) (totalItems m));
        ("totalWords", JNum (Int (totalWords m)));
        ("estimatedTokens", JNum (estimatedTokens m));
        ("availableFields", optional strings (availableFields m));
        ("schema", schema m);
        ("sampleData", sampleData m);
        ("exceedsLimit", JBool (exceedsLimit m));
        ("recommendedFilters",
         optional (fun r => JObj [("maxItems", JNum (rec_maxItems r));
                                  ("suggestedFields",
                                   optional strings (suggestedFields r))])
                  (recommendedFilters m))].

(** [value.length] of an array. *)
Definition arrayLength (v : json) : Z :=
  match v with JArr items => len items | _ => 0 end.

(** [options.maxItems || options.fields || options.summary] *)
Definition hasFilters (options : LimitOptions) : bool :=
  match maxItems options with Some n => truthy n | None => false end
  || match fields options with Some _ => true | None => false end
  || match summary options with Some b => b | None => false end.

(** The [for (const key in limitedData)] loop of the second strategy:
    the keys are those the object had when the loop started, each value
    is read from the object as the earlier iterations left it. *)
Fixpoint truncateArrays (ks : list string) (limitedData : list (string * json))
    (arrayKeys : list string) : list (string * json) * list string :=
  match ks with
  | [] => (limitedData, arrayKeys)
  | key :: rest =>
      match get key limitedData with
      | JArr value =>
          if 10 <? len value then
            let originalLength := len value in
            let limitedData := assign key (JArr (slice0 10 value)) limitedData in
            let limitedData :=
              assign (key +:+ "_truncated")
                     (JStr ("Showing 10 of " +:+ show originalLength +:+ " items"))
                     limitedData in
            truncateArrays rest limitedData (arrayKeys ++ [key])
          else truncateArrays rest limitedData arrayKeys
      | _ => truncateArrays rest limitedData arrayKeys
      end
  end.

(** The final check of [limitResponse] on the limited data. *)
Definition finalCheck (limitedData : json) (message : string) : outcome Limited :=
  match stringify2 limitedData with
  | None => Throw "TypeError"
  | Some jsonStr =>
      if MAX_WORDS <? countWords jsonStr then
        Return {| data := JStr (truncateToWords jsonStr MAX_WORDS);
                  truncated := true;
                  message := Some (orElse message
                    ("Response truncated to " +:+ show MAX_WORDS
                     +:+ " words. Use filters to get specific data."));
                  metadata := None |}
      else
        Return {| data := limitedData;
                  truncated := true;
                  message := Some (orElse message "Response limited to prevent data overflow");
                  metadata := None |}
  end.

(** Main function to limit response data *)
Definition limitResponse (d : json) (options : LimitOptions) : outcome Limited :=
  match d with
  | JNull | JUndefined =>
      Return {| data := d; truncated := false; message := None; metadata := None |}
  | _ =>
  match stringify2 d with
  | None => Throw "TypeError"
  | Some jsonStr =>
  let wordCount := countWords jsonStr in
  if wordCount <=? MAX_WORDS then
    Return {| data := d; truncated := false; message := None; metadata := None |}
  else if negb (hasFilters options) then
    match createResponseMetadata d wordCount with
    | Throw e => Throw e
    | Return meta =>
        Return {|
          data := JObj [
            ("_metadata", metadataValue meta);
            ("_message", JStr ("Response is too large (" +:+ show wordCount
               +:+ " words, ~" +:+ show_number (estimatedTokens meta)
               +:+ " tokens). Please apply filters to get specific data."));
            ("_instructions", JStr
               match recommendedFilters meta with
               | Some r =>
                   "Recommended: Use max_items=" +:+ show_number (rec_maxItems r)
                   +:+ " or fields="
                   +:+ default "undefined" (stringify (optional strings (suggestedFields r)))
               | None => "Use max_items, fields, or summary parameters to filter the response."
               end)];
          truncated := true;
          message := Some ("Response too large. Returning metadata. Total: "
             +:+ match totalItems meta with
                 | Some n => if n =? 0 then "N/A" else show n
                 | None => "N/A"
                 end
             +:+ " items, " +:+ show wordCount +:+ " words.");
          metadata := Some meta |}
    end
  else
    match d with
    | JArr items =>
        if default false (summary options) then
          Return {| data := JStr (createArraySummary d);
                    truncated := true;
                    message := Some ("Response too large (" +:+ show wordCount
                      +:+ " words). Showing summary. Use maxItems and fields filters to get specific data.");
                    metadata := None |}
        else
          let sampleSize := Z.min 3 (len items) in
          match itemsThatFit (slice0 sampleSize items) sampleSize with
          | None => Throw "TypeError"
          | Some fit =>
              let cap :=
                match maxItems options with
                | Some n => if truthy n then n else fit
                | None => fit
                end in
              let limitedData :=
                limitArrayData d {| maxItems := Some cap;
                                    fields := fields options;
                                    summary := None |} in
              let message :=
                "Response limited: Showing " +:+ show (arrayLength limitedData)
                +:+ " of " +:+ show (len items) +:+ " items. "
                +:+ match fields options with
                    | Some fs => "Fields: " +:+ join ", " fs +:+ ". "
                    | None => ""
                    end
                +:+ "Use maxItems and fields parameters to customize." in
              finalCheck limitedData message
          end
    | JObj props =>
        let '(limitedData, arrayKeys) := truncateArrays (map fst props) props [] in
        let message :=
          match arrayKeys with
          | [] => ""
          | _ => "Large arrays truncated: " +:+ join ", " arrayKeys
                 +:+ ". Use specific queries to get complete data."
          end in
        finalCheck (JObj limitedData) message
    | _ => finalCheck d ""
    end
  end
  end.

(** The name and the value of the property that the second strategy
    adds next to a truncated array. *)
Definition sibling (key : string) : string := key +:+ "_truncated".
Definition note (originalLength : Z) : json :=
  JStr ("Showing 10 of " +:+ show originalLength +:+ " items").

(** The text [formatLimitedResponse] sends for the limited data: the
    data itself when it is a string, its serialization otherwise. *)
Definition payloadText (limited : Limited) : string :=
  match data limited with
  | JStr text => text
  | v => default "undefined" (stringify2 v)
  end.

End Limiter.

(** ** The document handler *)
Module Documents.
Import JS.

(** *** Paths ([path]) *)

(** A path is the list of its segments; [render] is the string the code
    manipulates. [path.join(dir, name)] is [dir ++ [name]] for a name of
    one segment. *)
Definition path := list string.
Definition render (p : path) : string := join "/" p.

(** [path.basename(p)] of a string: its last non-empty segment. *)
Definition basename (p : string) : string :=
  List.last (filter (fun seg => negb (String.eqb seg "")) (split_on "/" "" p)) "".

(** Index of the last ["."] of a segment, counted from its start. *)
Fixpoint lastDot (i : nat) (s : string) : option nat :=
  match s with
  | EmptyString => None
  | String c r =>
      match lastDot (S i) r with
      | Some j => Some j
      | None => if Ascii.eqb c "." then Some i else None
      end
  end.

(** [path.extname(name)] of a segment: from its last dot on, and empty
    when there is no dot, when the only dot leads the name, and for
    [".."]. *)
Definition extname (name : string) : string :=
  match lastDot 0 name with
  | None | Some O => ""
  | Some i => if String.eqb name ".." then "" else String.substring i (String.length name - i) name
  end.

(** [path.basename(p, suffix)] of a segment. *)
Definition dropSuffix (name suffix : string) : string :=
  let n := String.length name in
  let k := String.length suffix in
  if (k <=? n)%nat && String.eqb (String.substring (n - k) k name) suffix
  then String.substring 0 (n - k) name else name.

(** *** The file system ([fs]) *)
Inductive node : Type :=
| File (content : string)
| Dir (entries : list (string * node)).

Fixpoint child (name : string) (entries : list (string * node)) : option node :=
  match entries with
  | [] => None
  | (n, c) :: r => if String.eqb n name then Some c else child name r
  end.

Fixpoint setEntry (name : string) (c : node) (entries : list (string * node)) :=
  match entries with
  | [] => [(name, c)]
  | (n, c') :: r =>
      if String.eqb n name then (name, c) :: r else (n, c') :: setEntry name c r
  end.

Fixpoint dropEntry (name : string) (entries : list (string * node)) :=
  match entries with
  | [] => []
  | (n, c) :: r =>
      if String.eqb n name then dropEntry name r else (n, c) :: dropEntry name r
  end.

Fixpoint find (p : path) (root : node) : option node :=
  match p with
  | [] => Some root
  | name :: r =>
      match root with
      | Dir entries =>
          match child name entries with
          | Some c => find r c
          | None => None
          end
      | File _ => None
      end
  end.

(** [fs.existsSync(p)] *)
Definition existsSync (p : path) (root : node) : bool :=
  match find p root with Some _ => true | None => false end.

(** Put a node at [p]; the parent directory has to exist. *)
Fixpoint put (p : path) (c : node) (root : node) : option node :=
  match p with
  | [] => Some c
  | name :: r =>
      match root with
      | Dir entries =>
          match r with
          | [] => Some (Dir (setEntry name c entries))
          | _ =>
              match child name entries with
              | Some sub =>
                  match put r c sub with
                  | Some sub' => Some (Dir (setEntry name sub' entries))
                  | None => None
                  end
              | None => None
              end
          end
      | File _ => None
      end
  end.

(** [fs.unlinkSync(p)]: [None] when there is no file at [p] (the call
    throws). *)
Fixpoint unlinkSync (p : path) (root : node) : option node :=
  match p with
  | [] => None
  | name :: r =>
      match root with
      | Dir entries =>
          match child name entries, r with
          | Some (File _), [] => Some (Dir (dropEntry name entries))
          | Some sub, _ :: _ =>
              match unlinkSync r sub with
              | Some sub' => Some (Dir (setEntry name sub' entries))
              | None => None
              end
          | _, _ => None
          end
      | File _ => None
      end
  end.

(** [fs.mkdirSync(p, { recursive: true })]: [None] when a file is in the
    way. *)
Fixpoint mkdirSync (p : path) (root : node) : option node :=
  match root with
  | File _ => None
  | Dir entries =>
      match p with
      | [] => Some root
      | name :: r =>
          match mkdirSync r (default (Dir []) (child name entries)) with
          | Some sub => Some (Dir (setEntry name sub entries))
          | None => None
          end
      end
  end.

(** [fs.readFileSync(p)] *)
Definition readFileSync (p : path) (root : node) : outcome string :=
  match find p root with
  | Some (File content) => Return content
  | Some (Dir _) => Throw "EISDIR: illegal operation on a directory, read"
  | None => Throw ("ENOENT: no such file or directory, open '" +:+ render p +:+ "'")
  end.

(** [fs.statSync(p).size]; the size of a directory is the platform's
    and is taken as 0. *)
Definition statSize (p : path) (root : node) : outcome Z :=
  match find p root with
  | Some (File content) => Return (strlen content)
  | Some (Dir _) => Return 0
  | None => Throw ("ENOENT: no such file or directory, stat '" +:+ render p +:+ "'")
  end.

(** [fs.createWriteStream(p)] opens [p] for writing: the file is created
    or emptied; [None] when it cannot be opened. The stream is taken as
    open when the call returns: the turn of the event loop between the
    call and the opening of the file is not described. *)
Definition createWriteStream (p : path) (root : node) : option node :=
  match find p root with
  | Some (Dir _) => None
  | _ => put p (File "") root
  end.

(** A chunk piped into the stream opened at [p]. *)
Definition writeChunk (p : path) (chunk : string) (root : node) : node :=
  match find p root with
  | Some (File content) => default root (put p (File (content +:+ chunk)) root)
  | _ => root
  end.

(** *** The network ([http], [https]) *)

(** What the process observes on one request, in the order the event
    loop delivers it. *)
Inductive event : Type :=
| RequestError (err : string)          (* request.on('error') *)
| SocketTimeout                        (* the socket idle for 60000 ms *)
| Response (statusCode : Z) (location contentLength : option string)
| Data (chunk : string)                (* response.on('data') *)
| Finish                               (* the response ended, fileStream 'finish' *)
| FileError (err : string).            (* fileStream.on('error') *)

(** The servers: the n-th element answers the n-th request the process
    makes, given the requested URL. A request beyond the list stays
    without any event. *)
Definition servers := list (string -> list event).

Inductive downloadError : Type :=
| HttpStatus (statusCode : Z)
| FileTooLarge (contentLength maxSizeMB : Z)
| ExceededDuringDownload
| DownloadTimeout
| RequestFailed (err : string)
| StreamFailed (err : string).

(** How the promise of [downloadFile] ends. [Uncaught] is an exception
    thrown inside an event handler, which no [reject] reports. *)
Inductive settled : Type :=
| Resolved
| Rejected (e : downloadError)
| Pending
| Uncaught (err : string).

(** [(n / 1024 / 1024).toFixed(2)] for a byte count [n >= 0]: the
    quotient is exact in binary64, and [toFixed] rounds a tie upwards. *)
Definition megabytes (n : Z) : string :=
  let hundredths := (n * 100 + 524288) / 1048576 in
  let frac := hundredths mod 100 in
  show (hundredths / 100) +:+ "." +:+ (if frac <? 10 then "0" else "") +:+ show frac.

(** [error.message] *)
Definition errorMessage (e : downloadError) : string :=
  match e with
  | HttpStatus code => "Failed to download: HTTP " +:+ show code
  | FileTooLarge contentLength maxSizeMB =>
      "File too large: " +:+ megabytes contentLength +:+ " MB (max: "
      +:+ show maxSizeMB +:+ " MB)"
  | ExceededDuringDownload => "File exceeded size limit during download"
  | DownloadTimeout => "Download timeout"
  | RequestFailed err | StreamFailed err => err
  end.

Definition hexValue (c : ascii) : option Z :=
  let n := Z.of_nat (nat_of_ascii c) in
  if (48 <=? n) && (n <=? 57) then Some (n - 48)
  else if (97 <=? n) && (n <=? 102) then Some (n - 87)
  else if (65 <=? n) && (n <=? 70) then Some (n - 55)
  else None.

(** The longest prefix of digits in [radix], read as a number; [None]
    when the text starts with no digit. *)
Fixpoint readDigits (radix : Z) (acc : option Z) (s : string) : option Z :=
  match s with
  | EmptyString => acc
  | String c r =>
      match hexValue c with
      | Some d =>
          if d <? radix then readDigits radix (Some (radix * default 0 acc + d)) r
          else acc
      | None => acc
      end
  end.

(** [parseInt(s)]: leading white space, a sign, [0x] for radix 16;
    [None] is NaN. *)
Definition parseInt (s : string) : option Z :=
  let s := trimStart s in
  let '(negative, s) :=
    match s with
    | String "-" r => (true, r)
    | String "+" r => (false, r)
    | _ => (false, s)
    end in
  let magnitude :=
    match s with
    | String "0" (String "x" r) | String "0" (String "X" r) => readDigits 16 None r
    | _ => readDigits 10 None s
    end in
  (fun m => if negative : bool then - m else m) <$> magnitude.

(** The body of a 200 response piped into the file stream: the handlers
    of ['data'], of the stream's ['finish'] and ['error'], of the
    request's ['error'] and of its time-out, up to the event that
    settles the promise. What the pipe still writes after that event is
    not described. *)
Fixpoint receive (filepath : path) (maxBytes : Z) (events : list event)
    (downloadedBytes : Z) (disk : node) : settled * node :=
  match events with
  | [] => (Pending, disk)
  | Data chunk :: rest =>
      let downloadedBytes := downloadedBytes + strlen chunk in
      if maxBytes <? downloadedBytes then
        match unlinkSync filepath disk with
        | Some disk' => (Rejected ExceededDuringDownload, disk')
        | None => (Uncaught "ENOENT: no such file or directory, unlink", disk)
        end
      else receive filepath maxBytes rest downloadedBytes (writeChunk filepath chunk disk)
  | Finish :: _ => (Resolved, disk)
  | FileError err :: _ =>
      match unlinkSync filepath disk with
      | Some disk' => (Rejected (StreamFailed err), disk')
      | None => (Uncaught "ENOENT: no such file or directory, unlink", disk)
      end
  | RequestError err :: _ => (Rejected (RequestFailed err), disk)
  | SocketTimeout :: _ => (Rejected DownloadTimeout, disk)
  | Response _ _ _ :: rest => receive filepath maxBytes rest downloadedBytes disk
  end.

(** What a request comes to before any body is read: the first of the
    request's ['error'], its time-out and the response. *)
Inductive answer : Type :=
| Silent
| Errored (err : string)
| TimedOut
| Answered (statusCode : Z) (location contentLength : option string)
           (body : list event).

Fixpoint firstAnswer (events : list event) : answer :=
  match events with
  | [] => Silent
  | RequestError err :: _ => Errored err
  | SocketTimeout :: _ => TimedOut
  | Response statusCode location contentLength :: body =>
      Answered statusCode location contentLength body
  | _ :: rest => firstAnswer rest
  end.

(** [downloadFile(url, filepath, maxSizeMB)], on the servers that answer
    its requests; [requests] logs the URL of every request made. The
    function follows the request up to the event that settles the
    promise. *)
Fixpoint downloadFile (network : servers) (url : string) (filepath : path)
    (maxSizeMB : Z) (disk : node) (requests : list string)
    : settled * node * servers * list string :=
  let requests := (requests ++ [url])%list in
  match network with
  | [] => (Pending, disk, [], requests)
  | server :: network =>
      let maxBytes := maxSizeMB * 1024 * 1024 in
      match firstAnswer (server url) with
      | Silent => (Pending, disk, network, requests)
      | Errored err => (Rejected (RequestFailed err), disk, network, requests)
      | TimedOut => (Rejected DownloadTimeout, disk, network, requests)
      | Answered statusCode location contentLength body =>
          (* Handle redirects *)
          let redirectUrl :=
            if (statusCode =? 301) || (statusCode =? 302)
            then default "" location else "" in
          match redirectUrl with
          | String _ _ =>
              downloadFile network redirectUrl filepath maxSizeMB disk requests
          | EmptyString =>
              if negb (statusCode =? 200) then
                (Rejected (HttpStatus statusCode), disk, network, requests)
              else
                (* Check file size *)
                let contentLength := parseInt (orElse (default "" contentLength) "0") in
                let tooLarge :=
                  match contentLength with
                  | Some n => maxBytes <? n
                  | None => false
                  end in
                if tooLarge then
                  (Rejected (FileTooLarge (default 0 contentLength) maxSizeMB),
                   disk, network, requests)
                else
                  match createWriteStream filepath disk with
                  | Some disk' =>
                      let '(result, disk'') := receive filepath maxBytes body 0 disk' in
                      (result, disk'', network, requests)
                  | None =>
                      (Uncaught "ENOENT: no such file or directory, unlink",
                       disk, network, requests)
                  end
          end
      end
  end.

(** *** What the handler takes from outside the repository *)
Record TextResult := {
  tr_pages : list string;    (* textResult.pages[i].text *)
  tr_text : string;          (* textResult.text *)
}.

Class Runtime := {
  (** [process.cwd()] *)
  cwd : path;
  (** [new URL(url).pathname], which throws on an invalid URL *)
  urlPathname : string -> outcome string;
  (** [new PDFParse({ data }).getText()] of pdf-parse *)
  getText : string -> outcome TextResult;
  (** the files an archive holds, as [unzip] and as PowerShell's
      [Expand-Archive] extract them *)
  unzip : string -> outcome (list (path * string));
  expandArchive : string -> outcome (list (path * string));
}.

(** The state the handler works on. [requests] and [downloaded] are
    logs: the URL of every request made, and the destination of every
    download that completed. *)
Record world := {
  disk : node;
  network : servers;
  requests : list string;
  downloaded : list path;
}.

(** How a call of an [async] function ends for the caller that awaits
    it. *)
Inductive completion (A : Type) : Type :=
| Done (a : A)
| Throws (err : string)
| NoReturn.
Arguments Done {A} a.
Arguments Throws {A} err.
Arguments NoReturn {A}.

Record Metadata := {
  meta_filename : string;
  meta_size : Z;
  meta_type : string;
  meta_pages : option Z;
  meta_extractedPages : option string;
}.

Record DownloadResult := {
  success : bool;
  content : option string;
  files : option (list string);
  error : option string;
  metadata : option Metadata;
}.

Record PageOptions := {
  startPage : option Z;
  endPage : option Z;
  pages : option (list Z);
}.

Record PdfText := {
  text : string;
  totalPages : Z;
  extractedPages : string;
}.

Definition failed (message : string) : DownloadResult :=
  {| success := false; content := None; files := None;
     error := Some message; metadata := None |}.

(** [await downloadFile(url, filepath, maxSizeMB)] *)
Definition fetch (url : string) (filepath : path) (maxSizeMB : Z) (w : world)
    : settled * world :=
  let '(result, disk', network', requests') :=
    downloadFile (network w) url filepath maxSizeMB (disk w) (requests w) in
  (result,
   {| disk := disk'; network := network'; requests := requests';
      downloaded := match result with
                    | Resolved => (downloaded w ++ [filepath])%list
                    | _ => downloaded w
                    end |}).

(** [n || fallback] on an optional number. *)
Definition orNumber (n : option Z) (fallback : Z) : Z :=
  match n with
  | Some v => if v =? 0 then fallback else v
  | None => fallback
  end.

Definition truthyNumber (n : option Z) : bool :=
  match n with Some v => negb (v =? 0) | None => false end.

(** [textResult.pages[pageNum - 1]] *)
Definition pageAt (textResult : TextResult) (pageNum : Z) : option string :=
  let pageIndex := pageNum - 1 in
  if 0 <=? pageIndex then tr_pages textResult !! Z.to_nat pageIndex else None.

(** The loop bodies of [extractPdfText]: every page of [pageNums] that
    the document has, under its header, in the order of [pageNums]. *)
Fixpoint appendPages (textResult : TextResult) (pageNums : list Z)
    (extractedText : string) : string :=
  match pageNums with
  | [] => extractedText
  | pageNum :: rest =>
      appendPages textResult rest
        match pageAt textResult pageNum with
        | Some pageText =>
            extractedText +:+ LF +:+ LF +:+ "--- PAGE " +:+ show pageNum +:+ " ---"
            +:+ LF +:+ LF +:+ pageText
        | None => extractedText
        end
  end.

(** The text returned for a parsed document: file name, page counts
    and a separator line before the extracted text. *)
Definition report (filepath : path) (total : Z) (extracted extractedText : string)
    : string :=
  "PDF: " +:+ List.last filepath "" +:+ LF
  +:+ "Total Pages: " +:+ show total +:+ " | Extracted Pages: " +:+ extracted
  +:+ " | Text Length: " +:+ show (strlen extractedText) +:+ " characters"
  +:+ LF +:+ LF +:+ repeat_str "=" 80 +:+ LF +:+ extractedText.

Definition extractPdfText `{Runtime} (filepath : path)
    (pageOptions : option PageOptions) (disk : node) : PdfText :=
  let parsed :=
    match readFileSync filepath disk with
    | Return dataBuffer => getText dataBuffer
    | Throw message => Throw message
    end in
  match parsed with
  | Return textResult =>
      let total := Z.of_nat (length (tr_pages textResult)) in
      let all := (tr_text textResult, "1-" +:+ show total) in
      let '(extractedText, extracted) :=
        match pageOptions with
        | Some options =>
            match pages options with
            | Some ((_ :: _) as requested) =>
                (* Handle specific pages array *)
                let validPages :=
                  filter (fun p => (1 <=? p) && (p <=? total)) requested in
                (appendPages textResult validPages "", join ", " (map show validPages))
            | _ =>
                if truthyNumber (startPage options) || truthyNumber (endPage options) then
                  (* Handle page range *)
                  let first := Z.max 1 (orNumber (startPage options) 1) in
                  let last := Z.min total (orNumber (endPage options) total) in
                  (appendPages textResult (seqZ first (last - first + 1)) "",
                   show first +:+ "-" +:+ show last)
                else all
            end
        | None => all
        end in
      {| text := report filepath total extracted extractedText;
         totalPages := total;
         extractedPages := extracted |}
  | Throw message =>
      (* Fallback: return error info *)
      {| text :=
           "PDF file: " +:+ List.last filepath "" +:+ LF +:+ LF
           +:+ "Error extracting text: " +:+ message +:+ LF +:+ LF
           +:+ "File location: " +:+ render filepath;
         totalPages := 0;
         extractedPages := "error" |}
  end.

(** [getAllFiles(dirPath)]: [walk] is the recursion on a directory whose
    content is [d]. *)
Fixpoint walk (dirPath : path) (d : node) (arrayOfFiles : list path) : list path :=
  match d with
  | File _ => arrayOfFiles
  | Dir entries =>
      (fix each (entries : list (string * node)) (arrayOfFiles : list path) :=
         match entries with
         | [] => arrayOfFiles
         | (file, c) :: rest =>
             let filePath := (dirPath ++ [file])%list in
             each rest
               match c with
               | Dir _ => walk filePath c arrayOfFiles
               | File _ => (arrayOfFiles ++ [filePath])%list
               end
         end) entries arrayOfFiles
  end.

Definition getAllFiles (dirPath : path) (disk : node) : outcome (list path) :=
  match find dirPath disk with
  | Some ((Dir _) as d) => Return (walk dirPath d [])
  | Some (File _) => Throw ("ENOTDIR: not a directory, scandir '" +:+ render dirPath +:+ "'")
  | None => Throw ("ENOENT: no such file or directory, scandir '" +:+ render dirPath +:+ "'")
  end.

(** The files of an archive written under [extractPath]; [None] when the
    command fails on one of them. *)
Fixpoint expand (extractPath : path) (archive : list (path * string)) (disk : node)
    : option node :=
  match archive with
  | [] => Some disk
  | (name, bytes) :: rest =>
      let target := (extractPath ++ name)%list in
      match mkdirSync (removelast target) disk with
      | Some disk' =>
          match put target (File bytes) disk' with
          | Some disk'' => expand extractPath rest disk''
          | None => None
          end
      | None => None
      end
  end.

Definition extractPathOf (zipPath extractDir : path) : path :=
  (extractDir ++ [dropSuffix (List.last zipPath "") ".zip" +:+ "_extracted"])%list.

(** One of the two extraction commands run on the archive: [None] when
    it fails. *)
Definition runCommand (command : string -> outcome (list (path * string)))
    (zipPath extractPath : path) (disk : node) : option node :=
  match readFileSync zipPath disk with
  | Return archive =>
      match command archive with
      | Return entries => expand extractPath entries disk
      | Throw _ => None
      end
  | Throw _ => None
  end.

Definition extractZip `{Runtime} (zipPath extractDir : path) (disk : node)
    : outcome (list path) * node :=
  let extractPath := extractPathOf zipPath extractDir in
  (* Create extraction directory *)
  match (if existsSync extractPath disk then Some disk else mkdirSync extractPath disk) with
  | None => (Throw "EEXIST: file already exists, mkdir", disk)
  | Some disk =>
      (* Try using unzip command (available on most systems) *)
      match runCommand unzip zipPath extractPath disk with
      | Some disk' => (getAllFiles extractPath disk', disk')
      | None =>
          (* Fallback: try using PowerShell on Windows *)
          match runCommand expandArchive zipPath extractPath disk with
          | Some disk' => (getAllFiles extractPath disk', disk')
          | None =>
              (Throw "ZIP extraction failed. Please install unzip or use Windows with PowerShell.",
               disk)
          end
      end
  end.

Definition isTextType (extensions : list string) (ext : string) : bool :=
  existsb (String.eqb ext) extensions.

(** Limit content size per file *)
Definition capped (fileContent : string) : string :=
  if 50000 <? strlen fileContent
  then String.substring 0 (Z.to_nat 50000) fileContent +:+ LF +:+ LF
       +:+ "[Content truncated - file too large]" +:+ LF
  else fileContent +:+ LF.

Fixpoint readEach `{Runtime} (fileList : list path) (disk : node) (content : string)
    : string :=
  match fileList with
  | [] => content
  | file :: rest =>
      let ext := toLowerCase (extname (List.last file "")) in
      let filename := List.last file "" in
      let content :=
        content +:+ LF +:+ repeat_str "=" 80 +:+ LF
        +:+ "File: " +:+ filename +:+ LF
        +:+ repeat_str "=" 80 +:+ LF +:+ LF in
      readEach rest disk
        (if isTextType [".txt"; ".csv"; ".json"; ".xml"; ".html"; ".md"] ext then
           match readFileSync file disk with
           | Return fileContent => content +:+ capped fileContent
           | Throw err => content +:+ "[Error reading file: Error: " +:+ err +:+ "]" +:+ LF
           end
         else if String.eqb ext ".pdf" then
           content +:+ capped (text (extractPdfText file None disk))
         else content +:+ "[Binary file - " +:+ ext +:+ "]" +:+ LF)
  end.

Definition readExtractedFiles `{Runtime} (fileList : list path) (disk : node) : string :=
  readEach fileList disk
    ("Extracted " +:+ show (Z.of_nat (length fileList)) +:+ " file(s):" +:+ LF +:+ LF).

Definition downloadDir `{Runtime} : path := (cwd ++ ["downloads"; "documents"])%list.

Definition cachedNote (fileExists : bool) : string :=
  if fileExists then LF +:+ LF +:+ "[Note: Used cached file - already downloaded]" else "".

(** The part of [downloadAndExtract] that follows the download: the
    file at [filepath] handled by its type. *)
Definition extractByType `{Runtime} (filename : string) (filepath : path)
    (size : Z) (fileExists : bool) (pageOptions : option PageOptions) (disk : node)
    : DownloadResult * node :=
  let ext := toLowerCase (extname filename) in
  let meta type pageCount extracted :=
    Some {| meta_filename := filename; meta_size := size; meta_type := type;
            meta_pages := pageCount; meta_extractedPages := extracted |} in
  if String.eqb ext ".pdf" then
    let result := extractPdfText filepath pageOptions disk in
    ({| success := true;
        content := Some (text result +:+ cachedNote fileExists);
        files := None; error := None;
        metadata := meta "pdf" (Some (totalPages result)) (Some (extractedPages result)) |},
     disk)
  else if String.eqb ext ".zip" then
    let extractPath := extractPathOf filepath downloadDir in
    let cached :=
      match find extractPath disk with
      | Some (Dir (_ :: _)) => Return true
      | Some (File _) => Throw ("ENOTDIR: not a directory, scandir '" +:+ render extractPath +:+ "'")
      | _ => Return false
      end in
    match cached with
    | Throw message => (failed message, disk)
    | Return reuse =>
        let '(extractedFiles, disk) :=
          if reuse : bool then (getAllFiles extractPath disk, disk)
          else extractZip filepath downloadDir disk in
        match extractedFiles with
        | Throw message => (failed message, disk)
        | Return extractedFiles =>
            ({| success := true;
                content := Some (readExtractedFiles extractedFiles disk
                                 +:+ cachedNote fileExists);
                files := Some (map render extractedFiles); error := None;
                metadata := meta "zip" None None |},
             disk)
        end
    end
  else if isTextType [".txt"; ".csv"; ".json"; ".xml"; ".html"] ext then
    match readFileSync filepath disk with
    | Return fileContent =>
        ({| success := true;
            content := Some (fileContent +:+ cachedNote fileExists);
            files := None; error := None;
            metadata := meta "text" None None |},
         disk)
    | Throw message => (failed message, disk)
    end
  else
    ({| success := false; content := None; files := None;
        error := Some ("Unsupported file type: " +:+ ext
                       +:+ ". Supported: .pdf, .zip, .txt, .csv, .json, .xml, .html");
        metadata := meta "unknown" None None |},
     disk).

Definition withDisk (w : world) (d : node) : world :=
  {| disk := d; network := network w; requests := requests w;
     downloaded := downloaded w |}.

Definition downloadAndExtract `{Runtime} (url : string) (maxSizeMB : Z)
    (pageOptions : option PageOptions) (w : world)
    : completion DownloadResult * world :=
  (* Create downloads directory if it doesn't exist *)
  match (if existsSync downloadDir (disk w) then Some (disk w)
         else mkdirSync downloadDir (disk w)) with
  | None => (Throws "EEXIST: file already exists, mkdir", w)
  | Some d =>
      let w := withDisk w d in
      (* Parse URL and get filename *)
      match urlPathname url with
      | Throw message => (Done (failed message), w)
      | Return pathname =>
          let filename := orElse (basename pathname) "document" in
          let filepath := (downloadDir ++ [filename])%list in
          let extract (fileExists : bool) (w : world) :=
            match statSize filepath (disk w) with
            | Throw message => (Done (failed message), w)
            | Return size =>
                let '(result, d) :=
                  extractByType filename filepath size fileExists pageOptions (disk w) in
                (Done result, withDisk w d)
            end in
          (* Check if file already exists *)
          if existsSync filepath (disk w) then extract true w
          else
            match fetch url filepath maxSizeMB w with
            | (Resolved, w) => extract false w
            | (Rejected e, w) => (Done (failed (errorMessage e)), w)
            | (_, w) => (NoReturn, w)
            end
      end
  end.

(** [path.join(downloadDir, filename)] for a file name given by the
    caller: its segments under the directory (segments [.] and [..] are
    not modelled). *)
Definition segments (filename : string) : path :=
  filter (fun seg => negb (String.eqb seg "")) (split_on "/" "" filename).

(** The first part of [readDocumentPages], which sets [filepath]: the
    cached file, the file found in a subdirectory, or the file just
    downloaded. [inl] is a result returned at once. *)
Definition resolveFile `{Runtime} (filename url : option string) (maxSizeMB : Z)
    (w : world) : completion (DownloadResult + path) * world :=
  let download (url : string) (filepath : path) :=
    match fetch url filepath maxSizeMB w with
    | (Resolved, w) => (Done (inr filepath), w)
    | (Rejected e, w) => (Done (inl (failed (errorMessage e))), w)
    | (_, w) => (NoReturn, w)
    end in
  match default "" filename, default "" url with
  | (String _ _) as filename, url =>
      (* Case 1: Filename provided - check if it exists in cache *)
      let directPath := (downloadDir ++ segments filename)%list in
      if existsSync directPath (disk w) then (Done (inr directPath), w)
      else
        (* Search recursively in subdirectories *)
        match getAllFiles downloadDir (disk w) with
        | Throw message => (Done (inl (failed message)), w)
        | Return allFiles =>
            match filter (fun f => String.eqb (List.last f "") filename) allFiles, url with
            | found :: _, _ => (Done (inr found), w)
            | [], String _ _ => download url directPath
            | [], EmptyString =>
                (Done (inl (failed ("File not found in cache: " +:+ filename
                                    +:+ ". Please provide a URL to download it."))), w)
            end
        end
  | EmptyString, ((String _ _) as url) =>
      (* Case 2: Only URL provided - download it *)
      match urlPathname url with
      | Throw message => (Done (inl (failed message)), w)
      | Return pathname =>
          let urlFilename := orElse (basename pathname) "document" in
          let filepath := (downloadDir ++ [urlFilename])%list in
          if existsSync filepath (disk w) then (Done (inr filepath), w)
          else download url filepath
      end
  | EmptyString, EmptyString =>
      (* Case 3: Neither provided *)
      (Done (inl (failed "Either filename or url must be provided")), w)
  end.

Definition readDocumentPages `{Runtime} (filename url : option string)
    (pageOptions : PageOptions) (maxSizeMB : Z) (w : world)
    : completion DownloadResult * world :=
  match resolveFile filename url maxSizeMB w with
  | (Done (inr filepath), w) =>
      if String.eqb (render filepath) "" then
        (Done (failed "Could not determine file path"), w)
      else
        (* Check if it's a PDF *)
        let ext := toLowerCase (extname (List.last filepath "")) in
        if negb (String.eqb ext ".pdf") then
          (Done (failed ("This tool only supports PDF files. File type: " +:+ ext)), w)
        else
          (* Extract the requested pages *)
          match statSize filepath (disk w) with
          | Throw message => (Done (failed message), w)
          | Return size =>
              let result := extractPdfText filepath (Some pageOptions) (disk w) in
              (Done {| success := true;
                       content := Some (text result);
                       files := None; error := None;
                       metadata :=
                         Some {| meta_filename := List.last filepath "";
                                 meta_size := size; meta_type := "pdf";
                                 meta_pages := Some (totalPages result);
                                 meta_extractedPages := Some (extractedPages result) |} |},
               w)
          end
  | (Done (inl result), w) => (Done result, w)
  | (Throws message, w) => (Throws message, w)
  | (NoReturn, w) => (NoReturn, w)
  end.

(** *** Names used to state the properties *)

(** The text of page [p] under its header. *)
Definition pageBlock (textResult : TextResult) (p : Z) : string :=
  LF +:+ LF +:+ "--- PAGE " +:+ show p +:+ " ---" +:+ LF +:+ LF
  +:+ nth (Z.to_nat (p - 1)) (tr_pages textResult) "".




End Documents.

(** ** Inputs on which the properties are exercised *)
Module Samples.
Import JS Limiter.

(** [n] words separated by single spaces. *)
Definition wordy (n : nat) : string := join " " (replicate n "w").

Definition quote1 : json :=
  JObj [("symbol", JStr "INFY"); ("price", JNum (Int 1500)); ("volume", JNum (Int 12))].

(** 600 quotes: 4802 words. *)
Definition longList : list json := replicate 600 quote1.

(** The record of the specification's scenario, its 21 elements large
    enough for the record to pass the ceiling: 4207 words. *)
Definition sampleRecord : list (string * json) :=
  [("items", JArr (replicate 21 (JStr (wordy 200)))); ("name", JStr "x")].

Definition summaryOnly : LimitOptions :=
  {| maxItems := None; fields := None; summary := Some true |}.

(** A list of one item of 3600 words. *)
Definition oneHugeItem : json := JArr [JStr (wordy 3600)].

Import Documents.

(** A stand-in for the URL parser: the path of [scheme://host/path],
    up to a query or a fragment. *)
Definition pathnameOf (url : string) : outcome string :=
  match String.index 0 "://" url with
  | Some i =>
      let afterScheme := String.substring (i + 3) (String.length url) url in
      match String.index 0 "/" afterScheme with
      | Some j =>
          let rest := String.substring j (String.length afterScheme) afterScheme in
          Return (List.hd "" (split_on "?" "" (List.hd "" (split_on "#" "" rest))))
      | None => Return "/"
      end
  | None => Throw "Invalid URL"
  end.

(** A stand-in for the PDF parser: a document is [%PDF] followed by its
    pages, separated by [|]. *)
Definition pagesOf (dataBuffer : string) : outcome TextResult :=
  if String.prefix "%PDF" dataBuffer then
    let body := String.substring 4 (String.length dataBuffer) dataBuffer in
    Return {| tr_pages := split_on "|" "" body; tr_text := body |}
  else Throw "Invalid PDF structure.".

#[export] Instance sampleRuntime : Runtime := {|
  cwd := ["srv"];
  urlPathname := pathnameOf;
  getText := pagesOf;
  unzip := fun _ => Throw "unzip: command not found";
  expandArchive := fun _ => Throw "powershell: command not found";
|}.

Definition cacheDir (entries : list (string * node)) : node :=
  Dir [("srv", Dir [("downloads", Dir [("documents", Dir entries)])])].

Definition reportPath : path := ["srv"; "downloads"; "documents"; "report.pdf"].

(** A server that sends the head of a 200 response and seven bytes of
    its body, then stalls until the socket times out. *)
Definition stalling : string -> list event :=
  fun _ => [Response 200 None None; Data "partial"; SocketTimeout].

(** A server that sends a five-page document. *)
Definition fivePages : string := "%PDFone|two|three|four|five".
Definition serving : string -> list event :=
  fun _ => [Response 200 None (Some "27"); Data fivePages; Finish].

(** A server that announces more bytes than one megabyte. *)
Definition announcing : string -> list event :=
  fun _ => [Response 200 None (Some "2000000"); Data "....."; Finish].

(** A server that has no such document. *)
Definition missing : string -> list event :=
  fun _ => [Response 404 None None].

Definition world0 (entries : list (string * node)) (network : servers) : world :=
  {| disk := cacheDir entries; network := network; requests := []; downloaded := [] |}.

Definition firstFive : PageOptions :=
  {| startPage := Some 0; endPage := Some 10000; pages := None |}.

End Samples.

(** ** Objects: what the embedding leaves to the prototypes, and spread *)
Module Objects.
Import JS Limiter.

(** The property names that every object inherits from
    [Object.prototype]: [k in o] holds for them although [o] has no own
    property of that name. *)
Definition inheritedNames : list string :=
  ["constructor"; "__proto__"; "hasOwnProperty"; "isPrototypeOf";
   "propertyIsEnumerable"; "toLocaleString"; "toString"; "valueOf";
   "__defineGetter__"; "__defineSetter__"; "__lookupGetter__"; "__lookupSetter__"].

(** ToBoolean of a value. *)
Definition truthyValue (v : json) : bool :=
  match v with
  | JUndefined | JNull => false
  | JBool b => b
  | JNum n => truthy n
  | JStr s => negb (String.eqb s "")
  | JArr _ | JObj _ => true
  end.

(** [a || b] on values. *)
Definition orValue (a b : json) : json := if truthyValue a then a else b.

(** [{ ...target, ...source }], given the properties copied so far:
    each own property of the source is defined on the target, in the
    source's order. *)
Definition spread (source target : list (string * json)) : list (string * json) :=
  fold_left (fun acc kv => assign (fst kv) (snd kv) acc) source target.

End Objects.

(** ** src/tools/common-properties.ts *)
Module CommonProperties.
Import JS Limiter Objects.

(** Common filter properties for limiting response data *)
Definition filterProperties : list (string * json) :=
  [("max_items",
    JObj [("type", JStr "number");
          ("description",
           JStr "Maximum number of items to return (limits response size)")]);
   ("fields",
    JObj [("type", JStr "array");
          ("items", JObj [("type", JStr "string")]);
          ("description",
           JStr ("Specific fields to include in response (e.g., ["
                 +:+ dquote +:+ "symbol" +:+ dquote +:+ ", "
                 +:+ dquote +:+ "price" +:+ dquote +:+ ", "
                 +:+ dquote +:+ "change" +:+ dquote +:+ "])"))]);
   ("summary",
    JObj [("type", JStr "boolean");
          ("description",
           JStr "Return only summary instead of full data (useful for very large datasets)")])].

(** Helper to add filter properties to a tool's input schema *)
Definition addFilterProperties (properties : list (string * json)) : list (string * json) :=
  spread filterProperties (spread properties []).

End CommonProperties.

(** ** [formatLimitedResponse] (src/utils/response-limiter.ts) *)
Module Format.
Import JS Limiter.

(** The texts sent to the client hold code units above 255 (two emoji
    and a line of box-drawing characters in the headers): such a text
    is the list of its UTF-16 code units. *)
Definition text16 := list Z.

Definition units (s : string) : text16 :=
  map (fun c => Z.of_nat (nat_of_ascii c)) (list_ascii_of_string s).

Definition chart : text16 := [55357; 56522].      (* U+1F4CA *)
Definition bulb : text16 := [55357; 56481].       (* U+1F4A1 *)
Definition warning : text16 := [9888; 65039].     (* U+26A0 U+FE0F *)
Definition rule : text16 := replicate 40 9473.    (* U+2501, forty times *)

(** [{ content: [{ type: 'text', text }], isError }]; [responseText] is
    [None] when [text] is [undefined], [isError] is false when the
    property is absent. *)
Record ToolResponse := {
  responseText : option text16;
  isError : bool;
}.

(** The block of metadata that leads the text. *)
Definition metaText (meta : ResponseMetadata) : text16 :=
  (units (LF +:+ LF) ++ chart ++ units (" RESPONSE METADATA:" +:+ LF)
   ++ rule ++ units LF
   ++ match totalItems meta with
      | Some n => if n =? 0 then [] else units ("Total Items: " +:+ show n +:+ LF)
      | None => []
      end
   ++ units ("Total Words: " +:+ show (totalWords meta) +:+ LF)
   ++ units ("Estimated Tokens: " +:+ show_number (estimatedTokens meta) +:+ LF)
   ++ match availableFields meta with
      | Some fs => units ("Available Fields: " +:+ join ", " fs +:+ LF)
      | None => []
      end
   ++ match recommendedFilters meta with
      | Some recommended =>
          units LF ++ bulb ++ units (" RECOMMENDED FILTERS:" +:+ LF)
          ++ (if truthy (rec_maxItems recommended)
              then units ("  max_items: " +:+ show_number (rec_maxItems recommended) +:+ LF)
              else [])
          ++ match suggestedFields recommended with
             | Some fs =>
                 units ("  fields: " +:+ default "undefined" (stringify (strings fs)) +:+ LF)
             | None => []
             end
      | None => []
      end
   ++ rule ++ units LF)%list.

(** Format limited response for MCP *)
Definition formatLimitedResponse (result : json) (options : LimitOptions)
    : outcome ToolResponse :=
  match limitResponse result options with
  | Throw err => Throw err
  | Return limited =>
      let text :=
        match data limited with
        | JStr s => Some s
        | v => stringify2 v
        end in
      let text :=
        match metadata limited with
        | Some meta =>
            (* Add metadata information if present *)
            Some (metaText meta ++ units LF ++ units (default "undefined" text))%list
        | None =>
            match truncated limited, message limited with
            | true, Some ((String _ _) as m) =>
                Some (warning ++ units (" " +:+ m +:+ LF +:+ LF)
                      ++ units (default "undefined" text))%list
            | _, _ => units <$> text
            end
        end in
      Return {| responseText := text; isError := false |}
  end.

(** The structured error response:
    [{ content: [{ type: 'text', text: `Error: ${error.message}` }],
    isError: true }] *)
Definition errorResponse (message : string) : ToolResponse :=
  {| responseText := Some (units ("Error: " +:+ message)); isError := true |}.

End Format.

(** ** The tools advertised (src/tools/*.ts) *)
Module Tools.

(** The names of the entries of [nseTools], [bseTools] and
    [documentTools], in their order. *)
Definition nseTools : list string :=
  ["nse_get_market_status"; "nse_equity_quote"; "nse_get_quote"; "nse_lookup_symbol";
   "nse_get_gainers"; "nse_get_losers"; "nse_equity_historical"; "nse_index_historical";
   "nse_fno_historical"; "nse_vix_historical"; "nse_option_chain"; "nse_filtered_option_chain";
   "nse_compile_option_chain"; "nse_calculate_max_pain"; "nse_fno_lots"; "nse_futures_expiry";
   "nse_corporate_actions"; "nse_corporate_announcements"; "nse_board_meetings";
   "nse_annual_reports"; "nse_circulars"; "nse_current_ipos"; "nse_upcoming_ipos";
   "nse_past_ipos"; "nse_ipo_details"; "nse_block_deals"; "nse_bulk_deals"; "nse_holidays";
   "nse_list_indices"; "nse_list_stocks_by_index"; "nse_list_etf"; "nse_list_sme";
   "nse_list_sgb"; "nse_equity_meta_info"; "nse_download_equity_bhavcopy";
   "nse_download_delivery_bhavcopy"; "nse_download_indices_bhavcopy";
   "nse_download_fno_bhavcopy"].

Definition bseTools : list string :=
  ["bse_quote"; "bse_quote_weekly_hl"; "bse_gainers"; "bse_losers"; "bse_advance_decline";
   "bse_near_52week"; "bse_index_historical"; "bse_all_indices_by_date";
   "bse_corporate_actions"; "bse_announcements"; "bse_result_calendar"; "bse_lookup_symbol";
   "bse_get_scrip_name"; "bse_get_scrip_code"; "bse_list_securities"; "bse_download_bhavcopy";
   "bse_download_delivery"; "bse_fetch_index_names"; "bse_fetch_index_metadata"].

Definition documentTools : list string := ["download_document"; "read_document_pages"].

End Tools.

(** ** src/handlers/nse-handler.ts *)
Module NseHandler.
Import JS Limiter Objects Format Documents.

(** What the handler passes to the client: a value taken from the
    arguments, a [Date] made by [parseDate], or an object literal. *)
Inductive value : Type :=
| Plain (v : json)
| NewDate (dateStr : json)
| Fields (props : list (string * value)).

(** The client of nse-bse-api: what the call of a method with these
    arguments comes to. *)
Class NSEClient := {
  invoke : string -> list value -> completion json;
}.

(** The arguments of a tool call: the three filters, as the tools'
    input schemas type them, and the other arguments. *)
Record ToolArgs := {
  max_items : option number;
  filter_fields : option (list string);
  filter_summary : option bool;
  named : list (string * json);
}.

Definition parseDate (dateStr : json) : value := NewDate dateStr.

Definition extractLimitOptions (args : ToolArgs) : LimitOptions :=
  {| maxItems := max_items args;
     fields := filter_fields args;
     summary := filter_summary args |}.

(** [args.k], and [args.k ? parseDate(args.k) : undefined]. *)
Definition arg (k : string) (args : ToolArgs) : json := get k (named args).
Definition dateIfGiven (k : string) (args : ToolArgs) : value :=
  if truthyValue (arg k args) then parseDate (arg k args) else Plain JUndefined.

(** [const data = await first; result = next(data)] *)
Definition andThen {A B} (first : completion A) (next : A -> completion B) : completion B :=
  match first with
  | Done a => next a
  | Throws message => Throws message
  | NoReturn => NoReturn
  end.

(** The [switch (name)]: each label with the call its case makes. *)
Definition cases `{NSEClient} : list (string * (ToolArgs -> completion json)) :=
  [ (* Market Data *)
    ("nse_get_market_status", fun args => invoke "status" []);
    ("nse_equity_quote", fun args => invoke "equityQuote" [Plain (arg "symbol" args)]);
    ("nse_get_quote", fun args =>
       invoke "quote" [Fields [("symbol", Plain (arg "symbol" args));
                               ("segment", Plain (arg "segment" args))]]);
    ("nse_lookup_symbol", fun args => invoke "lookup" [Plain (arg "query" args)]);
    ("nse_get_gainers", fun args =>
       andThen (invoke "listEquityStocksByIndex" [Plain (JStr "NIFTY 50")]) (fun data =>
       invoke "gainers" [Plain data; Plain (orValue (arg "count" args) (JNum (Int 10)))]));
    ("nse_get_losers", fun args =>
       andThen (invoke "listEquityStocksByIndex" [Plain (JStr "NIFTY 50")]) (fun data =>
       invoke "losers" [Plain data; Plain (orValue (arg "count" args) (JNum (Int 10)))]));
    (* Historical Data *)
    ("nse_equity_historical", fun args =>
       invoke "fetch_equity_historical_data"
         [Fields [("symbol", Plain (arg "symbol" args));
                  ("from_date", parseDate (arg "from_date" args));
                  ("to_date", parseDate (arg "to_date" args));
                  ("series", Plain (orValue (arg "series" args) (JStr "EQ")))]]);
    ("nse_index_historical", fun args =>
       invoke "fetch_historical_index_data"
         [Fields [("index", Plain (arg "index" args));
                  ("from_date", parseDate (arg "from_date" args));
                  ("to_date", parseDate (arg "to_date" args))]]);
    ("nse_fno_historical", fun args =>
       invoke "fetch_historical_fno_data"
         [Fields [("symbol", Plain (arg "symbol" args));
                  ("from_date", parseDate (arg "from_date" args));
                  ("to_date", parseDate (arg "to_date" args));
                  ("instrument_type", Plain (arg "instrument_type" args));
                  ("expiry_date", dateIfGiven "expiry_date" args)]]);
    ("nse_vix_historical", fun args =>
       invoke "fetch_historical_vix_data"
         [Fields [("from_date", dateIfGiven "from_date" args);
                  ("to_date", dateIfGiven "to_date" args)]]);
    (* Options & Derivatives *)
    ("nse_option_chain", fun args => invoke "optionChain" [Plain (arg "symbol" args)]);
    ("nse_filtered_option_chain", fun args =>
       invoke "filteredOptionChain" [Plain (arg "symbol" args);
                                     Plain (arg "strike_range" args)]);
    ("nse_compile_option_chain", fun args =>
       invoke "compileOptionChain" [Plain (arg "symbol" args);
                                    parseDate (arg "expiry_date" args)]);
    ("nse_calculate_max_pain", fun args =>
       andThen (invoke "optionChain" [Plain (arg "symbol" args)]) (fun optionChain =>
       invoke "maxpain" [Plain optionChain; parseDate (arg "expiry_date" args)]));
    ("nse_fno_lots", fun args => invoke "fnoLots" []);
    ("nse_futures_expiry", fun args =>
       invoke "getFuturesExpiry" [Plain (orValue (arg "index" args) (JStr "nifty"))]);
    (* Corporate Information *)
    ("nse_corporate_actions", fun args =>
       invoke "actions"
         [Fields [("symbol", Plain (arg "symbol" args));
                  ("from_date", dateIfGiven "from_date" args);
                  ("to_date", dateIfGiven "to_date" args);
                  ("segment", Plain (arg "segment" args))]]);
    ("nse_corporate_announcements", fun args =>
       invoke "announcements"
         [Fields [("symbol", Plain (arg "symbol" args));
                  ("from_date", dateIfGiven "from_date" args);
                  ("to_date", dateIfGiven "to_date" args)]]);
    ("nse_board_meetings", fun args =>
       invoke "boardMeetings"
         [Fields [("symbol", Plain (arg "symbol" args));
                  ("from_date", dateIfGiven "from_date" args);
                  ("to_date", dateIfGiven "to_date" args)]]);
    ("nse_annual_reports", fun args =>
       invoke "annual_reports" [Plain (arg "symbol" args);
                                Plain (orValue (arg "segment" args) (JStr "equities"))]);
    ("nse_circulars", fun args =>
       invoke "circulars"
         [Fields [("from_date", dateIfGiven "from_date" args);
                  ("to_date", dateIfGiven "to_date" args)]]);
    (* IPO *)
    ("nse_current_ipos", fun args => invoke "listCurrentIPO" []);
    ("nse_upcoming_ipos", fun args => invoke "listUpcomingIPO" []);
    ("nse_past_ipos", fun args =>
       invoke "listPastIPO" [dateIfGiven "from_date" args; dateIfGiven "to_date" args]);
    ("nse_ipo_details", fun args =>
       invoke "getIpoDetails" [Fields [("symbol", Plain (arg "symbol" args))]]);
    (* Market Activity *)
    ("nse_block_deals", fun args => invoke "blockDeals" []);
    ("nse_bulk_deals", fun args =>
       invoke "bulkdeals" [parseDate (arg "from_date" args); parseDate (arg "to_date" args)]);
    ("nse_holidays", fun args =>
       invoke "holidays" [Plain (orValue (arg "type" args) (JStr "trading"))]);
    (* Lists & Metadata *)
    ("nse_list_indices", fun args => invoke "listIndices" []);
    ("nse_list_stocks_by_index", fun args =>
       invoke "listEquityStocksByIndex" [Plain (arg "index" args)]);
    ("nse_list_etf", fun args => invoke "listEtf" []);
    ("nse_list_sme", fun args => invoke "listSme" []);
    ("nse_list_sgb", fun args => invoke "listSgb" []);
    ("nse_equity_meta_info", fun args => invoke "equityMetaInfo" [Plain (arg "symbol" args)]);
    (* Downloads *)
    ("nse_download_equity_bhavcopy", fun args =>
       invoke "equityBhavcopy" [parseDate (arg "date" args)]);
    ("nse_download_delivery_bhavcopy", fun args =>
       invoke "deliveryBhavcopy" [parseDate (arg "date" args)]);
    ("nse_download_indices_bhavcopy", fun args =>
       invoke "indicesBhavcopy" [parseDate (arg "date" args)]);
    ("nse_download_fno_bhavcopy", fun args =>
       invoke "fnoBhavcopy" [parseDate (arg "date" args)]) ].

(** The case that [switch (name)] selects. *)
Fixpoint select {A} (name : string) (labelled : list (string * A)) : option A :=
  match labelled with
  | [] => None
  | (label, body) :: rest => if String.eqb name label then Some body else select name rest
  end.

Definition handleNseTool `{NSEClient} (name : string) (args : ToolArgs)
    : completion ToolResponse :=
  let attempt :=
    match select name cases with
    | Some call =>
        andThen (call args) (fun result =>
          (* Apply response limiting *)
          match formatLimitedResponse result (extractLimitOptions args) with
          | Return response => Done response
          | Throw message => Throws message
          end)
    | None => Throws ("Unknown NSE tool: " +:+ name)
    end in
  match attempt with
  | Throws message => Throws ("NSE API Error: " +:+ message)
  | settled => settled
  end.

End NseHandler.

(** ** [handleDocumentTool] (the document handler) *)
Module DocumentHandler.
Import JS Limiter Format Documents.

(** The arguments of the two document tools, as their input schemas
    type them. *)
Record DocumentArgs := {
  arg_url : option string;
  arg_filename : option string;
  max_size_mb : option Z;
  start_page : option Z;
  end_page : option Z;
  arg_pages : option (list Z);
}.

(** The object a [DownloadResult] is, as a value: the properties that
    the object literal of each [return] sets, in its order. *)
Definition metadataObject (m : Metadata) : json :=
  JObj ([("filename", JStr (meta_filename m));
         ("size", JNum (Int (meta_size m)));
         ("type", JStr (meta_type m))]
        ++ match meta_pages m with Some n => [("pages", JNum (Int n))] | None => [] end
        ++ match meta_extractedPages m with
           | Some s => [("extractedPages", JStr s)]
           | None => []
           end)%list.

Definition resultValue (r : DownloadResult) : json :=
  JObj ([("success", JBool (success r))]
        ++ match content r with Some c => [("content", JStr c)] | None => [] end
        ++ match files r with Some fs => [("files", strings fs)] | None => [] end
        ++ match error r with Some e => [("error", JStr e)] | None => [] end
        ++ match Documents.metadata r with
           | Some m => [("metadata", metadataObject m)]
           | None => []
           end)%list.

Definition handleDocumentTool `{Runtime} (name : string) (args : DocumentArgs) (w : world)
    : completion ToolResponse * world :=
  let pageOptions :=
    {| startPage := start_page args; endPage := end_page args; pages := arg_pages args |} in
  let maxSizeMB := orNumber (max_size_mb args) 50 in
  (* Document content is already limited by page selection *)
  let respond (settled : completion DownloadResult * world) :=
    match settled with
    | (Done result, w') =>
        (Done match formatLimitedResponse (resultValue result) no_options with
              | Return response => response
              | Throw message => errorResponse message
              end, w')
    | (Throws message, w') => (Done (errorResponse message), w')
    | (NoReturn, w') => (NoReturn, w')
    end in
  if String.eqb name "download_document" then
    respond (downloadAndExtract (default "undefined" (arg_url args)) maxSizeMB
               (Some pageOptions) w)
  else if String.eqb name "read_document_pages" then
    respond (readDocumentPages (arg_filename args) (arg_url args) pageOptions maxSizeMB w)
  else (Done (errorResponse ("Unknown document tool: " +:+ name)), w).

End DocumentHandler.

(** ** The tool execution handler (src/index.ts) *)
Module Server.
Import JS Format Documents DocumentHandler.

Section CallTool.
(** The arguments of the request ([args || {}]) and the state that the
    handlers work on. *)
Context {Args State : Type}.
Variables handleNseTool handleBseTool handleDocumentTool :
  string -> Args -> State -> completion ToolResponse * State.

(** [name.startsWith(prefix)] *)
Definition startsWith (prefix name : string) : bool := String.prefix prefix name.

(** The [catch] of the handler: an error thrown on the way becomes a
    structured error response. *)
Definition caught (settled : completion ToolResponse * State)
    : completion ToolResponse * State :=
  match settled with
  | (Throws message, st') => (Done (errorResponse message), st')
  | _ => settled
  end.

Definition callTool (name : string) (args : Args) (st : State)
    : completion ToolResponse * State :=
  caught
    (* Route to appropriate handler based on tool prefix *)
    (if startsWith "nse_" name then handleNseTool name args st
     else if startsWith "bse_" name then handleBseTool name args st
     else if String.eqb name "download_document" then handleDocumentTool name args st
     else (Throws ("Unknown tool: " +:+ name), st)).

End CallTool.

End Server.

(** ** The shape of a disk *)
Module DiskShape.
Import Documents.

(** A directory holds one entry under a name. *)
Inductive wellFormed : node -> Prop :=
| wf_file content : wellFormed (File content)
| wf_dir entries :
    NoDup (map fst entries) ->
    Forall (fun entry => wellFormed (snd entry)) entries ->
    wellFormed (Dir entries).

End DiskShape.

(** ** Inputs for the handlers *)
Module Scenarios.
Import JS Limiter Format Documents NseHandler DocumentHandler Samples.

(** A client whose market status answers and whose other calls are
    refused by the exchange. *)
#[export] Instance refusing : NSEClient := {|
  invoke := fun method arguments =>
    if String.eqb method "status"
    then Done (JObj [("marketState", JStr "Closed")])
    else Throws "Request failed with status code 401";
|}.

Definition noArguments : ToolArgs :=
  {| max_items := None; filter_fields := None; filter_summary := None; named := [] |}.

(** A handler that is never reached. *)
Definition idle {Args State} (name : string) (args : Args) (st : State)
    : completion ToolResponse * State := (NoReturn, st).

(** A server that sends a text of 3600 words. *)
Definition notes : string -> list event :=
  fun _ => [Response 200 None None; Data (wordy 3600); Finish].

Definition notesArgs : DocumentArgs :=
  {| arg_url := Some "https://nse.example/docs/notes.txt"; arg_filename := None;
     max_size_mb := None; start_page := None; end_page := None; arg_pages := None |}.

(** A server that sends a spreadsheet. *)
Definition sheet : string -> list event :=
  fun _ => [Response 200 None (Some "4"); Data "a;b;"; Finish].

End Scenarios.

(** * Properties *)

(** ** The primitives on small inputs *)
Module Checks.
Import JS Limiter Documents.

Example split_pieces :
  split_ws "a  b c" = ["a"; "b"; "c"] /\ split_ws "" = [""] /\
  split_ws " a " = [""; "a"; ""].
Proof. repeat split. Qed.

Example trim_both_ends : trim "  a b  " = "a b" /\ trim "   " = "".
Proof. split; reflexivity. Qed.

Example countWords_small :
  countWords "a  b c" = 3 /\ countWords "  a " = 1 /\ countWords "" = 1.
Proof. repeat split. Qed.

Example truncateToWords_cut :
  truncateToWords "a b c d e" 3 =
    "a b c" +:+ LF +:+ LF
    +:+ "[... 2 more words truncated. Use filters to get specific data.]" /\
  truncateToWords "a b c" 3 = "a b c".
Proof. split; reflexivity. Qed.

Example stringify2_layout :
  stringify2 (JObj [("a", JArr [JNum (Int 1); JNum (Int 2)]); ("b", JStr "x y");
                    ("c", JUndefined); ("d", JArr []); ("e", JObj [])]) =
    Some ("{" +:+ LF +:+ "  " +:+ quote "a" +:+ ": [" +:+ LF +:+ "    1," +:+ LF
          +:+ "    2" +:+ LF +:+ "  ]," +:+ LF +:+ "  " +:+ quote "b" +:+ ": "
          +:+ quote "x y" +:+ "," +:+ LF +:+ "  " +:+ quote "d" +:+ ": []," +:+ LF
          +:+ "  " +:+ quote "e" +:+ ": {}" +:+ LF +:+ "}").
Proof. reflexivity. Qed.

Example stringify_compact :
  stringify (strings ["symbol"; "price"]) =
    Some ("[" +:+ quote "symbol" +:+ "," +:+ quote "price" +:+ "]") /\
  stringify JUndefined = None /\
  stringify (JArr [JUndefined; JNum NaN]) = Some "[null,null]".
Proof. repeat split. Qed.

Example quote_escapes :
  quote (String (ascii_of_nat 10) (String (ascii_of_nat 1) "a\b")) =
    dquote +:+ "\n\u0001a\\b" +:+ dquote.
Proof. reflexivity. Qed.

Example assign_order :
  map fst (assign "1" JNull (assign "b" JNull (assign "2" JNull (assign "a" JNull []))))
    = ["1"; "2"; "a"; "b"] /\
  assign "a" (JBool true) [("a", JNull); ("b", JNull)] = [("a", JBool true); ("b", JNull)].
Proof. split; reflexivity. Qed.

Example limitArrayData_projects :
  limitArrayData
    (JArr [JObj [("symbol", JStr "INFY"); ("price", JNum (Int 1500))];
           JObj [("symbol", JStr "TCS")]; JNum (Int 7)])
    {| maxItems := Some (Int 2); fields := Some ["price"; "symbol"]; summary := None |}
  = JArr [JObj [("price", JNum (Int 1500)); ("symbol", JStr "INFY")];
          JObj [("symbol", JStr "TCS")]].
Proof. reflexivity. Qed.

Example parseInt_small :
  parseInt " 42abc" = Some 42 /\ parseInt "0x1F" = Some 31 /\ parseInt "-12" = Some (-12) /\
  parseInt "abc" = None /\ parseInt "" = None.
Proof. repeat split. Qed.

Example megabytes_small : megabytes 2000000 = "1.91" /\ megabytes 52428800 = "50.00".
Proof. split; reflexivity. Qed.

Example names_and_extensions :
  basename "/docs/report.pdf" = "report.pdf" /\ basename "/a/b/" = "b" /\ basename "/" = "" /\
  extname "report.pdf" = ".pdf" /\ extname "a.tar.gz" = ".gz" /\ extname ".bashrc" = "" /\
  extname ".." = "" /\ extname "a." = "." /\ extname "README" = "" /\
  toLowerCase "Report.PDF" = "report.pdf" /\
  dropSuffix "filings.zip" ".zip" = "filings" /\ dropSuffix "a.ZIP" ".zip" = "a.ZIP".
Proof. repeat split. Qed.

Example files_on_disk :
  let d := Dir [("a", Dir [("x.txt", File "1"); ("b", Dir [("y.txt", File "2")])]);
                ("z.txt", File "3")] in
  getAllFiles [] d = Return [["a"; "x.txt"]; ["a"; "b"; "y.txt"]; ["z.txt"]] /\
  existsSync ["a"; "b"] d = true /\ existsSync ["a"; "c"] d = false /\
  (find ["a"; "x.txt"] <$> unlinkSync ["a"; "x.txt"] d) = Some None /\
  (find ["a"; "c"; "d"] <$> mkdirSync ["a"; "c"; "d"] d) = Some (Some (Dir [])) /\
  mkdirSync ["z.txt"; "d"] d = None.
Proof. repeat split. Qed.

End Checks.

(** ** Binary64 arithmetic: no NaN out of a division of integers *)
Module Binary64.
Import JS.

(** Rounding keeps a non-negative mantissa non-negative, hence never
    yields the NaN that [binary_round_aux] reserves for a negative one. *)
Section Rounding.
Variables prec emax : Z.

Lemma shr_1_nonneg mrs : 0 <= shr_m mrs -> 0 <= shr_m (shr_1 mrs).
Proof.
  destruct mrs as [m r s]; simpl.
  destruct m as [|p|p]; try destruct p; simpl; lia.
Qed.

Lemma iter_shr_1_nonneg p mrs :
  0 <= shr_m mrs -> 0 <= shr_m (SpecFloat.iter_pos shr_1 p mrs).
Proof.
  revert mrs; induction p as [p IH|p IH|]; intros mrs H; simpl;
    auto using shr_1_nonneg.
Qed.

Lemma shr_fexp_nonneg m e l :
  0 <= m -> 0 <= shr_m (fst (shr_fexp prec emax m e l)).
Proof.
  intros H. unfold shr_fexp, shr.
  assert (H0 : 0 <= shr_m (shr_record_of_loc m l))
    by (destruct l as [|[]]; exact H).
  destruct (fexp prec emax (Zdigits2 m + e) - e); simpl;
    auto using iter_shr_1_nonneg.
Qed.

Lemma round_nearest_even_nonneg m l : 0 <= m -> 0 <= round_nearest_even m l.
Proof.
  intros H. destruct l as [|[]]; simpl; try lia.
  destruct (Z.even m); lia.
Qed.

Lemma binary_round_aux_not_nan s m e l :
  0 <= m -> binary_round_aux prec emax s m e l <> S754_nan.
Proof.
  intros H. unfold binary_round_aux.
  pose proof (shr_fexp_nonneg m e l H) as H1.
  destruct (shr_fexp prec emax m e l) as [mrs' e']; simpl in H1.
  pose proof (shr_fexp_nonneg _ e' loc_Exact
                (round_nearest_even_nonneg _ (loc_of_shr_record mrs') H1)) as H2.
  destruct (shr_fexp prec emax _ e' loc_Exact) as [mrs'' e'']; simpl in H2.
  destruct (shr_m mrs''); try discriminate; try lia.
  destruct (e'' <=? emax - prec); discriminate.
Qed.
End Rounding.

(** The divisions of [itemsThatFit] never produce NaN. *)
Lemma of_Z_not_nan n : of_Z n <> S754_nan.
Proof.
  unfold of_Z, binary_normalize, binary_round.
  destruct n; try discriminate;
    destruct (shl_align _ _ _); apply binary_round_aux_not_nan; lia.
Qed.

Lemma div_core_nonneg prec emax m1 e1 m2 e2 :
  0 <= fst (fst (SFdiv_core_binary prec emax (Z.pos m1) e1 (Z.pos m2) e2)).
Proof.
  unfold SFdiv_core_binary.
  set (s := _ - _ - Z.min _ _).
  set (m' := match s with Z.pos _ => Z.shiftl (Z.pos m1) s | 0 => Z.pos m1 | Z.neg _ => 0 end).
  assert (Hm : 0 <= m').
  { subst m'. destruct s; try lia. apply Z.shiftl_nonneg. lia. }
  pose proof (Z_div_mod m' (Z.pos m2) ltac:(lia)) as Hd.
  destruct (Z.div_eucl m' (Z.pos m2)) as [q r]. simpl.
  destruct Hd as [Hq Hr]. nia.
Qed.

Lemma fdiv_finite_not_nan sx mx ex sy my ey :
  fdiv (S754_finite sx mx ex) (S754_finite sy my ey) <> S754_nan.
Proof.
  unfold fdiv, SFdiv.
  pose proof (div_core_nonneg 53 1024 mx ex my ey) as H.
  destruct (SFdiv_core_binary _ _ _ _ _ _) as [[mz ez] lz]. simpl in H.
  apply binary_round_aux_not_nan. exact H.
Qed.

Lemma fdiv_by_finite_not_nan x s m e :
  x <> S754_nan -> fdiv x (S754_finite s m e) <> S754_nan.
Proof.
  destruct x; intros H; try discriminate; try congruence.
  apply fdiv_finite_not_nan.
Qed.

Lemma fdiv_of_finite_not_nan s m e y :
  y <> S754_nan -> fdiv (S754_finite s m e) y <> S754_nan.
Proof.
  destruct y; intros H; try discriminate; try congruence.
  apply fdiv_finite_not_nan.
Qed.

Lemma floor_not_nan x : x <> S754_nan -> floor x <> NaN.
Proof. destruct x as [| [] | |]; simpl; congruence. Qed.

Lemma max_10_le x : x <> NaN -> le (Int 10) (max (Int 10) x) = true.
Proof.
  destruct x; simpl; try congruence; intros _; try reflexivity.
  apply Z.leb_le. lia.
Qed.

End Binary64.

(** ** Strings *)
Module StringFacts.

Lemma length_append s t :
  String.length (s +:+ t) = (String.length s + String.length t)%nat.
Proof. induction s as [|c s IH]; simpl; [reflexivity|]. rewrite IH. reflexivity. Qed.

Lemma append_cancel_r s1 s2 t : s1 +:+ t = s2 +:+ t -> s1 = s2.
Proof.
  revert s2; induction s1 as [|c s1 IH]; intros [|c' s2] H; simpl in H.
  - reflexivity.
  - apply (f_equal String.length) in H. rewrite !length_append in H. simpl in H. lia.
  - apply (f_equal String.length) in H. rewrite !length_append in H. simpl in H. lia.
  - injection H as -> H. f_equal. apply IH, H.
Qed.

Lemma append_neq_self s t : t <> "" -> s +:+ t <> s.
Proof.
  intros Ht H. apply (f_equal String.length) in H. rewrite length_append in H.
  destruct t; [congruence|]. simpl in H. lia.
Qed.

Lemma append_assoc (a b c : string) : (a +:+ b) +:+ c = a +:+ (b +:+ c).
Proof.
  induction a as [|x a IH]; [reflexivity|].
  change (String x ((a +:+ b) +:+ c) = String x (a +:+ b +:+ c)).
  rewrite IH. reflexivity.
Qed.

Lemma append_empty_r (a : string) : a +:+ "" = a.
Proof.
  induction a as [|x a IH]; [reflexivity|].
  change (String x (a +:+ "") = String x a). rewrite IH. reflexivity.
Qed.

End StringFacts.

(** ** Words of a text *)
Module WordFacts.
Import JS StringFacts.

Lemma append_cons c s t : String c s +:+ t = String c (s +:+ t).
Proof. reflexivity. Qed.

Lemma rev_app_rev_app w : forall acc t,
  String.rev_app (String.rev_app w acc) t = String.rev_app acc (w +:+ t).
Proof.
  induction w as [|c w IH]; intros acc t; [reflexivity|].
  cbn [String.rev_app]. rewrite IH. reflexivity.
Qed.

Lemma rev_rev_app w : String.rev (String.rev_app w "") = w.
Proof. unfold String.rev. rewrite rev_app_rev_app. apply append_empty_r. Qed.

(** Reading a word. *)
Lemma split_go_word w : forall cur inws rest,
  spaceless w = true -> w <> "" ->
  split_go cur inws (w +:+ rest) = split_go (String.rev_app w cur) false rest.
Proof.
  induction w as [|c w IH]; intros cur inws rest Hw Hne; [congruence|].
  simpl in Hw. apply andb_prop in Hw as [Hc Hw].
  rewrite append_cons. cbn [split_go String.rev_app].
  destruct (is_space c); [discriminate|].
  destruct w as [|c' w'].
  - reflexivity.
  - apply IH; [exact Hw|discriminate].
Qed.

Lemma split_go_word_space w sp rest inws :
  word w -> is_space sp = true ->
  split_go "" inws (w +:+ String sp rest) = w :: split_go "" true rest.
Proof.
  intros [Hne Hw] Hsp. rewrite split_go_word by assumption.
  cbn [split_go]. rewrite Hsp. rewrite rev_rev_app. reflexivity.
Qed.

Lemma split_go_last_word w inws : word w -> split_go "" inws w = [w].
Proof.
  intros [Hne Hw]. rewrite <- (append_empty_r w) at 1.
  rewrite split_go_word by assumption. cbn [split_go]. rewrite rev_rev_app. reflexivity.
Qed.

Lemma join_cons2 sep x y r : join sep (x :: y :: r) = x +:+ sep +:+ join sep (y :: r).
Proof. reflexivity. Qed.

(** The words of a text that starts with words joined by single spaces. *)
Lemma split_go_join ws : forall inws sp rest,
  ws <> [] -> Forall word ws -> is_space sp = true ->
  split_go "" inws (join " " ws +:+ String sp rest) = (ws ++ split_go "" true rest)%list.
Proof.
  induction ws as [|w ws IH]; intros inws sp rest Hne Hws Hsp; [congruence|].
  inversion Hws as [|? ? Hw Hrest]; subst.
  destruct ws as [|w' ws'].
  - cbn [join]. rewrite split_go_word_space by assumption. reflexivity.
  - rewrite join_cons2, !append_assoc.
    change (" " +:+ join " " (w' :: ws') +:+ String sp rest)
      with (String " " (join " " (w' :: ws') +:+ String sp rest)).
    rewrite split_go_word_space by (assumption || reflexivity).
    rewrite IH by (assumption || discriminate). reflexivity.
Qed.

(** Trimming *)
Lemma trimEnd_cons c r :
  trimEnd (String c r) =
    match trimEnd r with
    | EmptyString => if is_space c then EmptyString else String c EmptyString
    | r' => String c r'
    end.
Proof. reflexivity. Qed.

Lemma trimEnd_idempotent s : trimEnd (trimEnd s) = trimEnd s.
Proof.
  induction s as [|c r IH]; [reflexivity|].
  rewrite trimEnd_cons. destruct (trimEnd r) as [|c' r'] eqn:Hr.
  - destruct (is_space c) eqn:Hc; [reflexivity|].
    rewrite trimEnd_cons. cbn [trimEnd]. rewrite Hc. reflexivity.
  - rewrite trimEnd_cons, IH. reflexivity.
Qed.

(** A text without trailing white space: its tail has none either, and
    it does not end on a white space. *)
Lemma trimEnd_fixed_cons c r :
  trimEnd (String c r) = String c r ->
  trimEnd r = r /\ (r = "" -> is_space c = false).
Proof.
  rewrite trimEnd_cons. destruct (trimEnd r) as [|c' r'] eqn:Hr.
  - destruct (is_space c); [discriminate|]. intros [= <-]. auto.
  - intros [= <-]. split; [reflexivity|discriminate].
Qed.

Lemma trimEnd_snoc a c : is_space c = false -> trimEnd (a +:+ String c "") = a +:+ String c "".
Proof.
  intros Hc. induction a as [|x a IH].
  - change (trimEnd (String c "") = String c "").
    rewrite trimEnd_cons. cbn [trimEnd]. rewrite Hc. reflexivity.
  - rewrite append_cons, trimEnd_cons, IH.
    destruct a; reflexivity.
Qed.

Lemma spaceless_rev_app w : forall cur,
  spaceless w = true -> spaceless cur = true -> spaceless (String.rev_app w cur) = true.
Proof.
  induction w as [|c w IH]; intros cur Hw Hcur; [exact Hcur|].
  simpl in Hw. apply andb_prop in Hw as [Hc Hw].
  cbn [String.rev_app]. apply IH; [exact Hw|]. simpl. rewrite Hc, Hcur. reflexivity.
Qed.

Lemma rev_app_nonempty w : forall cur, cur <> "" -> String.rev_app w cur <> "".
Proof.
  induction w as [|c w IH]; intros cur Hcur; [exact Hcur|].
  cbn [String.rev_app]. apply IH. discriminate.
Qed.

Lemma word_rev cur : cur <> "" -> spaceless cur = true -> word (String.rev cur).
Proof.
  intros Hne Hcur. unfold String.rev. destruct cur as [|c cur]; [congruence|].
  cbn [String.rev_app]. simpl in Hcur. apply andb_prop in Hcur as [Hc Hcur].
  split.
  - apply rev_app_nonempty. discriminate.
  - apply spaceless_rev_app; [exact Hcur|]. simpl. rewrite Hc. reflexivity.
Qed.

(** The pieces of a text without trailing white space are words, once a
    word is being read or white space has just been read. *)
Lemma split_go_words s : forall cur inws,
  trimEnd s = s ->
  spaceless cur = true ->
  (if inws : bool then cur = "" /\ s <> "" else cur <> "") ->
  Forall word (split_go cur inws s).
Proof.
  induction s as [|c r IH]; intros cur inws Hend Hcur Hstate.
  - destruct inws; [destruct Hstate; congruence|].
    constructor; [apply word_rev; assumption|constructor].
  - apply trimEnd_fixed_cons in Hend as [Hend Hlast].
    cbn [split_go]. destruct (is_space c) eqn:Hc.
    + assert (Hr : r <> "") by (intros ->; specialize (Hlast eq_refl); congruence).
      destruct inws.
      * apply IH; [exact Hend|exact Hcur|]. destruct Hstate. auto.
      * constructor; [apply word_rev; assumption|].
        apply IH; [exact Hend|reflexivity|auto].
    + apply IH; [exact Hend| |discriminate].
      simpl. rewrite Hc, Hcur. reflexivity.
Qed.

Lemma trimStart_head s : match trimStart s with
                         | EmptyString => True
                         | String c _ => is_space c = false
                         end.
Proof.
  induction s as [|c r IH]; [exact I|]. cbn [trimStart].
  destruct (is_space c) eqn:Hc; [exact IH|exact Hc].
Qed.

Lemma trim_head s : match trim s with
                    | EmptyString => True
                    | String c _ => is_space c = false
                    end.
Proof.
  unfold trim. pose proof (trimStart_head s) as H.
  destruct (trimStart s) as [|c r]; [exact I|].
  rewrite trimEnd_cons. destruct (trimEnd r); [rewrite H|]; exact H.
Qed.

(** The words of a text, when it has more than one piece. *)
Lemma split_trim_words s :
  (1 < length (split_ws (trim s)))%nat -> Forall word (split_ws (trim s)).
Proof.
  intros Hlen. pose proof (trim_head s) as Hhead.
  assert (Hend : trimEnd (trim s) = trim s) by apply trimEnd_idempotent.
  destruct (trim s) as [|c r]; [simpl in Hlen; lia|].
  unfold split_ws. cbn [split_go]. rewrite Hhead.
  apply trimEnd_fixed_cons in Hend as [Hend _].
  apply split_go_words; [exact Hend| |discriminate].
  simpl. rewrite Hhead. reflexivity.
Qed.

(** A decimal numeral is a word. *)
Lemma spaceless_uint u : spaceless (NilEmpty.string_of_uint u) = true.
Proof. induction u; simpl; auto. Qed.

Lemma word_show n : word (show n).
Proof.
  unfold show, NilZero.string_of_int, NilZero.string_of_uint.
  destruct (Z.to_int n) as [u|u]; destruct u; split; simpl;
    try discriminate; try reflexivity; apply spaceless_uint.
Qed.

End WordFacts.

(** ** The response limiter *)
Module LimiterFacts.
Import JS Limiter Binary64 StringFacts WordFacts Samples.

(** Every value but [undefined] has a serialization. *)
Lemma stringify2_defined d : d <> JUndefined -> exists s, stringify2 d = Some s.
Proof.
  destruct d as [| | |n| | |]; try (intros _; eexists; reflexivity); [congruence|].
  intros _. destruct n; eexists; reflexivity.
Qed.

Lemma stringify2_default d :
  d <> JUndefined -> stringify2 d = Some (default "" (stringify2 d)).
Proof.
  intros H. destruct (stringify2_defined d H) as [s Hs]. rewrite Hs. reflexivity.
Qed.

(** [null] and [undefined] come back as they are. *)
Lemma limitResponse_null options :
  limitResponse JNull options =
    Return {| data := JNull; truncated := false; message := None; metadata := None |} /\
  limitResponse JUndefined options =
    Return {| data := JUndefined; truncated := false; message := None; metadata := None |}.
Proof. split; reflexivity. Qed.

(** C1. A value that is neither [null] nor [undefined] and whose
    serialization counts at most 3500 words is returned as it is, with
    [truncated = false] and neither message nor metadata, whatever the
    options. *)
Theorem limitResponse_within_limit d options jsonStr :
  d <> JNull -> d <> JUndefined ->
  stringify2 d = Some jsonStr ->
  countWords jsonStr <= MAX_WORDS ->
  limitResponse d options =
    Return {| data := d; truncated := false; message := None; metadata := None |}.
Proof.
  intros Hnull Hundef Hstr Hwords.
  apply Z.leb_le in Hwords.
  unfold limitResponse.
  destruct d; try congruence; rewrite Hstr, Hwords; reflexivity.
Qed.


Lemma stringify2_array items : exists s, stringify2 (JArr items) = Some s.
Proof. eexists; reflexivity. Qed.

Lemma itemsThatFit_three sample sampleStr :
  stringify2 (JArr sample) = Some sampleStr ->
  itemsThatFit sample 3 =
    Some (floor (fdiv (of_Z MAX_WORDS) (fdiv (of_Z (countWords sampleStr)) (of_Z 3)))).
Proof. intros H. unfold itemsThatFit. rewrite H. reflexivity. Qed.

Lemma fit_not_nan w : floor (fdiv (of_Z MAX_WORDS) (fdiv (of_Z w) (of_Z 3))) <> NaN.
Proof.
  apply floor_not_nan.
  destruct (of_Z MAX_WORDS) as [| | |s m e] eqn:Hmax;
    try (vm_compute in Hmax; discriminate).
  apply fdiv_of_finite_not_nan.
  destruct (of_Z 3) as [| | |s' m' e'] eqn:Hthree;
    try (vm_compute in Hthree; discriminate).
  apply fdiv_by_finite_not_nan, of_Z_not_nan.
Qed.

(** C7. For a non-empty list above the ceiling and options that carry
    no filter, the metadata returned has [exceedsLimit = true] and
    recommends [maxItems = Math.max(10, Math.floor(3500 / wordsPerItem))],
    which is at least 10, where [wordsPerItem] is the word count of the
    serialized first three items divided by 3; the suggested fields are
    the first 7 available field names. *)
Theorem large_list_metadata items options jsonStr :
  items <> [] ->
  hasFilters options = false ->
  stringify2 (JArr items) = Some jsonStr ->
  MAX_WORDS < countWords jsonStr ->
  exists r meta recommended sampleStr,
    limitResponse (JArr items) options = Return r /\
    truncated r = true /\
    metadata r = Some meta /\
    exceedsLimit meta = true /\
    recommendedFilters meta = Some recommended /\
    stringify2 (JArr (slice0 3 items)) = Some sampleStr /\
    rec_maxItems recommended =
      max (Int 10)
          (floor (fdiv (of_Z MAX_WORDS) (fdiv (of_Z (countWords sampleStr)) (of_Z 3)))) /\
    le (Int 10) (rec_maxItems recommended) = true /\
    suggestedFields recommended = slice0 7 <$> getAvailableFields (JArr items).
Proof.
  intros Hne Hfilters Hstr Hwords.
  destruct (stringify2_array (slice0 3 items)) as [sampleStr Hsample].
  pose proof (itemsThatFit_three _ _ Hsample) as Hfit.
  destruct items as [|item items]; [congruence|].
  unfold limitResponse. rewrite Hstr.
  destruct (Z.leb_spec (countWords jsonStr) MAX_WORDS) as [Hle|_]; [lia|].
  rewrite Hfilters. cbn [negb].
  cbv beta iota zeta delta [createResponseMetadata].
  destruct (Z.ltb_spec MAX_WORDS (countWords jsonStr)) as [_|Hle]; [|lia].
  rewrite Hfit.
  eexists _, _, _, sampleStr. split; [reflexivity|].
  cbn [truncated metadata exceedsLimit recommendedFilters rec_maxItems suggestedFields].
  repeat split; try reflexivity; [exact Hsample|].
  apply max_10_le, fit_not_nan.
Qed.

(** Own properties: reading after writing *)
Lemma lookup_replace_eq k v ps :
  has k ps = true -> lookup k (replace k v ps) = Some v.
Proof.
  unfold has. induction ps as [|[k' v'] ps IH]; simpl; [discriminate|].
  destruct (String.eqb_spec k' k) as [->|Hne]; simpl.
  - rewrite String.eqb_refl. reflexivity.
  - intros H. destruct (String.eqb_spec k' k); [congruence|]. apply IH, H.
Qed.

Lemma lookup_replace_ne k k' v ps :
  k <> k' -> lookup k' (replace k v ps) = lookup k' ps.
Proof.
  intros Hne. induction ps as [|[k0 v0] ps IH]; simpl; [reflexivity|].
  destruct (String.eqb_spec k0 k) as [->|Hk]; simpl.
  - destruct (String.eqb_spec k k'); [congruence|reflexivity].
  - rewrite IH. reflexivity.
Qed.

Lemma lookup_define_eq k v ps :
  has k ps = false -> lookup k (define k v ps) = Some v.
Proof.
  unfold has. induction ps as [|[k' v'] ps IH]; simpl.
  - rewrite String.eqb_refl. reflexivity.
  - destruct (String.eqb_spec k' k) as [->|Hne]; [discriminate|]. intros H.
    destruct (entersBefore k k'); simpl.
    + rewrite String.eqb_refl. reflexivity.
    + destruct (String.eqb_spec k' k); [congruence|]. apply IH, H.
Qed.

Lemma lookup_define_ne k k' v ps :
  k <> k' -> lookup k' (define k v ps) = lookup k' ps.
Proof.
  intros Hne. induction ps as [|[k0 v0] ps IH]; simpl.
  - destruct (String.eqb_spec k k'); [congruence|reflexivity].
  - destruct (entersBefore k k0); simpl.
    + destruct (String.eqb_spec k k'); [congruence|reflexivity].
    + rewrite IH. reflexivity.
Qed.

Lemma lookup_assign_eq k v ps : lookup k (assign k v ps) = Some v.
Proof.
  unfold assign. destruct (has k ps) eqn:H;
    [apply lookup_replace_eq | apply lookup_define_eq]; exact H.
Qed.

Lemma lookup_assign_ne k k' v ps :
  k <> k' -> lookup k' (assign k v ps) = lookup k' ps.
Proof.
  intros Hne. unfold assign. destruct (has k ps);
    [apply lookup_replace_ne | apply lookup_define_ne]; exact Hne.
Qed.

Lemma lookup_In k v ps : lookup k ps = Some v -> In k (map fst ps).
Proof.
  induction ps as [|[k' v'] ps IH]; simpl; [discriminate|].
  destruct (String.eqb_spec k' k) as [->|Hne]; auto.
Qed.

Lemma get_array key obj value :
  get key obj = JArr value -> lookup key obj = Some (JArr value).
Proof. unfold get. destruct (lookup key obj); simpl; congruence. Qed.

(** Once [key] is truncated, the rest of the loop leaves it and its
    sibling as they are. *)
Lemma truncateArrays_settled ks : forall obj acc key short text,
  (forall k, In k ks -> key <> sibling k) ->
  lookup key obj = Some (JArr short) -> len short <= 10 ->
  lookup (sibling key) obj = Some (JStr text) ->
  lookup key (fst (truncateArrays ks obj acc)) = Some (JArr short) /\
  lookup (sibling key) (fst (truncateArrays ks obj acc)) = Some (JStr text).
Proof.
  induction ks as [|k ks IH]; intros obj acc key short text Hks Hkey Hlen Hsib;
    simpl; [auto|].
  assert (Hrest : forall k', In k' ks -> key <> sibling k') by (intros; apply Hks; simpl; auto).
  destruct (get k obj) as [| | | | |value|] eqn:Hget; try (apply IH; assumption).
  destruct (Z.ltb_spec 10 (len value)) as [Hlong|_]; [|apply IH; assumption].
  apply get_array in Hget.
  assert (Hk : k <> key) by (intros ->; rewrite Hkey in Hget; injection Hget as ->; lia).
  assert (Hk' : k <> sibling key) by (intros ->; congruence).
  assert (Hs : sibling k <> key) by (intros E; apply (Hks k); simpl; auto).
  assert (Hs' : sibling k <> sibling key)
    by (intros E; apply append_cancel_r in E; congruence).
  apply IH; try assumption.
  - rewrite !lookup_assign_ne by assumption. exact Hkey.
  - rewrite !lookup_assign_ne by assumption. exact Hsib.
Qed.

(** The loop truncates [key] when it reaches it. *)
Lemma truncateArrays_truncates ks : forall obj acc key value,
  In key ks ->
  (forall k, In k ks -> key <> sibling k) ->
  lookup key obj = Some (JArr value) -> 10 < len value ->
  lookup key (fst (truncateArrays ks obj acc)) = Some (JArr (slice0 10 value)) /\
  lookup (sibling key) (fst (truncateArrays ks obj acc)) = Some (note (len value)).
Proof.
  induction ks as [|k ks IH]; intros obj acc key value Hin Hks Hkey Hlong;
    simpl; [destruct Hin|].
  assert (Hrest : forall k', In k' ks -> key <> sibling k') by (intros; apply Hks; simpl; auto).
  assert (Hself : sibling key <> key) by (apply append_neq_self; discriminate).
  destruct (String.eqb_spec k key) as [->|Hk].
  - assert (Hget : get key obj = JArr value) by (unfold get; rewrite Hkey; reflexivity).
    rewrite Hget.
    destruct (Z.ltb_spec 10 (len value)) as [_|Hle]; [|lia].
    apply truncateArrays_settled; try assumption.
    + rewrite lookup_assign_ne by assumption. apply lookup_assign_eq.
    + unfold slice0, len. rewrite length_take. lia.
    + apply lookup_assign_eq.
  - assert (Hin' : In key ks) by (destruct Hin; [congruence|assumption]).
    assert (Hs : sibling k <> key) by (intros E; apply (Hks k); simpl; auto).
    destruct (get k obj) as [| | | | |other|] eqn:Hget; try (apply IH; assumption).
    destruct (Z.ltb_spec 10 (len other)) as [_|_]; [|apply IH; assumption].
    apply IH; try assumption.
    rewrite !lookup_assign_ne by assumption. exact Hkey.
Qed.

Lemma stringify2_object props : exists s, stringify2 (JObj props) = Some s.
Proof. eexists; reflexivity. Qed.

(** Under a filter option: the lists of a record above the ceiling are
    cut to their first 10 elements. *)
Lemma record_lists_truncated props options jsonStr key value :
  hasFilters options = true ->
  stringify2 (JObj props) = Some jsonStr ->
  MAX_WORDS < countWords jsonStr ->
  lookup key props = Some (JArr value) ->
  10 < len value ->
  (forall k, In k (map fst props) -> key <> k +:+ "_truncated") ->
  exists limited r text,
    limitResponse (JObj props) options = Return r /\
    truncated r = true /\
    lookup key limited = Some (JArr (slice0 10 value)) /\
    lookup (key +:+ "_truncated") limited =
      Some (JStr ("Showing 10 of " +:+ show (len value) +:+ " items")) /\
    stringify2 (JObj limited) = Some text /\
    data r = if MAX_WORDS <? countWords text
             then JStr (truncateToWords text MAX_WORDS) else JObj limited.
Proof.
  intros Hfilters Hstr Hwords Hkey Hlong Hfresh.
  destruct (truncateArrays_truncates (map fst props) props [] key value
              (lookup_In _ _ _ Hkey) Hfresh Hkey Hlong) as [Hfield Hsibling].
  unfold limitResponse. rewrite Hstr.
  destruct (Z.leb_spec (countWords jsonStr) MAX_WORDS) as [Hle|_]; [lia|].
  rewrite Hfilters. cbn [negb].
  destruct (truncateArrays (map fst props) props []) as [limited arrayKeys].
  simpl in Hfield, Hsibling.
  destruct (stringify2_object limited) as [text Htext].
  unfold finalCheck. rewrite Htext.
  exists limited.
  destruct (MAX_WORDS <? countWords text) eqn:Hover; eexists _, text;
    (split; [reflexivity|]); rewrite Hover; repeat split;
    first [reflexivity | exact Hfield | exact Hsibling | exact Htext].
Qed.

(** With no filter option: a record above the ceiling is not cut, the
    data returned is the metadata object. *)
Lemma record_without_filters props options jsonStr :
  hasFilters options = false ->
  stringify2 (JObj props) = Some jsonStr ->
  MAX_WORDS < countWords jsonStr ->
  exists r meta,
    limitResponse (JObj props) options = Return r /\
    truncated r = true /\
    metadata r = Some meta /\
    createResponseMetadata (JObj props) (countWords jsonStr) = Return meta /\
    totalItems meta = None /\
    sampleData meta = JObj (take 5 props) /\
    recommendedFilters meta = None /\
    data r =
      JObj [("_metadata", metadataValue meta);
            ("_message",
             JStr ("Response is too large (" +:+ show (countWords jsonStr)
                   +:+ " words, ~" +:+ show_number (estimatedTokens meta)
                   +:+ " tokens). Please apply filters to get specific data."));
            ("_instructions",
             JStr "Use max_items, fields, or summary parameters to filter the response.")].
Proof.
  intros Hfilters Hstr Hover. unfold limitResponse. rewrite Hstr.
  destruct (Z.leb_spec (countWords jsonStr) MAX_WORDS); [lia|].
  rewrite Hfilters. cbn [negb createResponseMetadata].
  eexists. eexists. split; [reflexivity|].
  cbn [truncated metadata sampleData recommendedFilters totalItems data].
  repeat split.
Qed.

(** C4, amended. For a record above the ceiling, what the governor does
    depends on the filter options. With a filter option in effect, a
    top-level field holding a list of more than 10 elements (and whose
    name is not another field's name followed by [_truncated]) holds its
    first 10 elements in the limited record, next to a field
    [<name>_truncated] that reads ["Showing 10 of N items"]; the limited
    record is the data returned when its serialization fits the ceiling,
    otherwise the data is that serialization cut at 3500 words. With no
    filter option, no field is cut: the data returned is the object of
    the three fields [_metadata], [_message] and [_instructions], where
    the metadata samples the first five fields of the record, counts no
    items and recommends no filter. *)
Theorem record_lists_truncated_under_filters props options jsonStr :
  stringify2 (JObj props) = Some jsonStr ->
  MAX_WORDS < countWords jsonStr ->
  (hasFilters options = true ->
   forall key value,
     lookup key props = Some (JArr value) ->
     10 < len value ->
     (forall k, In k (map fst props) -> key <> k +:+ "_truncated") ->
     exists limited r text,
       limitResponse (JObj props) options = Return r /\
       truncated r = true /\
       lookup key limited = Some (JArr (slice0 10 value)) /\
       lookup (key +:+ "_truncated") limited =
         Some (JStr ("Showing 10 of " +:+ show (len value) +:+ " items")) /\
       stringify2 (JObj limited) = Some text /\
       data r = if MAX_WORDS <? countWords text
                then JStr (truncateToWords text MAX_WORDS) else JObj limited) /\
  (hasFilters options = false ->
   exists r meta,
     limitResponse (JObj props) options = Return r /\
     truncated r = true /\
     metadata r = Some meta /\
     createResponseMetadata (JObj props) (countWords jsonStr) = Return meta /\
     totalItems meta = None /\
     sampleData meta = JObj (take 5 props) /\
     recommendedFilters meta = None /\
     data r =
       JObj [("_metadata", metadataValue meta);
             ("_message",
              JStr ("Response is too large (" +:+ show (countWords jsonStr)
                    +:+ " words, ~" +:+ show_number (estimatedTokens meta)
                    +:+ " tokens). Please apply filters to get specific data."));
             ("_instructions",
              JStr "Use max_items, fields, or summary parameters to filter the response.")]).
Proof.
  intros Hstr Hwords. split.
  - intros Hfilters key value Hkey Hlong Hfresh.
    exact (record_lists_truncated props options jsonStr key value
             Hfilters Hstr Hwords Hkey Hlong Hfresh).
  - intros Hfilters.
    exact (record_without_filters props options jsonStr Hfilters Hstr Hwords).
Qed.


Lemma limitResponse_within_limit_witness :
  limitResponse quote1 no_options =
    Return {| data := quote1; truncated := false; message := None; metadata := None |}.
Proof.
  apply (limitResponse_within_limit quote1 no_options
           (default "" (stringify2 quote1))).
  - discriminate.
  - discriminate.
  - reflexivity.
  - vm_compute. discriminate.
Defined.

Lemma large_list_metadata_witness :
  exists r meta recommended sampleStr,
    limitResponse (JArr longList) no_options = Return r /\
    truncated r = true /\
    metadata r = Some meta /\
    exceedsLimit meta = true /\
    recommendedFilters meta = Some recommended /\
    stringify2 (JArr (slice0 3 longList)) = Some sampleStr /\
    rec_maxItems recommended =
      max (Int 10)
          (floor (fdiv (of_Z MAX_WORDS) (fdiv (of_Z (countWords sampleStr)) (of_Z 3)))) /\
    le (Int 10) (rec_maxItems recommended) = true /\
    suggestedFields recommended = slice0 7 <$> getAvailableFields (JArr longList).
Proof.
  apply (large_list_metadata longList no_options
           (default "" (stringify2 (JArr longList)))).
  - vm_compute. discriminate.
  - reflexivity.
  - apply stringify2_default. discriminate.
  - vm_compute. reflexivity.
Defined.

(** On the 600 quotes the three-item sample counts 26 words and the
    recommendation is 403 items. *)
Example large_list_recommendation :
  match limitResponse (JArr longList) no_options with
  | Return r =>
      (recommendedFilters <$> metadata r) =
        Some (Some {| rec_maxItems := Int 403;
                      suggestedFields := Some ["symbol"; "price"; "volume"] |})
  | Throw _ => False
  end.
Proof. vm_compute. reflexivity. Qed.

(** The division is the binary64 one: for a sample of 25 words,
    [3500 / (25 / 3)] is just below 420 and its floor is 419. *)
Example floor_of_binary64_quotient :
  floor (fdiv (of_Z MAX_WORDS) (fdiv (of_Z 25) (of_Z 3))) = Int 419 /\
  floor (fdiv (of_Z MAX_WORDS) (fdiv (of_Z 26) (of_Z 3))) = Int 403.
Proof. split; vm_compute; reflexivity. Qed.

(** C4, as stated, fails: with no options the record of the scenario,
    once above the ceiling, comes back as metadata. The data returned
    has neither [items] nor [items_truncated]. *)
Lemma no_options_record_not_truncated :
  (exists jsonStr, stringify2 (JObj sampleRecord) = Some jsonStr /\
                   MAX_WORDS < countWords jsonStr) /\
  (exists value, lookup "items" sampleRecord = Some (JArr value) /\ len value = 21) /\
  match limitResponse (JObj sampleRecord) no_options with
  | Return r =>
      keys (data r) = ["_metadata"; "_message"; "_instructions"] /\
      lookup "items" (ownProps (data r)) = None /\
      lookup "items_truncated" (ownProps (data r)) = None /\
      is_Some (metadata r)
  | Throw _ => False
  end.
Proof.
  split; [|split].
  - eexists. split; [apply stringify2_default; discriminate|].
    vm_compute. reflexivity.
  - eexists. split; reflexivity.
  - vm_compute. repeat split. eexists. reflexivity.
Qed.

Lemma record_lists_truncated_under_filters_witness :
  (exists limited r text,
     limitResponse (JObj sampleRecord) summaryOnly = Return r /\
     truncated r = true /\
     lookup "items" limited = Some (JArr (slice0 10 (replicate 21 (JStr (wordy 200))))) /\
     lookup "items_truncated" limited = Some (JStr "Showing 10 of 21 items") /\
     stringify2 (JObj limited) = Some text /\
     data r = if MAX_WORDS <? countWords text
              then JStr (truncateToWords text MAX_WORDS) else JObj limited) /\
  (exists r meta,
     limitResponse (JObj sampleRecord) no_options = Return r /\
     truncated r = true /\
     metadata r = Some meta /\
     sampleData meta = JObj sampleRecord /\
     recommendedFilters meta = None /\
     keys (data r) = ["_metadata"; "_message"; "_instructions"]).
Proof.
  assert (Hstr : stringify2 (JObj sampleRecord) =
                 Some (default "" (stringify2 (JObj sampleRecord)))).
  { apply stringify2_default. discriminate. }
  assert (Hwords : MAX_WORDS < countWords (default "" (stringify2 (JObj sampleRecord)))).
  { vm_compute. reflexivity. }
  split.
  - apply (proj1 (record_lists_truncated_under_filters sampleRecord summaryOnly
                    _ Hstr Hwords) eq_refl "items" (replicate 21 (JStr (wordy 200)))).
    + reflexivity.
    + vm_compute. reflexivity.
    + intros k [<-|[<-|[]]]; discriminate.
  - destruct (proj2 (record_lists_truncated_under_filters sampleRecord no_options
                       _ Hstr Hwords) eq_refl)
      as (r & meta & Hr & Htr & Hmeta & _ & _ & Hsample & Hrec & Hdata).
    exists r, meta. rewrite Hdata. repeat split; assumption.
Defined.

(** On the scenario's record with [summary = true]: the limited record
    fits the ceiling and is the data returned. *)
Example record_scenario_under_filters :
  match limitResponse (JObj sampleRecord) summaryOnly with
  | Return r =>
      keys (data r) = ["items"; "name"; "items_truncated"] /\
      lookup "items_truncated" (ownProps (data r)) = Some (JStr "Showing 10 of 21 items") /\
      (arrayLength <$> lookup "items" (ownProps (data r))) = Some 10
  | Throw _ => False
  end.
Proof. vm_compute. repeat split. Qed.

Lemma trimStart_word_head w rest : word w -> trimStart (w +:+ rest) = w +:+ rest.
Proof.
  intros [Hne Hw]. destruct w as [|c w]; [congruence|].
  simpl in Hw. apply andb_prop in Hw as [Hc _].
  rewrite append_cons. cbn [trimStart]. destruct (is_space c); [discriminate|reflexivity].
Qed.

Lemma join_head sep x r :
  join sep (x :: r) = x +:+ match r with [] => "" | _ => sep +:+ join sep r end.
Proof. destruct r; [symmetry; apply append_empty_r|reflexivity]. Qed.

(** The text that [truncateToWords] returns, once it cuts: [maxWords]
    words and the 11 words of the marker. *)
Lemma cut_text_words ws remaining :
  ws <> [] -> Forall word ws ->
  split_ws (trim (join " " ws +:+ LF +:+ LF +:+ "[... " +:+ show remaining +:+ marker_tail))
  = (ws ++ ["[..."; show remaining; "more"; "words"; "truncated."; "Use"; "filters";
            "to"; "get"; "specific"; "data.]"])%list.
Proof.
  intros Hne Hws.
  set (text := join " " ws +:+ LF +:+ LF +:+ "[... " +:+ show remaining +:+ marker_tail).
  assert (Htrim : trim text = text).
  { unfold trim. destruct ws as [|w ws]; [congruence|].
    inversion Hws as [|? ? Hw _]; subst.
    assert (Hstart : trimStart text = text).
    { unfold text. rewrite join_head, append_assoc. apply trimStart_word_head, Hw. }
    rewrite Hstart. unfold text, marker_tail.
    change " more words truncated. Use filters to get specific data.]"
      with (" more words truncated. Use filters to get specific data." +:+ "]").
    rewrite <- !append_assoc. apply trimEnd_snoc. reflexivity. }
  rewrite Htrim. unfold text, split_ws.
  change (LF +:+ LF +:+ "[... " +:+ show remaining +:+ marker_tail)
    with (String (ascii_of_nat 10)
            (String (ascii_of_nat 10) ("[..." +:+ String " " (show remaining +:+ marker_tail)))).
  rewrite split_go_join by (assumption || reflexivity).
  f_equal. cbn [split_go]. change (is_space (ascii_of_nat 10)) with true. cbn iota.
  rewrite split_go_word_space by (reflexivity || (split; [discriminate|reflexivity])).
  f_equal. unfold marker_tail.
  change (" more words truncated. Use filters to get specific data.]")
    with (String " " "more words truncated. Use filters to get specific data.]").
  rewrite split_go_word_space by (reflexivity || apply word_show).
  reflexivity.
Qed.

(** Cutting a text of more than [maxWords] words leaves [maxWords + 11]. *)
Lemma countWords_truncateToWords text maxWords :
  1 <= maxWords -> maxWords < countWords text ->
  countWords (truncateToWords text maxWords) = maxWords + 11.
Proof.
  intros Hmax Hover. unfold truncateToWords.
  unfold countWords in Hover.
  set (words := split_ws (trim text)) in *.
  destruct (Z.leb_spec (len words) maxWords) as [Hle|_]; [lia|].
  assert (Hwords : Forall word words).
  { apply split_trim_words. fold words. unfold len in Hover. lia. }
  unfold countWords.
  change (" more words truncated. Use filters to get specific data.]") with marker_tail.
  rewrite cut_text_words.
  - unfold len, slice0. rewrite length_app, length_take. simpl.
    unfold len in Hover. lia.
  - unfold slice0. destruct words as [|w ws]; [unfold len in Hover; simpl in Hover; lia|].
    destruct (Z.to_nat maxWords) eqn:Hn; [lia|]. discriminate.
  - unfold slice0. apply Forall_take, Hwords.
Qed.

(** *** The final check bounds the payload *)
Lemma finalCheck_bounded limitedData message jsonStr :
  stringify2 limitedData = Some jsonStr ->
  (forall text, limitedData = JStr text -> MAX_WORDS < countWords jsonStr) ->
  exists r,
    finalCheck limitedData message = Return r /\
    truncated r = true /\
    countWords (payloadText r) <= MAX_WORDS + 11.
Proof.
  intros Hstr Htext. unfold finalCheck. rewrite Hstr.
  destruct (Z.ltb_spec MAX_WORDS (countWords jsonStr)) as [Hover|Hfits].
  - eexists. split; [reflexivity|]. split; [reflexivity|].
    unfold payloadText. cbn [data].
    rewrite countWords_truncateToWords; [lia|unfold MAX_WORDS; lia|exact Hover].
  - eexists. split; [reflexivity|]. split; [reflexivity|].
    unfold payloadText. cbn [data].
    destruct limitedData; try discriminate Hstr;
      try (rewrite Hstr; cbn [from_option id]; lia).
    specialize (Htext _ eq_refl). lia.
Qed.

Lemma limitArrayData_array items options :
  exists limited, limitArrayData (JArr items) options = JArr limited.
Proof.
  unfold limitArrayData. destruct items as [|item items]; eauto.
Qed.

(** X11. Every filtered path but the summary of a list ends in the final
    check: its payload counts at most 3500 words and the marker's 11. *)
Theorem filtered_payload_is_bounded d options jsonStr :
  stringify2 d = Some jsonStr ->
  MAX_WORDS < countWords jsonStr ->
  hasFilters options = true ->
  (forall items, d = JArr items -> default false (summary options) = false) ->
  exists r,
    limitResponse d options = Return r /\
    truncated r = true /\
    countWords (payloadText r) <= MAX_WORDS + 11.
Proof.
  intros Hstr Hover Hfilters Hsummary.
  unfold limitResponse. rewrite Hstr.
  destruct (Z.leb_spec (countWords jsonStr) MAX_WORDS) as [Hle|_]; [lia|].
  rewrite Hfilters. cbn [negb].
  destruct d as [| |b|n|s|items|props].
  - discriminate.
  - injection Hstr as <-. vm_compute in Hover. discriminate.
  - apply finalCheck_bounded with (jsonStr := jsonStr); [exact Hstr|discriminate].
  - apply finalCheck_bounded with (jsonStr := jsonStr); [exact Hstr|discriminate].
  - apply finalCheck_bounded with (jsonStr := jsonStr); [exact Hstr|intros; exact Hover].
  - rewrite (Hsummary items eq_refl).
    unfold itemsThatFit.
    destruct (stringify2 (JArr (slice0 (Z.min 3 (len items)) items))) as [sampleStr|] eqn:Hsample;
      [|discriminate Hsample].
    match goal with
    | |- context [limitArrayData (JArr items) ?o] =>
        destruct (limitArrayData_array items o) as [limited ->]
    end.
    eapply finalCheck_bounded; [reflexivity|discriminate].
  - destruct (truncateArrays (map fst props) props []) as [limited arrayKeys].
    eapply finalCheck_bounded; [reflexivity|discriminate].
Qed.

(** C3, at the input on which the code departs from it: a list of one
    item of 3600 words governed with [summary = true] comes back as the
    summary text, 3611 words long, with no truncation marker: more than
    the ceiling and the marker's 11 words together. *)
Theorem summary_exceeds_ceiling :
  match limitResponse oneHugeItem summaryOnly with
  | Return r =>
      data r = JStr (createArraySummary oneHugeItem) /\
      truncated r = true /\
      countWords (payloadText r) = 3611 /\
      MAX_WORDS + 11 < countWords (payloadText r)
  | Throw _ => False
  end.
Proof. vm_compute. repeat split. Qed.

End LimiterFacts.

(** ** The document handler *)
Module DocumentFacts.
Import JS Documents StringFacts Samples.

(** *** The file system: reading after writing *)
Lemma child_setEntry_eq name c entries : child name (setEntry name c entries) = Some c.
Proof.
  induction entries as [|[n c'] entries IH]; simpl.
  - rewrite String.eqb_refl. reflexivity.
  - destruct (String.eqb_spec n name) as [->|Hne]; simpl.
    + rewrite String.eqb_refl. reflexivity.
    + destruct (String.eqb_spec n name); [congruence|exact IH].
Qed.


Lemma child_dropEntry_eq name entries : child name (dropEntry name entries) = None.
Proof.
  induction entries as [|[n c'] entries IH]; simpl; [reflexivity|].
  destruct (String.eqb_spec n name) as [->|Hne]; simpl; [exact IH|].
  destruct (String.eqb_spec n name); [congruence|exact IH].
Qed.

Lemma find_put p : forall c root root',
  put p c root = Some root' -> find p root' = Some c.
Proof.
  induction p as [|name r IH]; intros c root root' H; simpl in *.
  - congruence.
  - destruct root as [|entries]; [discriminate|].
    destruct r as [|name' r'].
    + injection H as <-. simpl. rewrite child_setEntry_eq. reflexivity.
    + destruct (child name entries) as [sub|]; [|discriminate].
      destruct (put (name' :: r') c sub) as [sub'|] eqn:Hput; [|discriminate].
      injection H as <-. cbn [find]. rewrite child_setEntry_eq.
      apply IH with (root := sub), Hput.
Qed.

Lemma put_over_file p : forall c content root,
  find p root = Some (File content) -> exists root', put p c root = Some root'.
Proof.
  induction p as [|name r IH]; intros c content root H; simpl in *.
  - eauto.
  - destruct root as [|entries]; [discriminate|].
    destruct (child name entries) as [sub|] eqn:Hsub; [|discriminate].
    destruct r as [|name' r']; [eauto|].
    destruct (IH c content sub H) as [sub' Hsub']. rewrite Hsub'. eauto.
Qed.

Lemma find_unlinkSync p : forall root root',
  unlinkSync p root = Some root' -> find p root' = None.
Proof.
  induction p as [|name r IH]; intros root root' H; simpl in *; [discriminate|].
  destruct root as [|entries]; [discriminate|].
  destruct (child name entries) as [sub|]; [|discriminate].
  destruct r as [|name' r'].
  - destruct sub; [|discriminate]. injection H as <-. simpl.
    rewrite child_dropEntry_eq. reflexivity.
  - assert (Hsub : exists sub', unlinkSync (name' :: r') sub = Some sub' /\
                                root' = Dir (setEntry name sub' entries)).
    { destruct sub; destruct (unlinkSync (name' :: r') _) as [sub'|];
        try discriminate; injection H as <-; eauto. }
    destruct Hsub as (sub' & Hsub & ->).
    cbn [find]. rewrite child_setEntry_eq. eapply IH, Hsub.
Qed.

Lemma find_createWriteStream p root root' :
  createWriteStream p root = Some root' -> find p root' = Some (File "").
Proof.
  unfold createWriteStream. intros H.
  destruct (find p root) as [[]|]; try discriminate; eapply find_put, H.
Qed.

Lemma find_writeChunk p chunk root content :
  find p root = Some (File content) ->
  find p (writeChunk p chunk root) = Some (File (content +:+ chunk)).
Proof.
  intros H. unfold writeChunk. rewrite H.
  destruct (put_over_file p (File (content +:+ chunk)) content root H) as [root' Hput].
  rewrite Hput. simpl. eapply find_put, Hput.
Qed.

(** *** [downloadFile] *)

(** A download that resolves leaves a file at the destination. *)
Lemma receive_resolved filepath maxBytes events : forall n disk disk' content,
  find filepath disk = Some (File content) ->
  receive filepath maxBytes events n disk = (Resolved, disk') ->
  exists content', find filepath disk' = Some (File content').
Proof.
  induction events as [|ev events IH]; intros n disk disk' content Hfile H;
    simpl in H; [discriminate|].
  destruct ev as [err| |statusCode location contentLength|chunk| |err].
  - discriminate.
  - discriminate.
  - eapply IH; eassumption.
  - destruct (maxBytes <? n + strlen chunk).
    + destruct (unlinkSync filepath disk); discriminate.
    + eapply IH; [|exact H]. apply find_writeChunk, Hfile.
  - injection H as <-. eauto.
  - destruct (unlinkSync filepath disk); discriminate.
Qed.

(** A body rejected by the size check or by the stream's error leaves no
    file. *)
Lemma receive_cleans_up filepath maxBytes events : forall n disk disk' e,
  receive filepath maxBytes events n disk = (Rejected e, disk') ->
  e <> DownloadTimeout -> (forall err, e <> RequestFailed err) ->
  find filepath disk' = None.
Proof.
  induction events as [|ev events IH]; intros n disk disk' e H Hne Hreq;
    simpl in H; [discriminate|].
  destruct ev as [err| |statusCode location contentLength|chunk| |err].
  - injection H as <- <-. exfalso. eapply Hreq. reflexivity.
  - congruence.
  - eapply IH; eassumption.
  - destruct (maxBytes <? n + strlen chunk).
    + destruct (unlinkSync filepath disk) eqn:Hu; [|discriminate].
      injection H as <- <-. eapply find_unlinkSync, Hu.
    + eapply IH; eassumption.
  - discriminate.
  - destruct (unlinkSync filepath disk) eqn:Hu; [|discriminate].
    injection H as <- <-. eapply find_unlinkSync, Hu.
Qed.

Lemma downloadFile_resolved network : forall url filepath maxSizeMB disk requests disk' network' requests',
  downloadFile network url filepath maxSizeMB disk requests
    = (Resolved, disk', network', requests') ->
  exists content, find filepath disk' = Some (File content).
Proof.
  induction network as [|server network IH];
    intros url filepath maxSizeMB disk requests disk' network' requests' H;
    simpl in H; [discriminate|].
  destruct (firstAnswer (server url)) as [|err| |statusCode location contentLength body];
    try discriminate.
  destruct (if (statusCode =? 301) || (statusCode =? 302) then _ else _);
    [|eapply IH, H].
  destruct (negb (statusCode =? 200)); [discriminate|].
  destruct (match parseInt _ with Some n => _ | None => false end); [discriminate|].
  destruct (createWriteStream filepath disk) as [disk1|] eqn:Hopen; [|discriminate].
  destruct (receive filepath _ body 0 disk1) as [result disk2] eqn:Hbody.
  injection H as -> <- _ _.
  eapply receive_resolved; [|exact Hbody].
  eapply find_createWriteStream, Hopen.
Qed.

(** Every rejection but those of the time-out and of the request's
    ['error'] leaves no file at a destination that held none: the status
    check and the size check come before the file is opened, and the
    handlers of ['data'] and of the stream's ['error'] unlink it. This
    is a property of the stream as [createWriteStream] and [receive]
    describe it, with the file open before the first chunk arrives. *)
Lemma downloadFile_cleans_up network : forall url filepath maxSizeMB disk requests e disk' network' requests',
  downloadFile network url filepath maxSizeMB disk requests
    = (Rejected e, disk', network', requests') ->
  e <> DownloadTimeout -> (forall err, e <> RequestFailed err) ->
  find filepath disk = None ->
  find filepath disk' = None.
Proof.
  induction network as [|server network IH];
    intros url filepath maxSizeMB disk requests e disk' network' requests' H Hne Hreq Hnone;
    simpl in H; [discriminate|].
  destruct (firstAnswer (server url)) as [|err| |statusCode location contentLength body];
    try discriminate.
  - injection H as <- <- _ _. exact Hnone.
  - injection H as <- <- _ _. congruence.
  - destruct (if (statusCode =? 301) || (statusCode =? 302) then _ else _);
      [|eapply IH; eassumption].
    destruct (negb (statusCode =? 200)); [injection H as <- <- _ _; exact Hnone|].
    destruct (match parseInt _ with Some n => _ | None => false end);
      [injection H as <- <- _ _; exact Hnone|].
    destruct (createWriteStream filepath disk) as [disk1|] eqn:Hopen; [|discriminate].
    destruct (receive filepath _ body 0 disk1) as [result disk2] eqn:Hbody.
    injection H as -> <- _ _.
    eapply receive_cleans_up; eassumption.
Qed.

(** A 301 or a 302 with a location hands the download over to a new
    request. *)
Lemma downloadFile_redirect server network url filepath maxSizeMB disk requests
    statusCode target contentLength body :
  firstAnswer (server url) = Answered statusCode (Some target) contentLength body ->
  statusCode = 301 \/ statusCode = 302 ->
  target <> "" ->
  downloadFile (server :: network) url filepath maxSizeMB disk requests
    = downloadFile network target filepath maxSizeMB disk (requests ++ [url])%list.
Proof.
  intros Hanswer Hcode Htarget. simpl. rewrite Hanswer.
  assert (Hredirect : (statusCode =? 301) || (statusCode =? 302) = true)
    by (destruct Hcode as [-> | ->]; reflexivity).
  rewrite Hredirect. simpl. destruct target; [congruence|reflexivity].
Qed.

(** C5. A 200 response whose [content-length] header reads as a number
    above [maxSizeMB * 1024 * 1024] makes [downloadFile] reject with the
    size error before any stream is opened: the disk is the one it was
    given, so no file is created at the destination. *)
Theorem downloadFile_rejects_large server network url filepath maxSizeMB disk requests
    location header n body :
  firstAnswer (server url) = Answered 200 location (Some header) body ->
  parseInt header = Some n ->
  maxSizeMB * 1024 * 1024 < n ->
  downloadFile (server :: network) url filepath maxSizeMB disk requests
    = (Rejected (FileTooLarge n maxSizeMB), disk, network, (requests ++ [url])%list).
Proof.
  intros Hanswer Hparse Hlarge. simpl. rewrite Hanswer. simpl.
  assert (Hheader : orElse header "0" = header)
    by (destruct header; [discriminate Hparse|reflexivity]).
  rewrite Hheader, Hparse. simpl.
  destruct (Z.ltb_spec (maxSizeMB * 1024 * 1024) n); [reflexivity|lia].
Qed.


(** *** [extractPdfText] *)
Section Extraction.
Context `{Runtime}.

(** C9. When the parser throws on the content of the file,
    [extractPdfText] returns normally: a text that carries the parser's
    message, [totalPages = 0] and the descriptor ["error"]. *)
Theorem extractPdfText_degrades filepath pageOptions disk dataBuffer message :
  readFileSync filepath disk = Return dataBuffer ->
  getText dataBuffer = Throw message ->
  extractPdfText filepath pageOptions disk =
    {| text := "PDF file: " +:+ List.last filepath "" +:+ LF +:+ LF
               +:+ "Error extracting text: " +:+ message +:+ LF +:+ LF
               +:+ "File location: " +:+ render filepath;
       totalPages := 0;
       extractedPages := "error" |}.
Proof.
  intros Hread Hparse. unfold extractPdfText. rewrite Hread, Hparse. reflexivity.
Qed.

(** The same holds when the file cannot be read. *)
Lemma extractPdfText_unreadable filepath pageOptions disk message :
  readFileSync filepath disk = Throw message ->
  extractedPages (extractPdfText filepath pageOptions disk) = "error" /\
  totalPages (extractPdfText filepath pageOptions disk) = 0.
Proof. intros Hread. unfold extractPdfText. rewrite Hread. split; reflexivity. Qed.

Lemma pageAt_in_range textResult p :
  1 <= p <= Z.of_nat (length (tr_pages textResult)) ->
  pageAt textResult p = Some (nth (Z.to_nat (p - 1)) (tr_pages textResult) "").
Proof.
  intros Hp. unfold pageAt.
  destruct (Z.leb_spec 0 (p - 1)); [|lia].
  destruct (tr_pages textResult !! Z.to_nat (p - 1)) as [t|] eqn:Ht.
  - f_equal. symmetry. apply nth_lookup_Some with (d := ""), Ht.
  - apply lookup_ge_None in Ht. lia.
Qed.

Lemma appendPages_in_range textResult pageNums : forall extractedText,
  Forall (fun p => 1 <= p <= Z.of_nat (length (tr_pages textResult))) pageNums ->
  appendPages textResult pageNums extractedText =
    extractedText +:+ foldr String.append "" (map (pageBlock textResult) pageNums).
Proof.
  induction pageNums as [|p pageNums IH]; intros extractedText Hrange; simpl.
  - rewrite append_empty_r. reflexivity.
  - inversion Hrange as [|? ? Hp Hrest]; subst.
    rewrite (pageAt_in_range _ _ Hp), IH by exact Hrest.
    rewrite append_assoc. reflexivity.
Qed.

(** C8, amended. With no page list, a start [s] and an end [e], each an
    integer or missing, the range extracted from an N-page document
    starts at [max(1, s)], a missing start counting as 1, and ends at
    [min(N, e)] unless the end is 0 or missing, which both stand for N.
    The pages of the range are appended in ascending order, each under
    its header, and the descriptor names the two bounds. When neither
    bound is given, or both are 0, no range is formed: the text is the
    whole text of the document and the descriptor is ["1-N"]. *)
Theorem page_range_is_clamped filepath disk dataBuffer textResult s e requested :
  readFileSync filepath disk = Return dataBuffer ->
  getText dataBuffer = Return textResult ->
  requested = None \/ requested = Some [] ->
  let total := Z.of_nat (length (tr_pages textResult)) in
  let first := Z.max 1 (default 1 s) in
  let last :=
    match e with
    | Some v => if v =? 0 then total else Z.min total v
    | None => total
    end in
  let extractedText :=
    foldr String.append "" (map (pageBlock textResult) (seqZ first (last - first + 1))) in
  extractPdfText filepath
    (Some {| startPage := s; endPage := e; pages := requested |}) disk =
    if truthyNumber s || truthyNumber e then
      {| text := report filepath total (show first +:+ "-" +:+ show last) extractedText;
         totalPages := total;
         extractedPages := show first +:+ "-" +:+ show last |}
    else
      {| text := report filepath total ("1-" +:+ show total) (tr_text textResult);
         totalPages := total;
         extractedPages := "1-" +:+ show total |}.
Proof.
  intros Hread Hparse Hpages total first last extractedText.
  unfold extractPdfText. rewrite Hread, Hparse. cbn [pages startPage endPage].
  assert (Hstart : Z.max 1 (orNumber s 1) = first).
  { unfold orNumber, first. destruct s as [v|]; [|reflexivity].
    simpl. destruct (Z.eqb_spec v 0); lia. }
  assert (Hlast : Z.min (Z.of_nat (length (tr_pages textResult)))
                        (orNumber e (Z.of_nat (length (tr_pages textResult)))) = last).
  { unfold orNumber, last, total. destruct e as [v|]; [|lia].
    destruct (Z.eqb_spec v 0); [lia|reflexivity]. }
  assert (Hbody : appendPages textResult (seqZ first (last - first + 1)) "" = extractedText).
  { rewrite appendPages_in_range; [reflexivity|].
    apply List.Forall_forall. intros p Hp. apply list_elem_of_In, elem_of_seqZ in Hp.
    assert (last <= total).
    { unfold last. destruct e as [v|]; [|lia]. destruct (v =? 0); lia. }
    unfold first, total in *. lia. }
  rewrite Hstart, Hlast, Hbody.
  destruct Hpages as [-> | ->]; destruct (truthyNumber s || truthyNumber e); reflexivity.
Qed.

(** X24. An end of 0, like no end at all, stands for the last page. *)
Lemma page_range_without_end filepath disk dataBuffer textResult s e :
  readFileSync filepath disk = Return dataBuffer ->
  getText dataBuffer = Return textResult ->
  s <> 0 ->
  e = None \/ e = Some 0 ->
  extractedPages
    (extractPdfText filepath
       (Some {| startPage := Some s; endPage := e; pages := None |}) disk)
  = show (Z.max 1 s) +:+ "-" +:+ show (Z.of_nat (length (tr_pages textResult))).
Proof.
  intros Hread Hparse Hs He. unfold extractPdfText. rewrite Hread, Hparse.
  cbn [pages startPage endPage truthyNumber orNumber].
  destruct (Z.eqb_spec s 0) as [|_]; [congruence|]. cbn [negb orb].
  destruct He as [-> | ->]; cbn [orNumber Z.eqb extractedPages];
    rewrite Z.min_id; reflexivity.
Qed.

End Extraction.

(** *** [readDocumentPages] *)
Lemma render_nonempty p : (2 <= length p)%nat -> render p <> "".
Proof.
  destruct p as [|x [|y r]]; simpl; try lia. intros _ Heq.
  apply (f_equal String.length) in Heq. unfold render in Heq.
  change (join "/" (x :: y :: r)) with (x +:+ "/" +:+ join "/" (y :: r)) in Heq.
  rewrite !length_append in Heq. simpl in Heq. lia.
Qed.

Section NodeInduction.
Variable P : node -> Prop.
Hypothesis on_file : forall content, P (File content).
Hypothesis on_dir :
  forall entries, Forall (fun entry => P (snd entry)) entries -> P (Dir entries).

(** Induction on a tree, with the property at hand for every entry of
    a directory. *)
Fixpoint node_induction (d : node) : P d :=
  match d with
  | File content => on_file content
  | Dir entries =>
      on_dir entries
        ((fix all (es : list (string * node)) : Forall (fun entry => P (snd entry)) es :=
            match es with
            | [] => List.Forall_nil _
            | (name, c) :: rest =>
                List.Forall_cons _ (name, c) rest (node_induction c) (all rest)
            end) entries)
  end.
End NodeInduction.

Lemma walk_longer d : forall dirPath acc f,
  In f (walk dirPath d acc) -> In f acc \/ (length dirPath < length f)%nat.
Proof.
  induction d as [content|entries IH] using node_induction; intros dirPath acc f;
    simpl; [auto|].
  revert acc. induction IH as [|[file c] rest Hc _ IHrest]; intros acc Hin; [auto|].
  apply IHrest in Hin. destruct Hin as [Hin|Hlt]; [|auto].
  destruct c as [content|sub].
  - apply in_app_or in Hin. destruct Hin as [Hin|[<-|[]]]; [auto|right].
    rewrite length_app. simpl. lia.
  - apply Hc in Hin. destruct Hin as [Hin|Hlt]; [auto|right].
    rewrite length_app in Hlt. simpl in Hlt. lia.
Qed.

Lemma filter_head {A} (P : A -> Prop) `{forall x, Decision (P x)} l x r :
  filter P l = x :: r -> In x l.
Proof.
  intros Hf. apply list_elem_of_In.
  assert (Hx : x ∈ filter P l) by (rewrite Hf; left).
  apply list_elem_of_filter in Hx. apply Hx.
Qed.

Section Resolution.
Context `{Runtime}.

Lemma downloadDir_length : (2 <= length downloadDir)%nat.
Proof. unfold downloadDir. rewrite length_app. simpl. lia. Qed.

Lemma getAllFiles_longer dirPath disk allFiles f :
  getAllFiles dirPath disk = Return allFiles -> In f allFiles ->
  (length dirPath < length f)%nat.
Proof.
  unfold getAllFiles. destruct (find dirPath disk) as [[|entries]|]; try discriminate.
  intros [= <-] Hin. apply (walk_longer (Dir entries) dirPath [] f) in Hin.
  destruct Hin as [[]|Hlt]. exact Hlt.
Qed.

(** A path that [resolveFile] yields lies under the download directory. *)
Lemma resolveFile_path filename url maxSizeMB w filepath w' :
  resolveFile filename url maxSizeMB w = (Done (inr filepath), w') ->
  (2 <= length filepath)%nat.
Proof.
  pose proof downloadDir_length as Hdir.
  assert (Hfetch : forall u p, match fetch u p maxSizeMB w with
            | (Resolved, w1) => (Done (inr p), w1)
            | (Rejected e, w1) => (Done (inl (failed (errorMessage e))), w1)
            | (_, w1) => (NoReturn, w1)
            end = (Done (inr filepath), w') -> p = filepath).
  { intros u p. destruct (fetch u p maxSizeMB w) as [[] w1]; congruence. }
  unfold resolveFile.
  destruct (default "" filename) as [|c name] eqn:Hname;
    destruct (default "" url) as [|c' u] eqn:Hurl; try discriminate.
  - destruct (urlPathname _); [|discriminate].
    destruct (existsSync _ _).
    + intros [= <- <-]. rewrite length_app. simpl. lia.
    + intros Hf. apply Hfetch in Hf as <-. rewrite length_app. simpl. lia.
  - destruct (existsSync _ _); [intros [= <- <-]; rewrite length_app; lia|].
    destruct (getAllFiles _ _) as [allFiles|] eqn:Hall; [|discriminate].
    destruct (filter _ allFiles) as [|found rest] eqn:Hfound; [discriminate|].
    intros [= <- <-].
    pose proof (filter_head _ _ _ _ Hfound) as Hin.
    pose proof (getAllFiles_longer _ _ _ _ Hall Hin). lia.
  - destruct (existsSync _ _); [intros [= <- <-]; rewrite length_app; lia|].
    destruct (getAllFiles _ _) as [allFiles|] eqn:Hall; [|discriminate].
    destruct (filter _ allFiles) as [|found rest] eqn:Hfound.
    + intros Hf. apply Hfetch in Hf as <-. rewrite length_app. lia.
    + intros [= <- <-].
      pose proof (filter_head _ _ _ _ Hfound) as Hin.
      pose proof (getAllFiles_longer _ _ _ _ Hall Hin). lia.
Qed.

(** C10. Once [readDocumentPages] has its file, cached or just
    downloaded, an extension other than [.pdf] (in any case of the
    letters) ends the call with the failure that names the extension. *)
Theorem readDocumentPages_only_pdf filename url pageOptions maxSizeMB w filepath w' :
  resolveFile filename url maxSizeMB w = (Done (inr filepath), w') ->
  toLowerCase (extname (List.last filepath "")) <> ".pdf" ->
  readDocumentPages filename url pageOptions maxSizeMB w =
    (Done (failed ("This tool only supports PDF files. File type: "
                   +:+ toLowerCase (extname (List.last filepath "")))), w').
Proof.
  intros Hresolve Hext. unfold readDocumentPages. rewrite Hresolve.
  pose proof (render_nonempty _ (resolveFile_path _ _ _ _ _ _ Hresolve)) as Hrender.
  destruct (String.eqb_spec (render filepath) ""); [congruence|].
  destruct (String.eqb_spec (toLowerCase (extname (List.last filepath ""))) ".pdf");
    [congruence|reflexivity].
Qed.

End Resolution.

(** *** What stays on the disk *)
Lemma find_app p : forall q root,
  find (p ++ q)%list root = match find p root with Some n => find q n | None => None end.
Proof.
  induction p as [|name p IH]; intros q root; simpl; [reflexivity|].
  destruct root as [|entries]; [reflexivity|].
  destruct (child name entries); [apply IH|reflexivity].
Qed.

Lemma existsSync_prefix p q root :
  existsSync (p ++ q)%list root = true -> existsSync p root = true.
Proof.
  unfold existsSync. rewrite find_app. destruct (find p root); [reflexivity|discriminate].
Qed.




Lemma length_substring_0 s : forall m,
  (m <= String.length s)%nat -> String.length (String.substring 0 m s) = m.
Proof.
  induction s as [|c s IH]; intros [|m] Hm; simpl in *; try reflexivity; try lia.
  rewrite IH by lia. reflexivity.
Qed.


(** *** The cache *)
Section Caching.
Context `{Runtime}.

(** A fetch logs a download exactly when it resolves, and then the file
    is at its destination. *)
Lemma fetch_log url filepath maxSizeMB w result w' :
  fetch url filepath maxSizeMB w = (result, w') ->
  match result with
  | Resolved =>
      downloaded w' = (downloaded w ++ [filepath])%list /\
      existsSync filepath (disk w') = true
  | _ => downloaded w' = downloaded w
  end.
Proof.
  unfold fetch.
  destruct (downloadFile _ _ _ _ _ _) as [[[r d] n] q] eqn:Hd.
  intros [= <- <-]. destruct r; simpl; try reflexivity.
  split; [reflexivity|].
  apply downloadFile_resolved in Hd as [content Hc].
  unfold existsSync. rewrite Hc. reflexivity.
Qed.











End Caching.




(** Two calls on an empty cache: one request, one download; the second
    call reads the cached file. *)
Example download_once :
  let w := world0 [] [serving; serving] in
  let '(_, w1) := downloadAndExtract "https://nse.example/docs/report.pdf" 50 None w in
  let '(second, w2) :=
    downloadAndExtract "https://nse.example/docs/report.pdf" 50 (Some firstFive) w1 in
  requests w2 = ["https://nse.example/docs/report.pdf"] /\
  downloaded w2 = [reportPath] /\
  network w2 = [serving] /\
  match second with
  | Done result => meta_extractedPages <$> metadata result = Some (Some "1-5")
  | _ => False
  end.
Proof. vm_compute. repeat split. Qed.

Lemma downloadFile_rejects_large_witness :
  downloadFile [announcing] "https://nse.example/big.pdf" reportPath 1 (cacheDir []) []
  = (Rejected (FileTooLarge 2000000 1), cacheDir [], [], ["https://nse.example/big.pdf"]).
Proof.
  apply (downloadFile_rejects_large announcing [] "https://nse.example/big.pdf"
           reportPath 1 (cacheDir []) [] None "2000000" 2000000
           [Data "....."; Finish]).
  - reflexivity.
  - reflexivity.
  - reflexivity.
Defined.

(** C6, at the input on which the code departs from it: the server
    sends the head of a 200 response and part of the body, then stalls.
    The time-out rejects the promise and leaves on disk the file that
    holds the bytes received so far. *)
Theorem timeout_leaves_partial_file :
  match downloadFile [stalling] "https://nse.example/docs/report.pdf" reportPath 50
          (cacheDir []) [] with
  | (result, disk', _, _) =>
      find reportPath (cacheDir []) = None /\
      result = Rejected DownloadTimeout /\
      find reportPath disk' = Some (File "partial")
  end.
Proof. vm_compute. repeat split. Qed.

(** The next call takes the partial file for the cached document. *)
Example partial_file_is_served :
  let w := world0 [] [stalling; serving] in
  let '(first, w1) := readDocumentPages None (Some "https://nse.example/docs/report.pdf")
                        firstFive 50 w in
  let '(second, w2) := readDocumentPages None (Some "https://nse.example/docs/report.pdf")
                         firstFive 50 w1 in
  first = Done (failed "Download timeout") /\
  requests w2 = ["https://nse.example/docs/report.pdf"] /\
  match second with
  | Done result => success result = true /\
                   meta_extractedPages <$> metadata result = Some (Some "error")
  | _ => False
  end.
Proof. vm_compute. repeat split. Qed.

(** C8, as stated, fails at an end of 0: on the five pages, a start of 3
    and an end of 0 extract the pages 3 to 5 under the descriptor
    ["3-5"], where [max(1, start)] and [min(N, end)] would give 3 and
    0. *)
Lemma page_range_end_zero :
  let textResult := {| tr_pages := ["one"; "two"; "three"; "four"; "five"];
                       tr_text := "one|two|three|four|five" |} in
  let result :=
    extractPdfText reportPath
      (Some {| startPage := Some 3; endPage := Some 0; pages := None |})
      (cacheDir [("report.pdf", File fivePages)]) in
  totalPages result = 5 /\
  extractedPages result = "3-5" /\
  extractedPages result <> show (Z.max 1 3) +:+ "-" +:+ show (Z.min 5 0) /\
  text result =
    report reportPath 5 "3-5"
      (pageBlock textResult 3 +:+ pageBlock textResult 4 +:+ pageBlock textResult 5).
Proof. vm_compute. repeat split. discriminate. Qed.

Lemma page_range_is_clamped_witness :
  extractPdfText reportPath (Some firstFive) (cacheDir [("report.pdf", File fivePages)]) =
    {| text :=
         report reportPath 5 "1-5"
           (pageBlock {| tr_pages := ["one"; "two"; "three"; "four"; "five"];
                         tr_text := "one|two|three|four|five" |} 1
            +:+ pageBlock {| tr_pages := ["one"; "two"; "three"; "four"; "five"];
                             tr_text := "one|two|three|four|five" |} 2
            +:+ pageBlock {| tr_pages := ["one"; "two"; "three"; "four"; "five"];
                             tr_text := "one|two|three|four|five" |} 3
            +:+ pageBlock {| tr_pages := ["one"; "two"; "three"; "four"; "five"];
                             tr_text := "one|two|three|four|five" |} 4
            +:+ pageBlock {| tr_pages := ["one"; "two"; "three"; "four"; "five"];
                             tr_text := "one|two|three|four|five" |} 5);
       totalPages := 5;
       extractedPages := "1-5" |}.
Proof.
  rewrite (page_range_is_clamped reportPath (cacheDir [("report.pdf", File fivePages)])
             fivePages
             {| tr_pages := ["one"; "two"; "three"; "four"; "five"];
                tr_text := "one|two|three|four|five" |} (Some 0) (Some 10000) None).
  - vm_compute. reflexivity.
  - reflexivity.
  - reflexivity.
  - left. reflexivity.
Defined.

Lemma extractPdfText_degrades_witness :
  extractPdfText reportPath None (cacheDir [("report.pdf", File "garbage")]) =
    {| text := "PDF file: report.pdf" +:+ LF +:+ LF
               +:+ "Error extracting text: Invalid PDF structure." +:+ LF +:+ LF
               +:+ "File location: srv/downloads/documents/report.pdf";
       totalPages := 0;
       extractedPages := "error" |}.
Proof.
  apply (extractPdfText_degrades reportPath None
           (cacheDir [("report.pdf", File "garbage")]) "garbage" "Invalid PDF structure.").
  - reflexivity.
  - reflexivity.
Defined.

(** At the entry point the degraded result is a success. *)
Example degraded_result_is_a_success :
  match readDocumentPages (Some "report.pdf") None firstFive 50
          (world0 [("report.pdf", File "garbage")] []) with
  | (Done result, _) =>
      success result = true /\
      (meta_pages <$> metadata result) = Some (Some 0) /\
      (meta_extractedPages <$> metadata result) = Some (Some "error")
  | _ => False
  end.
Proof. vm_compute. repeat split. Qed.

Lemma readDocumentPages_only_pdf_witness :
  readDocumentPages (Some "notes.txt") None firstFive 50
    (world0 [("notes.txt", File "plain text")] []) =
  (Done (failed "This tool only supports PDF files. File type: .txt"),
   world0 [("notes.txt", File "plain text")] []).
Proof.
  apply (readDocumentPages_only_pdf (Some "notes.txt") None firstFive 50
           (world0 [("notes.txt", File "plain text")] [])
           ["srv"; "downloads"; "documents"; "notes.txt"]).
  - reflexivity.
  - vm_compute. discriminate.
Defined.

(** The file types that [downloadAndExtract] reads are refused alike. *)
Example other_types_refused :
  Forall (fun name =>
            fst (readDocumentPages (Some name) None firstFive 50
                   (world0 [(name, File "content")] []))
            = Done (failed ("This tool only supports PDF files. File type: "
                            +:+ toLowerCase (extname name))))
         ["a.zip"; "a.txt"; "a.csv"; "a.json"; "a.xml"; "a.html"; "A.ZIP"].
Proof. repeat constructor. Qed.

End DocumentFacts.

(** ** Counting and cutting words *)
Module CountingFacts.
Import JS Limiter StringFacts WordFacts LimiterFacts.

Lemma split_go_nonempty s : forall cur inws, split_go cur inws s <> [].
Proof.
  induction s as [|c r IH]; intros cur inws; cbn [split_go]; [discriminate|].
  destruct (is_space c); [destruct inws; [apply IH|discriminate]|apply IH].
Qed.

(** X1. [countWords] never returns 0: the split of a text always has a first
    piece, so the empty text and a text of white space count one word. *)
Theorem countWords_at_least_one text : 1 <= countWords text.
Proof.
  unfold countWords, split_ws, len.
  pose proof (split_go_nonempty (trim text) "" false) as Hne.
  destruct (split_go "" false (trim text)); [congruence|]. simpl. lia.
Qed.

(** A word ends on a code unit that is no white space. *)
Lemma word_last w : word w -> exists a c, w = a +:+ String c "" /\ is_space c = false.
Proof.
  intros [Hne Hw]. induction w as [|c w IH]; [congruence|].
  simpl in Hw. apply andb_prop in Hw as [Hc Hw].
  destruct w as [|c' w'].
  - exists "", c. split; [reflexivity|]. destruct (is_space c); [discriminate|reflexivity].
  - destruct IH as (a & c0 & Heq & Hc0); [discriminate|exact Hw|].
    exists (String c a), c0. rewrite Heq. split; [reflexivity|exact Hc0].
Qed.

Lemma join_last ws : ws <> [] -> exists s, join " " ws = s +:+ List.last ws "".
Proof.
  induction ws as [|w ws IH]; [congruence|]. intros _.
  destruct ws as [|w' ws'].
  - exists "". reflexivity.
  - destruct IH as [s Hs]; [discriminate|].
    exists (w +:+ " " +:+ s). rewrite join_cons2, Hs, !append_assoc. reflexivity.
Qed.

Lemma split_go_joined ws : forall inws,
  ws <> [] -> Forall word ws -> split_go "" inws (join " " ws) = ws.
Proof.
  induction ws as [|w ws IH]; intros inws Hne Hws; [congruence|].
  inversion Hws as [|? ? Hw Hrest]; subst.
  destruct ws as [|w' ws'].
  - apply split_go_last_word, Hw.
  - rewrite join_cons2.
    change (w +:+ " " +:+ join " " (w' :: ws'))
      with (w +:+ String " " (join " " (w' :: ws'))).
    rewrite split_go_word_space by (assumption || reflexivity).
    rewrite IH by (assumption || discriminate). reflexivity.
Qed.

Lemma trim_joined ws : ws <> [] -> Forall word ws -> trim (join " " ws) = join " " ws.
Proof.
  intros Hne Hws. unfold trim.
  assert (Hstart : trimStart (join " " ws) = join " " ws).
  { destruct ws as [|w ws]; [congruence|].
    inversion Hws as [|? ? Hw _]; subst.
    rewrite join_head. apply trimStart_word_head, Hw. }
  rewrite Hstart.
  destruct (join_last ws Hne) as [s Hs].
  assert (Hlast : word (List.last ws "")).
  { clear Hstart s Hs. induction Hws as [|w ws Hw Hws IH]; [congruence|].
    destruct ws as [|w' ws']; [exact Hw|]. apply IH. discriminate. }
  destruct (word_last _ Hlast) as (a & c & Ha & Hc).
  rewrite Hs, Ha, <- append_assoc. apply trimEnd_snoc, Hc.
Qed.

(** X2. Words joined by single spaces are counted one by one. *)
Theorem countWords_join ws :
  ws <> [] -> Forall word ws -> countWords (join " " ws) = len ws.
Proof.
  intros Hne Hws. unfold countWords, split_ws.
  rewrite trim_joined, split_go_joined by assumption. reflexivity.
Qed.

(** X3. A text of more than [maxWords] words is cut to its first [maxWords]
    words, followed by the marker, which tells how many words were left
    out. *)
Theorem truncateToWords_keeps_prefix text maxWords :
  1 <= maxWords -> maxWords < countWords text ->
  split_ws (trim (truncateToWords text maxWords)) =
    (slice0 maxWords (split_ws (trim text)) ++
     ["[..."; show (countWords text - maxWords); "more"; "words"; "truncated."; "Use";
      "filters"; "to"; "get"; "specific"; "data.]"])%list.
Proof.
  intros Hmax Hover. unfold truncateToWords.
  unfold countWords in *.
  set (words := split_ws (trim text)) in *.
  destruct (Z.leb_spec (len words) maxWords) as [Hle|_]; [lia|].
  assert (Hwords : Forall word words).
  { apply split_trim_words. fold words. unfold len in Hover. lia. }
  change (" more words truncated. Use filters to get specific data.]") with marker_tail.
  apply cut_text_words.
  - unfold slice0. destruct words as [|w ws]; [unfold len in Hover; simpl in Hover; lia|].
    destruct (Z.to_nat maxWords) eqn:Hn; [lia|]. discriminate.
  - unfold slice0. apply Forall_take, Hwords.
Qed.

Lemma countWords_join_witness :
  countWords (join " " ["Total"; "items:"; "3"]) = len ["Total"; "items:"; "3"].
Proof.
  apply (countWords_join ["Total"; "items:"; "3"]); [discriminate|].
  repeat constructor; discriminate.
Defined.

Lemma truncateToWords_keeps_prefix_witness :
  split_ws (trim (truncateToWords "a b  c d e" 3)) =
    (slice0 3 (split_ws (trim "a b  c d e")) ++
     ["[..."; show (countWords "a b  c d e" - 3); "more"; "words"; "truncated."; "Use";
      "filters"; "to"; "get"; "specific"; "data.]"])%list.
Proof. apply (truncateToWords_keeps_prefix "a b  c d e" 3); vm_compute; congruence. Defined.

End CountingFacts.

(** ** What [limitResponse] returns *)
Module ResponseFacts.
Import JS Limiter StringFacts WordFacts LimiterFacts Samples.

Lemma createResponseMetadata_returns d wordCount :
  exists meta, createResponseMetadata d wordCount = Return meta.
Proof.
  unfold createResponseMetadata.
  destruct d as [| | | | |[|item items]|]; try (eexists; reflexivity).
  destruct (MAX_WORDS <? wordCount); [|eexists; reflexivity].
  unfold itemsThatFit.
  destruct (stringify2_array (slice0 3 (item :: items))) as [sampleStr ->].
  eexists; reflexivity.
Qed.

Lemma finalCheck_returns limitedData message :
  limitedData <> JUndefined ->
  exists r, finalCheck limitedData message = Return r /\ truncated r = true.
Proof.
  intros Hdef. unfold finalCheck.
  destruct (stringify2_defined limitedData Hdef) as [jsonStr ->].
  destruct (MAX_WORDS <? countWords jsonStr); eexists; split; reflexivity.
Qed.

Lemma limitResponse_returns d options : exists r, limitResponse d options = Return r.
Proof.
  unfold limitResponse.
  destruct d as [| |b|n|s|items|props]; try (eexists; reflexivity).
  all: match goal with
       | |- context [stringify2 ?v] =>
           destruct (stringify2_defined v) as [jsonStr ->]; [discriminate|]
       end.
  all: destruct (countWords jsonStr <=? MAX_WORDS); [eexists; reflexivity|].
  all: destruct (negb (hasFilters options));
         [match goal with
          | |- context [createResponseMetadata ?v ?w] =>
              destruct (createResponseMetadata_returns v w) as [meta ->]
          end; eexists; reflexivity|].
  - destruct (finalCheck_returns (JBool b) "") as (r & -> & _); [discriminate|eauto].
  - destruct (finalCheck_returns (JNum n) "") as (r & -> & _); [discriminate|eauto].
  - destruct (finalCheck_returns (JStr s) "") as (r & -> & _); [discriminate|eauto].
  - destruct (default false (summary options)); [eexists; reflexivity|].
    unfold itemsThatFit.
    destruct (stringify2_array (slice0 (Z.min 3 (len items)) items)) as [sampleStr ->].
    match goal with
    | |- context [limitArrayData (JArr items) ?o] =>
        destruct (limitArrayData_array items o) as [limited ->]
    end.
    match goal with
    | |- context [finalCheck ?v ?m] =>
        destruct (finalCheck_returns v m) as (r & -> & _); [discriminate|eauto]
    end.
  - destruct (truncateArrays (map fst props) props []) as [limited arrayKeys].
    match goal with
    | |- context [finalCheck ?v ?m] =>
        destruct (finalCheck_returns v m) as (r & -> & _); [discriminate|eauto]
    end.
Qed.

(** X9. The result is flagged [truncated] exactly when the serialization of
    the value counts more than [MAX_WORDS] words; a result that is not
    flagged carries the value itself, with no message and no metadata. *)
Theorem truncated_iff_over_limit d options r :
  limitResponse d options = Return r ->
  (truncated r = true <->
     exists jsonStr, stringify2 d = Some jsonStr /\ MAX_WORDS < countWords jsonStr) /\
  (truncated r = false ->
     r = {| data := d; truncated := false; message := None; metadata := None |}).
Proof.
  intros Hr.
  assert (Hsmall : forall jsonStr,
            stringify2 d = Some jsonStr -> countWords jsonStr <= MAX_WORDS ->
            r = {| data := d; truncated := false; message := None; metadata := None |}).
  { intros jsonStr Hstr Hle. unfold limitResponse in Hr. rewrite Hstr in Hr.
    destruct (Z.leb_spec (countWords jsonStr) MAX_WORDS); [|lia].
    destruct d; congruence. }
  assert (Hlarge : forall jsonStr,
            stringify2 d = Some jsonStr -> MAX_WORDS < countWords jsonStr ->
            truncated r = true).
  { intros jsonStr Hstr Hover. unfold limitResponse in Hr. rewrite Hstr in Hr.
    destruct (Z.leb_spec (countWords jsonStr) MAX_WORDS); [lia|].
    assert (Hfinal : forall v m, finalCheck v m = Return r -> truncated r = true).
    { intros v m Hf. unfold finalCheck in Hf.
      destruct (stringify2 v); [|discriminate].
      destruct (MAX_WORDS <? countWords s); injection Hf as <-; reflexivity. }
    destruct d as [| |b|n|s|items|props];
      [discriminate Hstr|injection Hstr as <-; vm_compute in Hover; discriminate|..].
    all: destruct (negb (hasFilters options));
           [match type of Hr with
            | context [createResponseMetadata ?v ?w] =>
                destruct (createResponseMetadata v w); [|discriminate]
            end; injection Hr as <-; reflexivity|].
    all: try (eapply Hfinal, Hr).
    + destruct (default false (summary options)); [injection Hr as <-; reflexivity|].
      destruct (itemsThatFit _ _); [|discriminate]. eapply Hfinal, Hr.
    + destruct (truncateArrays (map fst props) props []). eapply Hfinal, Hr. }
  destruct (stringify2 d) as [jsonStr|] eqn:Hstr.
  - destruct (Z.le_gt_cases (countWords jsonStr) MAX_WORDS) as [Hle|Hover].
    + rewrite (Hsmall jsonStr eq_refl Hle). cbn [truncated]. split; [|reflexivity].
      split; [discriminate|]. intros (s & [= <-] & Hs). lia.
    + rewrite (Hlarge jsonStr eq_refl Hover). split; [|discriminate].
      split; [eauto|reflexivity].
  - destruct d; try discriminate Hstr.
    + injection Hr as <-. cbn [truncated]. split; [|reflexivity].
      split; [discriminate|]. intros (s & Hs & _). discriminate.
    + destruct n; discriminate.
Qed.

(** The loop of the second strategy leaves alone a field that holds no
    list of more than 10 elements. *)
Lemma truncateArrays_keeps ks : forall obj acc key v,
  (forall k, In k ks -> key <> sibling k) ->
  lookup key obj = Some v ->
  (forall value, v = JArr value -> len value <= 10) ->
  lookup key (fst (truncateArrays ks obj acc)) = Some v.
Proof.
  induction ks as [|k ks IH]; intros obj acc key v Hks Hkey Hshort; simpl; [exact Hkey|].
  assert (Hrest : forall k', In k' ks -> key <> sibling k') by (intros; apply Hks; simpl; auto).
  destruct (get k obj) as [| | | | |value|] eqn:Hget; try (apply IH; assumption).
  destruct (Z.ltb_spec 10 (len value)) as [Hlong|_]; [|apply IH; assumption].
  apply get_array in Hget.
  assert (Hk : k <> key).
  { intros ->. rewrite Hkey in Hget. injection Hget as ->.
    specialize (Hshort value eq_refl). lia. }
  assert (Hs : sibling k <> key) by (intros E; apply (Hks k); simpl; auto).
  apply IH; try assumption.
  rewrite !lookup_assign_ne by assumption. exact Hkey.
Qed.

(** X10. In a record above the limit governed with a filter option, a field
    that holds no list of more than 10 elements (and whose name is not
    another field's name followed by [_truncated]) keeps its value in
    the limited record: only the long lists are touched. *)
Theorem record_keeps_other_fields props options jsonStr key v :
  hasFilters options = true ->
  stringify2 (JObj props) = Some jsonStr ->
  MAX_WORDS < countWords jsonStr ->
  lookup key props = Some v ->
  (forall value, v = JArr value -> len value <= 10) ->
  (forall k, In k (map fst props) -> key <> k +:+ "_truncated") ->
  exists limited r text,
    limitResponse (JObj props) options = Return r /\
    lookup key limited = Some v /\
    stringify2 (JObj limited) = Some text /\
    data r = if MAX_WORDS <? countWords text
             then JStr (truncateToWords text MAX_WORDS) else JObj limited.
Proof.
  intros Hfilters Hstr Hwords Hkey Hshort Hfresh.
  pose proof (truncateArrays_keeps (map fst props) props [] key v Hfresh Hkey Hshort)
    as Hfield.
  unfold limitResponse. rewrite Hstr.
  destruct (Z.leb_spec (countWords jsonStr) MAX_WORDS) as [Hle|_]; [lia|].
  rewrite Hfilters. cbn [negb].
  destruct (truncateArrays (map fst props) props []) as [limited arrayKeys].
  simpl in Hfield.
  destruct (stringify2_object limited) as [text Htext].
  unfold finalCheck. rewrite Htext.
  exists limited.
  destruct (MAX_WORDS <? countWords text) eqn:Hover; eexists _, text;
    (split; [reflexivity|]); rewrite Hover; repeat split;
    first [reflexivity | exact Hfield | exact Htext].
Qed.

Lemma record_keeps_other_fields_witness :
  exists limited r text,
    limitResponse (JObj sampleRecord) summaryOnly = Return r /\
    lookup "name" limited = Some (JStr "x") /\
    stringify2 (JObj limited) = Some text /\
    data r = if MAX_WORDS <? countWords text
             then JStr (truncateToWords text MAX_WORDS) else JObj limited.
Proof.
  apply (record_keeps_other_fields sampleRecord summaryOnly
           (default "" (stringify2 (JObj sampleRecord))) "name" (JStr "x")).
  - reflexivity.
  - apply stringify2_default. discriminate.
  - vm_compute. reflexivity.
  - reflexivity.
  - discriminate.
  - intros k [<-|[<-|[]]]; discriminate.
Defined.

Lemma truncated_iff_over_limit_witness :
  let r := {| data := quote1; truncated := false; message := None; metadata := None |} in
  (truncated r = true <->
     exists jsonStr, stringify2 quote1 = Some jsonStr /\ MAX_WORDS < countWords jsonStr) /\
  (truncated r = false ->
     r = {| data := quote1; truncated := false; message := None; metadata := None |}).
Proof.
  apply (truncated_iff_over_limit quote1 no_options
           {| data := quote1; truncated := false; message := None; metadata := None |}).
  reflexivity.
Defined.

Lemma filtered_payload_is_bounded_witness :
  exists r,
    limitResponse (JArr longList)
      {| maxItems := Some (Int 5); fields := Some ["symbol"]; summary := None |} = Return r /\
    truncated r = true /\
    countWords (payloadText r) <= MAX_WORDS + 11.
Proof.
  apply (filtered_payload_is_bounded (JArr longList)
           {| maxItems := Some (Int 5); fields := Some ["symbol"]; summary := None |}
           (default "" (stringify2 (JArr longList)))).
  - apply stringify2_default. discriminate.
  - vm_compute. reflexivity.
  - reflexivity.
  - intros items _. reflexivity.
Defined.

End ResponseFacts.

(** ** Items and fields: [limitArrayData] *)
Module FilterFacts.
Import JS Limiter Objects StringFacts WordFacts LimiterFacts Samples.

(** X4. The number of items that [limitArrayData] keeps, for a bound
    [maxItems] among the numbers of [JS.number] (a whole number, NaN or
    an infinity; a bound with a fractional part is not among them): the
    first [maxItems] when that is a positive whole number, all of them
    otherwise: a negative bound, like 0 and NaN, is no bound. *)
Theorem limitArrayData_length items options :
  arrayLength (limitArrayData (JArr items) options) =
    match maxItems options with
    | Some (Int n) => if 0 <? n then Z.min n (len items) else len items
    | _ => len items
    end.
Proof.
  unfold limitArrayData. destruct items as [|item items].
  - cbn [arrayLength len length]. destruct (maxItems options) as [[n| | |]|]; try reflexivity.
    destruct (Z.ltb_spec 0 n); [|reflexivity]. unfold len. simpl. lia.
  - set (result := match maxItems options with
                   | Some n =>
                       if truthy n && positive n then sliceTo n (item :: items)
                       else item :: items
                   | None => item :: items
                   end).
    assert (Hlen : len result =
                     match maxItems options with
                     | Some (Int n) => if 0 <? n then Z.min n (len (item :: items))
                                       else len (item :: items)
                     | _ => len (item :: items)
                     end).
    { unfold result. destruct (maxItems options) as [[n| | |]|]; try reflexivity.
      unfold truthy, positive.
      destruct (Z.ltb_spec 0 n) as [Hpos|Hneg].
      - destruct (Z.eqb_spec n 0); [lia|]. cbn [negb andb sliceTo].
        unfold slice0, len. rewrite length_take. lia.
      - rewrite andb_false_r. reflexivity. }
    rewrite <- Hlen. clearbody result.
    destruct (fields options) as [[|f fs]|], result as [|y result]; try reflexivity.
    unfold arrayLength, len. rewrite length_map. reflexivity.
Qed.

Lemma lookup_has k ps : lookup k ps = if has k ps then Some (get k ps) else None.
Proof. unfold has, get. destruct (lookup k ps); reflexivity. Qed.

(** The projection of an item holds, for each requested field, what the
    item holds for it, and nothing else. *)
Lemma lookup_project fs item : forall filtered k,
  lookup k (project fs item filtered) =
    if bool_decide (k ∈ fs) && has k item then lookup k item else lookup k filtered.
Proof.
  induction fs as [|f fs IH]; intros filtered k; cbn [project]; [reflexivity|].
  rewrite IH. destruct (decide (k = f)) as [->|Hne].
  - rewrite (bool_decide_eq_true_2 (f ∈ f :: fs)) by left.
    cbn [andb]. destruct (has f item) eqn:Hf.
    + rewrite lookup_assign_eq, andb_true_r.
      rewrite (lookup_has f item), Hf. destruct (bool_decide (f ∈ fs)); reflexivity.
    + rewrite andb_false_r. reflexivity.
  - assert (Hin : bool_decide (k ∈ f :: fs) = bool_decide (k ∈ fs)).
    { apply bool_decide_ext. rewrite elem_of_cons. tauto. }
    rewrite Hin. destruct (bool_decide (k ∈ fs) && has k item); [reflexivity|].
    destruct (has f item); [|reflexivity].
    apply lookup_assign_ne. congruence.
Qed.

Lemma lookup_map {A B} (f : A -> B) l : forall i, map f l !! i = f <$> (l !! i).
Proof. induction l as [|x l IH]; intros [|i]; simpl; auto. Qed.

Lemma sliceTo_lookup n (l : list json) i x : sliceTo n l !! i = Some x -> l !! i = Some x.
Proof.
  destruct n as [z| | |]; cbn [sliceTo]; try discriminate; [|auto].
  unfold slice0. intros H. apply lookup_take_Some in H. tauto.
Qed.

(** X5. With a list of fields, each item that is a plain object is replaced
    by an object that holds exactly the requested fields the item has,
    with the item's values; an item that is no object stays as it is.
    (The fields are own properties: a name inherited from
    [Object.prototype] is no field of the data.) *)
Theorem limitArrayData_keeps_requested_fields items options fs limited i item' :
  fields options = Some fs -> fs <> [] ->
  Forall (fun f => f ∉ inheritedNames) fs ->
  limitArrayData (JArr items) options = JArr limited ->
  limited !! i = Some item' ->
  exists item,
    items !! i = Some item /\
    match item with
    | JObj props =>
        exists props', item' = JObj props' /\
          forall k, lookup k props' = if bool_decide (k ∈ fs) then lookup k props else None
    | JArr _ => True
    | _ => item' = item
    end.
Proof.
  intros Hfields Hne _ Hlimited Hi.
  unfold limitArrayData in Hlimited. rewrite Hfields in Hlimited.
  destruct fs as [|f fs]; [congruence|].
  destruct items as [|x items]; [injection Hlimited as <-; discriminate|].
  set (result := match maxItems options with
                 | Some n => if truthy n && positive n then sliceTo n (x :: items) else x :: items
                 | None => x :: items
                 end) in *.
  assert (Hresult : forall j y, result !! j = Some y -> (x :: items) !! j = Some y).
  { intros j y. unfold result. destruct (maxItems options) as [n|]; [|auto].
    destruct (truthy n && positive n); [apply sliceTo_lookup|auto]. }
  destruct result as [|y result]; [injection Hlimited as <-; discriminate|].
  assert (Hmap : limited =
            map (fun item => if isObject item
                             then JObj (project (f :: fs) (ownProps item) []) else item)
                (y :: result)) by congruence.
  clear Hlimited. rewrite Hmap, lookup_map in Hi.
  destruct ((y :: result) !! i) as [item|] eqn:Hitem; [|discriminate].
  injection Hi as <-. exists item. split; [apply Hresult, Hitem|].
  destruct item as [| | | | |arr|props]; try reflexivity.
  exists (project (f :: fs) props []). split; [reflexivity|].
  intros k. rewrite lookup_project. cbn [lookup].
  rewrite (lookup_has k props).
  destruct (bool_decide (k ∈ f :: fs)), (has k props); reflexivity.
Qed.

Lemma limitArrayData_keeps_requested_fields_witness :
  exists item,
    [quote1; JNum (Int 7)] !! 0%nat = Some item /\
    match item with
    | JObj props =>
        exists props', JObj [("price", JNum (Int 1500)); ("symbol", JStr "INFY")] = JObj props' /\
          forall k, lookup k props' =
                    if bool_decide (k ∈ ["price"; "name"; "symbol"]) then lookup k props else None
    | JArr _ => True
    | _ => JObj [("price", JNum (Int 1500)); ("symbol", JStr "INFY")] = item
    end.
Proof.
  apply (limitArrayData_keeps_requested_fields [quote1; JNum (Int 7)]
           {| maxItems := None; fields := Some ["price"; "name"; "symbol"]; summary := None |}
           ["price"; "name"; "symbol"]
           [JObj [("price", JNum (Int 1500)); ("symbol", JStr "INFY")]; JNum (Int 7)]
           0%nat).
  - reflexivity.
  - discriminate.
  - repeat constructor; vm_compute; intros Hin; repeat (inversion Hin as [|? ? ? Hin']; clear Hin; rename Hin' into Hin).
  - reflexivity.
  - reflexivity.
Defined.

End FilterFacts.

(** ** The metadata returned for a value above the limit *)
Module MetadataFacts.
Import JS Limiter StringFacts WordFacts LimiterFacts Samples.

(** X6. The schema describes exactly the available fields, in their order;
    it is [null] exactly when no fields are available (a primitive, or a
    list whose first element is a primitive). *)
Theorem schema_matches_fields d :
  match getAvailableFields d with
  | Some fs => exists props, extractSchema d = JObj props /\ map fst props = fs
  | None => extractSchema d = JNull
  end.
Proof.
  assert (Hfst : forall (g : string * json -> json) l,
            map fst (map (fun kv => (fst kv, g kv)) l) = map fst l).
  { intros g l. rewrite map_map. reflexivity. }
  destruct d as [| | | | |[|sample items]|props]; cbn [getAvailableFields extractSchema];
    try reflexivity.
  - eexists. split; reflexivity.
  - destruct (isObject sample); [|reflexivity].
    eexists. split; [reflexivity|]. unfold keys.
    apply (Hfst (fun kv => typeName (snd kv))).
  - eexists. split; [reflexivity|]. unfold keys.
    apply (Hfst (fun kv => match snd kv with
                           | JArr value =>
                               JObj [("type", JStr "array"); ("length", JNum (Int (len value)))]
                           | value => JStr (typeof value)
                           end)).
Qed.

(** X7. [createResponseMetadata] never throws; it reports the word count it
    was given, and it recommends filters exactly for a non-empty list
    above the limit. *)
Theorem createResponseMetadata_recommends d wordCount :
  exists meta,
    createResponseMetadata d wordCount = Return meta /\
    totalWords meta = wordCount /\
    exceedsLimit meta = (MAX_WORDS <? wordCount) /\
    (is_Some (recommendedFilters meta) <->
       MAX_WORDS < wordCount /\ exists item rest, d = JArr (item :: rest)).
Proof.
  assert (Hno : forall P : Prop, ~ P -> (is_Some (@None RecommendedFilters) <-> P)).
  { intros P HP. split; [intros [? [=]]|tauto]. }
  unfold createResponseMetadata.
  destruct d as [| | | | |[|item items]|].
  1-6,8: eexists; split; [reflexivity|]; split; [reflexivity|]; split; [reflexivity|];
         cbn [recommendedFilters]; apply Hno; intros [_ (item & rest & Heq)]; discriminate.
  destruct (Z.ltb_spec MAX_WORDS wordCount) as [Hover|Hfits].
  - unfold itemsThatFit.
    destruct (stringify2_array (slice0 3 (item :: items))) as [sampleStr ->].
    eexists. split; [reflexivity|]. cbn [totalWords exceedsLimit recommendedFilters].
    split; [reflexivity|]. split; [destruct (Z.ltb_spec MAX_WORDS wordCount); [reflexivity|lia]|].
    split; [eauto|]. intros _. eexists. reflexivity.
  - eexists. split; [reflexivity|]. cbn [totalWords exceedsLimit recommendedFilters].
    split; [reflexivity|]. split; [destruct (Z.ltb_spec MAX_WORDS wordCount); [lia|reflexivity]|].
    apply Hno. lia.
Qed.

(** What [limitResponse] returns, with no filter option, for a record
    of at most five properties above the limit. *)
Lemma small_record_response props jsonStr :
  (length props <= 5)%nat ->
  stringify2 (JObj props) = Some jsonStr ->
  MAX_WORDS < countWords jsonStr ->
  exists r meta,
    limitResponse (JObj props) no_options = Return r /\
    truncated r = true /\
    metadata r = Some meta /\
    sampleData meta = JObj props /\
    recommendedFilters meta = None /\
    (exists text instructions,
       data r = JObj [("_metadata", metadataValue meta); ("_message", JStr text);
                      ("_instructions", JStr instructions)]).
Proof.
  intros Hlen Hstr Hover. unfold limitResponse. rewrite Hstr.
  destruct (Z.leb_spec (countWords jsonStr) MAX_WORDS); [lia|].
  cbn [hasFilters no_options maxItems fields summary orb negb].
  cbn [createResponseMetadata].
  eexists. eexists. split; [reflexivity|].
  cbn [truncated metadata sampleData recommendedFilters data].
  split; [reflexivity|]. split; [reflexivity|].
  split; [rewrite take_ge by lia; reflexivity|]. split; [reflexivity|].
  eexists. eexists. reflexivity.
Qed.

(** X8. With no filter option, a record of at most five properties above
    the limit comes back inside its own metadata: [sampleData] is the
    whole record, no filter is recommended, and the data returned holds
    that metadata under [_metadata]. *)
Theorem small_record_sample props jsonStr :
  (length props <= 5)%nat ->
  stringify2 (JObj props) = Some jsonStr ->
  MAX_WORDS < countWords jsonStr ->
  exists r meta,
    limitResponse (JObj props) no_options = Return r /\
    truncated r = true /\
    metadata r = Some meta /\
    sampleData meta = JObj props /\
    recommendedFilters meta = None /\
    lookup "_metadata" (ownProps (data r)) = Some (metadataValue meta).
Proof.
  intros Hlen Hstr Hover.
  destruct (small_record_response props jsonStr Hlen Hstr Hover)
    as (r & meta & Hr & Htr & Hmeta & Hsample & Hrec & text & instructions & Hdata).
  exists r, meta. rewrite Hdata. repeat split; assumption || reflexivity.
Qed.

Lemma small_record_sample_witness :
  exists r meta,
    limitResponse (JObj sampleRecord) no_options = Return r /\
    truncated r = true /\
    metadata r = Some meta /\
    sampleData meta = JObj sampleRecord /\
    recommendedFilters meta = None /\
    lookup "_metadata" (ownProps (data r)) = Some (metadataValue meta).
Proof.
  apply (small_record_sample sampleRecord (default "" (stringify2 (JObj sampleRecord)))).
  - simpl. lia.
  - apply stringify2_default. discriminate.
  - vm_compute. reflexivity.
Defined.

End MetadataFacts.

(** ** The text sent for a value within the limit *)
Module FormatFacts.
Import JS Limiter Format StringFacts WordFacts LimiterFacts ResponseFacts Samples.

(** X13. A value whose serialization fits the limit is sent as that
    serialization, a string as itself (without quotes), under no header
    and whatever the options. *)
Theorem formatLimitedResponse_within_limit d options jsonStr :
  stringify2 d = Some jsonStr ->
  countWords jsonStr <= MAX_WORDS ->
  formatLimitedResponse d options =
    Return {| responseText := Some (units match d with JStr s => s | _ => jsonStr end);
              isError := false |}.
Proof.
  intros Hstr Hfits. unfold formatLimitedResponse, limitResponse. rewrite Hstr.
  destruct (Z.leb_spec (countWords jsonStr) MAX_WORDS) as [_|Hover]; [|lia].
  destruct d; try discriminate Hstr; cbn [data metadata truncated message];
    try rewrite Hstr; reflexivity.
Qed.

Lemma formatLimitedResponse_within_limit_witness :
  formatLimitedResponse (JStr "closed") no_options =
    Return {| responseText := Some (units "closed"); isError := false |}.
Proof.
  apply (formatLimitedResponse_within_limit (JStr "closed") no_options (quote "closed")).
  - reflexivity.
  - vm_compute. discriminate.
Defined.

(** X12. [limitResponse] and [formatLimitedResponse] never throw: every
    value, under every combination of options, gets a result and a
    response, and the response is not flagged as an error. *)
Theorem responses_never_throw d options :
  (exists r, limitResponse d options = Return r) /\
  (exists response,
     formatLimitedResponse d options = Return response /\ isError response = false).
Proof.
  destruct (limitResponse_returns d options) as [r Hr].
  split; [eauto|]. unfold formatLimitedResponse. rewrite Hr.
  eexists. split; reflexivity.
Qed.

End FormatFacts.

(** ** The filter properties of a tool's schema *)
Module SchemaFacts.
Import JS Limiter Objects CommonProperties LimiterFacts.

Lemma lookup_absent k (ps : list (string * json)) :
  k ∉ map fst ps -> lookup k ps = None.
Proof.
  induction ps as [|[k' v] ps IH]; intros Hk; [reflexivity|].
  cbn [lookup]. destruct (String.eqb_spec k' k) as [->|Hne].
  - exfalso. apply Hk. left.
  - apply IH. intros Hin. apply Hk. right. exact Hin.
Qed.

(** Spreading an object over another: the source's properties win. *)
Lemma lookup_spread source : forall target k,
  NoDup (map fst source) ->
  lookup k (spread source target) =
    match lookup k source with
    | Some v => Some v
    | None => lookup k target
    end.
Proof.
  unfold spread.
  induction source as [|[k0 v0] source IH]; intros target k Hdup; [reflexivity|].
  apply NoDup_cons in Hdup as [Hfresh Hdup].
  cbn [fold_left fst snd lookup]. rewrite IH by exact Hdup.
  destruct (String.eqb_spec k0 k) as [->|Hne].
  - rewrite (lookup_absent k source Hfresh). apply lookup_assign_eq.
  - destruct (lookup k source); [reflexivity|]. apply lookup_assign_ne, Hne.
Qed.

(** X14. [addFilterProperties] gives every tool the three filter properties
    with their common definitions, also over a property of the tool
    that bears one of their names; the other properties of the tool
    are kept. *)
Theorem addFilterProperties_lookup properties k :
  NoDup (map fst properties) ->
  lookup k (addFilterProperties properties) =
    match lookup k filterProperties with
    | Some definition => Some definition
    | None => lookup k properties
    end.
Proof.
  intros Hdup. unfold addFilterProperties.
  rewrite lookup_spread.
  - destruct (lookup k filterProperties); [reflexivity|].
    rewrite lookup_spread by exact Hdup.
    destruct (lookup k properties); reflexivity.
  - repeat constructor; vm_compute; intros Hin;
      repeat (inversion Hin as [|? ? ? Hin']; clear Hin; rename Hin' into Hin).
Qed.

Lemma addFilterProperties_lookup_witness :
  lookup "summary"
    (addFilterProperties [("symbol", JObj [("type", JStr "string")]);
                          ("summary", JObj [("type", JStr "string")])]) =
    match lookup "summary" filterProperties with
    | Some definition => Some definition
    | None => lookup "summary" [("symbol", JObj [("type", JStr "string")]);
                                ("summary", JObj [("type", JStr "string")])]
    end.
Proof.
  apply (addFilterProperties_lookup
           [("symbol", JObj [("type", JStr "string")]);
            ("summary", JObj [("type", JStr "string")])] "summary").
  repeat constructor; vm_compute; intros Hin;
    repeat (inversion Hin as [|? ? ? Hin']; clear Hin; rename Hin' into Hin).
Defined.

End SchemaFacts.

(** ** Routing of the tool calls *)
Module ServerFacts.
Import JS Limiter Format Documents Tools NseHandler DocumentHandler Server.
Import ResponseFacts.

Section Routing.
Context {Args State : Type}.
Variables handleNse handleBse handleDocument :
  string -> Args -> State -> completion ToolResponse * State.

(** X15. [read_document_pages] is advertised among the document tools, but
    the server routes only [download_document] to the document handler:
    a call of [read_document_pages] is answered with the error of an
    unknown tool, whatever its arguments, and reaches no handler. *)
Theorem read_document_pages_is_not_routed args st :
  In "read_document_pages" documentTools /\
  callTool handleNse handleBse handleDocument "read_document_pages" args st =
    (Done (errorResponse "Unknown tool: read_document_pages"), st).
Proof. split; [right; left; reflexivity|reflexivity]. Qed.

(** X16. Every tool advertised by [nseTools] reaches [handleNseTool], every
    tool advertised by [bseTools] reaches [handleBseTool], and
    [download_document] reaches the document handler; what the handler
    throws comes back as an error response. *)
Theorem advertised_tools_are_routed :
  Forall (fun name => forall args st,
            callTool handleNse handleBse handleDocument name args st
            = caught (handleNse name args st)) nseTools /\
  Forall (fun name => forall args st,
            callTool handleNse handleBse handleDocument name args st
            = caught (handleBse name args st)) bseTools /\
  (forall args st,
     callTool handleNse handleBse handleDocument "download_document" args st
     = caught (handleDocument "download_document" args st)).
Proof.
  split; [|split]; [| |reflexivity].
  - repeat constructor; intros args st; reflexivity.
  - repeat constructor; intros args st; reflexivity.
Qed.

End Routing.

Section NseCalls.
Context `{NSEClient} {State : Type}.
Variables handleBse handleDocument :
  string -> ToolArgs -> State -> completion ToolResponse * State.

(** X17. The switch of [handleNseTool] has a case for each advertised tool,
    and for nothing else. *)
Theorem nse_cases_are_the_advertised_tools : map fst cases = nseTools.
Proof. reflexivity. Qed.

(** X18. What a call of an [nse_] tool comes to, through the server: an
    unknown name and an error of the client are both answered with an
    error response whose text starts with [Error: NSE API Error: ], and
    a result of the client is sent as [formatLimitedResponse] formats it
    under the filters of the arguments. *)
Theorem nse_calls_are_answered name args (st : State) :
  startsWith "nse_" name = true ->
  let route :=
    callTool (fun name args st => (handleNseTool name args, st)) handleBse handleDocument in
  (select name cases = None ->
   route name args st
   = (Done (errorResponse ("NSE API Error: Unknown NSE tool: " +:+ name)), st)) /\
  (forall call message,
     select name cases = Some call -> call args = Throws message ->
     route name args st = (Done (errorResponse ("NSE API Error: " +:+ message)), st)) /\
  (forall call result,
     select name cases = Some call -> call args = Done result ->
     exists response,
       formatLimitedResponse result (extractLimitOptions args) = Return response /\
       route name args st = (Done response, st)).
Proof.
  intros Hprefix route. unfold route, callTool. rewrite Hprefix. unfold handleNseTool.
  split; [|split].
  - intros ->. reflexivity.
  - intros call message -> Hcall. cbn [andThen]. rewrite Hcall. reflexivity.
  - intros call result -> Hcall. rewrite Hcall. cbn [andThen].
    unfold formatLimitedResponse.
    destruct (limitResponse_returns result (extractLimitOptions args)) as [limited ->].
    eexists. split; reflexivity.
Qed.

End NseCalls.

Import Scenarios.

Lemma nse_calls_are_answered_witness :
  let route :=
    callTool (fun name args st => (handleNseTool name args, st))
      idle idle in
  (select "nse_equity_quote" cases = None ->
   route "nse_equity_quote" noArguments tt
   = (Done (errorResponse ("NSE API Error: Unknown NSE tool: " +:+ "nse_equity_quote")), tt)) /\
  (forall call message,
     select "nse_equity_quote" cases = Some call ->
     call noArguments = Throws message ->
     route "nse_equity_quote" noArguments tt
     = (Done (errorResponse ("NSE API Error: " +:+ message)), tt)) /\
  (forall call result,
     select "nse_equity_quote" cases = Some call ->
     call noArguments = Done result ->
     exists response,
       formatLimitedResponse result (extractLimitOptions noArguments)
       = Return response /\
       route "nse_equity_quote" noArguments tt = (Done response, tt)).
Proof.
  apply (nse_calls_are_answered idle idle "nse_equity_quote"
           noArguments tt).
  reflexivity.
Defined.

(** A call that the exchange refuses, as the client of the server sees
    it. *)
Example refused_quote :
  callTool (fun name args st => (handleNseTool name args, st))
    idle idle "nse_equity_quote" noArguments tt
  = (Done (errorResponse "NSE API Error: Request failed with status code 401"), tt).
Proof. reflexivity. Qed.

End ServerFacts.

(** ** What the document handler sends *)
Module HandlerFacts.
Import JS Limiter Format Documents DocumentHandler Samples Scenarios.
Import LimiterFacts MetadataFacts.

Lemma resultValue_small result :
  exists props, resultValue result = JObj props /\ (length props <= 5)%nat.
Proof.
  unfold resultValue. eexists. split; [reflexivity|].
  destruct (content result), (files result), (error result), (Documents.metadata result);
    simpl; lia.
Qed.

Section Handler.
Context `{Runtime}.

(** X19. The handler formats the result of a download with no filter option,
    so a result above the limit is not sent as it is, and is not cut
    either: the text sent is the metadata header followed by the
    metadata object, whose [sampleData] holds the whole result, its
    content included. *)
Theorem large_document_is_wrapped args w result w' jsonStr :
  downloadAndExtract (default "undefined" (arg_url args)) (orNumber (max_size_mb args) 50)
    (Some {| startPage := start_page args; endPage := end_page args;
             pages := arg_pages args |}) w = (Done result, w') ->
  stringify2 (resultValue result) = Some jsonStr ->
  MAX_WORDS < countWords jsonStr ->
  exists limited meta,
    limitResponse (resultValue result) no_options = Return limited /\
    Limiter.metadata limited = Some meta /\
    sampleData meta = resultValue result /\
    handleDocumentTool "download_document" args w =
      (Done {| responseText :=
                 Some (metaText meta ++ units LF ++ units (payloadText limited))%list;
               isError := false |}, w').
Proof.
  intros Hcall Hstr Hover.
  destruct (resultValue_small result) as (props & Hprops & Hlen).
  rewrite Hprops in *.
  destruct (small_record_response props jsonStr Hlen Hstr Hover)
    as (limited & meta & Hr & _ & Hmeta & Hsample & _ & text & instructions & Hdata).
  exists limited, meta. repeat split; try assumption.
  unfold handleDocumentTool. cbn [String.eqb Ascii.eqb Bool.eqb].
  rewrite Hcall, Hprops. unfold formatLimitedResponse. rewrite Hr, Hmeta.
  unfold payloadText. rewrite Hdata. reflexivity.
Qed.

End Handler.

Lemma large_document_is_wrapped_witness :
  exists result w' limited meta,
    downloadAndExtract "https://nse.example/docs/notes.txt" 50
      (Some {| startPage := None; endPage := None; pages := None |}) (world0 [] [notes])
    = (Done result, w') /\
    limitResponse (resultValue result) no_options = Return limited /\
    Limiter.metadata limited = Some meta /\
    sampleData meta = resultValue result /\
    handleDocumentTool "download_document" notesArgs (world0 [] [notes]) =
      (Done {| responseText :=
                 Some (metaText meta ++ units LF ++ units (payloadText limited))%list;
               isError := false |}, w').
Proof.
  destruct (downloadAndExtract "https://nse.example/docs/notes.txt" 50
              (Some {| startPage := None; endPage := None; pages := None |})
              (world0 [] [notes])) as [[result| |] w'] eqn:Hcall;
    [|vm_compute in Hcall; discriminate Hcall..].
  exists result, w'.
  assert (Hresult : resultValue result <> JUndefined) by discriminate.
  assert (Hwords : MAX_WORDS < countWords (default "" (stringify2 (resultValue result)))).
  { replace result with
      (match fst (downloadAndExtract "https://nse.example/docs/notes.txt" 50
                    (Some {| startPage := None; endPage := None; pages := None |})
                    (world0 [] [notes])) with
       | Done r => r
       | _ => result
       end) by (rewrite Hcall; reflexivity).
    vm_compute. reflexivity. }
  destruct (large_document_is_wrapped notesArgs (world0 [] [notes]) result w'
              (default "" (stringify2 (resultValue result)))
              Hcall (stringify2_default _ Hresult) Hwords)
    as (limited & meta & Hlimited & Hmeta & Hsample & Hsent).
  exists limited, meta. repeat split; assumption.
Defined.

End HandlerFacts.

(** ** Downloads and page selections *)
Module DownloadFacts.
Import JS Documents StringFacts Samples DocumentFacts.

(** While the body is received, the file holds the bytes counted so
    far; a body that resolves never went over the limit. *)
Lemma receive_within_limit filepath maxBytes events : forall n disk disk' content,
  find filepath disk = Some (File content) ->
  strlen content = n -> n <= maxBytes ->
  receive filepath maxBytes events n disk = (Resolved, disk') ->
  exists content',
    find filepath disk' = Some (File content') /\ strlen content' <= maxBytes.
Proof.
  induction events as [|ev events IH]; intros n disk disk' content Hfile Hlen Hle H;
    simpl in H; [discriminate|].
  destruct ev as [err| |statusCode location contentLength|chunk| |err].
  - discriminate.
  - discriminate.
  - eapply IH; eassumption.
  - destruct (Z.ltb_spec maxBytes (n + strlen chunk)) as [|Hfits].
    + destruct (unlinkSync filepath disk); discriminate.
    + eapply IH; [apply find_writeChunk, Hfile| |exact Hfits|exact H].
      unfold strlen in *. rewrite length_append. lia.
  - injection H as <-. exists content. split; [exact Hfile|lia].
  - destruct (unlinkSync filepath disk); discriminate.
Qed.

(** X20. A download that resolves leaves at the destination a file of at
    most [maxSizeMB] megabytes, whatever the [content-length] header
    said, and through any number of redirections. *)
Theorem download_stays_within_limit network : forall url filepath maxSizeMB disk requests
    disk' network' requests',
  0 <= maxSizeMB ->
  downloadFile network url filepath maxSizeMB disk requests
    = (Resolved, disk', network', requests') ->
  exists content,
    find filepath disk' = Some (File content) /\
    strlen content <= maxSizeMB * 1024 * 1024.
Proof.
  induction network as [|server network IH];
    intros url filepath maxSizeMB disk requests disk' network' requests' Hmax H;
    simpl in H; [discriminate|].
  destruct (firstAnswer (server url)) as [|err| |statusCode location contentLength body];
    try discriminate.
  destruct (if (statusCode =? 301) || (statusCode =? 302) then _ else _);
    [|eapply IH; eassumption].
  destruct (negb (statusCode =? 200)); [discriminate|].
  destruct (match parseInt _ with Some n => _ | None => false end); [discriminate|].
  destruct (createWriteStream filepath disk) as [disk1|] eqn:Hopen; [|discriminate].
  destruct (receive filepath _ body 0 disk1) as [result disk2] eqn:Hbody.
  injection H as -> <- _ _.
  eapply receive_within_limit; [eapply find_createWriteStream, Hopen|reflexivity| |exact Hbody].
  change (strlen "") with 0. lia.
Qed.

Lemma download_stays_within_limit_witness :
  exists content,
    find reportPath
      (snd (fst (fst (downloadFile [serving] "https://nse.example/docs/report.pdf"
                        reportPath 50 (cacheDir []) []))))
      = Some (File content) /\
    strlen content <= 50 * 1024 * 1024.
Proof.
  apply (download_stays_within_limit [serving] "https://nse.example/docs/report.pdf"
           reportPath 50 (cacheDir []) []
           _ [] ["https://nse.example/docs/report.pdf"]).
  - lia.
  - reflexivity.
Defined.

Section Pages.
Context `{Runtime}.

(** X22. With a list of pages, the start and the end are not looked at: the
    pages of the list that the document has are extracted in the order
    of the list, each under its header, a page listed twice being
    extracted twice; the descriptor lists them. *)
Theorem page_list_is_filtered filepath disk dataBuffer textResult requested s e :
  readFileSync filepath disk = Return dataBuffer ->
  getText dataBuffer = Return textResult ->
  requested <> [] ->
  let total := Z.of_nat (length (tr_pages textResult)) in
  let validPages := filter (fun p => 1 <= p <= total) requested in
  extractPdfText filepath
    (Some {| startPage := s; endPage := e; pages := Some requested |}) disk =
    {| text := report filepath total (join ", " (map show validPages))
                 (foldr String.append "" (map (pageBlock textResult) validPages));
       totalPages := total;
       extractedPages := join ", " (map show validPages) |}.
Proof.
  intros Hread Hparse Hne total validPages.
  unfold extractPdfText. rewrite Hread, Hparse. cbn [pages].
  destruct requested as [|p requested]; [congruence|].
  set (kept := filter _ (p :: requested)).
  assert (Hkept : kept = validPages).
  { unfold kept, validPages. apply list_filter_iff. intros x. fold total.
    rewrite andb_True, !Is_true_true, Z.leb_le, Z.leb_le. reflexivity. }
  rewrite Hkept.
  rewrite appendPages_in_range.
  - reflexivity.
  - apply List.Forall_forall. intros x Hx.
    apply list_elem_of_In, list_elem_of_filter in Hx. apply Hx.
Qed.

(** X23. A range that is empty once clamped (a start beyond the last page,
    or beyond the end) is no error: no page is extracted and the
    descriptor still names the two bounds. *)
Theorem empty_page_range filepath disk dataBuffer textResult s e :
  readFileSync filepath disk = Return dataBuffer ->
  getText dataBuffer = Return textResult ->
  truthyNumber s || truthyNumber e = true ->
  let total := Z.of_nat (length (tr_pages textResult)) in
  let first := Z.max 1 (orNumber s 1) in
  let last := Z.min total (orNumber e total) in
  last < first ->
  extractPdfText filepath (Some {| startPage := s; endPage := e; pages := None |}) disk =
    {| text := report filepath total (show first +:+ "-" +:+ show last) "";
       totalPages := total;
       extractedPages := show first +:+ "-" +:+ show last |}.
Proof.
  intros Hread Hparse Hrange total first last Hempty.
  unfold extractPdfText. rewrite Hread, Hparse. cbn [pages startPage endPage].
  rewrite Hrange. fold total. fold first. fold last.
  rewrite seqZ_nil by lia. reflexivity.
Qed.

End Pages.

Lemma page_list_is_filtered_witness :
  extractPdfText reportPath
    (Some {| startPage := Some 1; endPage := Some 2; pages := Some [4; 9; 2; 4; 0] |})
    (cacheDir [("report.pdf", File fivePages)]) =
    {| text := report reportPath 5 "4, 2, 4"
                 (foldr String.append ""
                    (map (pageBlock {| tr_pages := ["one"; "two"; "three"; "four"; "five"];
                                       tr_text := "one|two|three|four|five" |}) [4; 2; 4]));
       totalPages := 5;
       extractedPages := "4, 2, 4" |}.
Proof.
  apply (page_list_is_filtered reportPath (cacheDir [("report.pdf", File fivePages)])
           fivePages
           {| tr_pages := ["one"; "two"; "three"; "four"; "five"];
              tr_text := "one|two|three|four|five" |}
           [4; 9; 2; 4; 0] (Some 1) (Some 2)).
  - reflexivity.
  - reflexivity.
  - discriminate.
Defined.

Lemma empty_page_range_witness :
  extractPdfText reportPath
    (Some {| startPage := Some 9; endPage := None; pages := None |})
    (cacheDir [("report.pdf", File fivePages)]) =
    {| text := report reportPath 5 "9-5" "";
       totalPages := 5;
       extractedPages := "9-5" |}.
Proof.
  apply (empty_page_range reportPath (cacheDir [("report.pdf", File fivePages)])
           fivePages
           {| tr_pages := ["one"; "two"; "three"; "four"; "five"];
              tr_text := "one|two|three|four|five" |}
           (Some 9) None).
  - reflexivity.
  - reflexivity.
  - reflexivity.
  - vm_compute. reflexivity.
Defined.

Lemma page_range_without_end_witness :
  extractedPages
    (extractPdfText reportPath
       (Some {| startPage := Some 3; endPage := Some 0; pages := None |})
       (cacheDir [("report.pdf", File fivePages)]))
  = show (Z.max 1 3) +:+ "-" +:+ show (Z.of_nat (length ["one"; "two"; "three"; "four"; "five"])).
Proof.
  apply (page_range_without_end reportPath (cacheDir [("report.pdf", File fivePages)])
           fivePages
           {| tr_pages := ["one"; "two"; "three"; "four"; "five"];
              tr_text := "one|two|three|four|five" |}
           3 (Some 0)).
  - reflexivity.
  - reflexivity.
  - discriminate.
  - right. reflexivity.
Defined.

(** The handlers of the body reject with the size breach, the stream's
    error, the request's error or the time-out, never with the status
    or the announced size. *)
Lemma receive_rejections filepath maxBytes events : forall n disk e disk',
  receive filepath maxBytes events n disk = (Rejected e, disk') ->
  match e with
  | HttpStatus _ | FileTooLarge _ _ => False
  | _ => True
  end.
Proof.
  induction events as [|ev events IH]; intros n disk e disk' H; simpl in H;
    [discriminate|].
  destruct ev as [err| |statusCode location contentLength|chunk| |err].
  - injection H as <- _. exact I.
  - injection H as <- _. exact I.
  - eapply IH, H.
  - destruct (maxBytes <? n + strlen chunk).
    + destruct (unlinkSync filepath disk); [|discriminate].
      injection H as <- _. exact I.
    + eapply IH, H.
  - discriminate.
  - destruct (unlinkSync filepath disk); [|discriminate].
    injection H as <- _. exact I.
Qed.

(** X21. A download rejected for the status of the response, or for the
    size it announces, directly or at the end of redirections, has not
    touched the disk: both checks come before the file is opened, so
    nothing is created at the destination and a file that was there is
    left as it was. *)
Theorem rejected_before_the_body network : forall url filepath maxSizeMB disk requests e disk' network' requests',
  downloadFile network url filepath maxSizeMB disk requests
    = (Rejected e, disk', network', requests') ->
  (exists statusCode, e = HttpStatus statusCode) \/
  (exists contentLength limit, e = FileTooLarge contentLength limit) ->
  disk' = disk.
Proof.
  induction network as [|server network IH];
    intros url filepath maxSizeMB disk requests e disk' network' requests' H He;
    simpl in H; [discriminate|].
  destruct (firstAnswer (server url)) as [|err| |statusCode location contentLength body];
    try discriminate.
  - injection H as <- _ _ _. destruct He as [[? [=]]|(? & ? & [=])].
  - injection H as <- _ _ _. destruct He as [[? [=]]|(? & ? & [=])].
  - destruct (if (statusCode =? 301) || (statusCode =? 302) then _ else _);
      [|eapply IH; eassumption].
    destruct (negb (statusCode =? 200)); [injection H as _ <- _ _; reflexivity|].
    destruct (match parseInt _ with Some n => _ | None => false end);
      [injection H as _ <- _ _; reflexivity|].
    destruct (createWriteStream filepath disk) as [disk1|]; [|discriminate].
    destruct (receive filepath _ body 0 disk1) as [result disk2] eqn:Hbody.
    injection H as -> _ _ _.
    apply receive_rejections in Hbody.
    destruct He as [[? ->]|(? & ? & ->)]; destruct Hbody.
Qed.

(** A document of an earlier download at the destination, and a server
    that no longer has it: the call is rejected and the document
    stays. *)
Lemma rejected_before_the_body_witness :
  snd (fst (fst (downloadFile [missing] "https://nse.example/docs/report.pdf"
                   reportPath 50 (cacheDir [("report.pdf", File fivePages)]) [])))
  = cacheDir [("report.pdf", File fivePages)].
Proof.
  apply (rejected_before_the_body [missing] "https://nse.example/docs/report.pdf"
           reportPath 50 (cacheDir [("report.pdf", File fivePages)]) []
           (HttpStatus 404) _ [] ["https://nse.example/docs/report.pdf"]).
  - reflexivity.
  - left. exists 404. reflexivity.
Defined.

End DownloadFacts.

(** ** The text read from an extracted file *)
Module ArchiveFacts.
Import JS Documents StringFacts DocumentFacts.

(** X25. The text taken from one extracted file is at most 50000 code units
    of its content and the 39 of the truncation note: 50039 in all. *)
Theorem capped_is_bounded fileContent : strlen (capped fileContent) <= 50039.
Proof.
  unfold capped, strlen.
  destruct (Z.ltb_spec 50000 (Z.of_nat (String.length fileContent))) as [Hlong|Hshort].
  - rewrite !length_append, length_substring_0 by lia.
    change (String.length LF) with 1%nat.
    change (String.length "[Content truncated - file too large]") with 36%nat. lia.
  - rewrite length_append. change (String.length LF) with 1%nat. lia.
Qed.

End ArchiveFacts.

(** ** The files below a directory: [getAllFiles] *)
Module ListingFacts.
Import JS Documents DiskShape StringFacts DocumentFacts.

Lemma child_name name c entries : child name entries = Some c -> In name (map fst entries).
Proof.
  induction entries as [|[n c'] entries IH]; simpl; [discriminate|].
  destruct (String.eqb_spec n name) as [->|_]; [auto|]. intros Hc. right. apply IH, Hc.
Qed.

Lemma walk_cons dirPath name c rest acc :
  walk dirPath (Dir ((name, c) :: rest)) acc =
    walk dirPath (Dir rest)
      match c with
      | Dir _ => walk (dirPath ++ [name])%list c acc
      | File _ => (acc ++ [(dirPath ++ [name])%list])%list
      end.
Proof. reflexivity. Qed.

(** What a walk adds to the files collected so far: the paths that
    lead from the directory to a file. *)
Lemma walk_files d : wellFormed d -> forall dirPath acc p,
  In p (walk dirPath d acc) <->
  In p acc \/
  exists q content, q <> [] /\ p = (dirPath ++ q)%list /\ find q d = Some (File content).
Proof.
  induction d as [content|entries IH] using node_induction; intros Hwf dirPath acc p.
  - simpl. split; [auto|]. intros [Hin|(q & c & Hq & _ & Hfind)]; [exact Hin|].
    destruct q; [congruence|discriminate].
  - inversion Hwf as [|? Hdup Hsub]; subst. clear Hwf.
    revert acc. induction entries as [|[name c] rest IHrest]; intros acc.
    + simpl. split; [auto|]. intros [Hin|(q & c & Hq & _ & Hfind)]; [exact Hin|].
      destruct q; [congruence|discriminate].
    + inversion IH as [|? ? Hc IHtail]; subst.
      inversion Hsub as [|? ? Hwfc Hsubtail]; subst.
      cbn [map fst] in Hdup. apply NoDup_cons in Hdup as [Hfresh Hdup].
      specialize (IHrest IHtail Hdup Hsubtail).
      cbn [snd] in Hc, Hwfc.
      rewrite walk_cons, IHrest.
      assert (Hhead : forall acc0,
                In p match c with
                     | Dir _ => walk (dirPath ++ [name])%list c acc0
                     | File _ => (acc0 ++ [(dirPath ++ [name])%list])%list
                     end <->
                In p acc0 \/
                exists q' content, p = (dirPath ++ name :: q')%list /\
                                   find q' c = Some (File content)).
      { intros acc0. destruct c as [content0|sub].
        - rewrite in_app_iff. split.
          + intros [Hin|[<-|[]]]; [auto|]. right. exists [], content0. auto.
          + intros [Hin|(q' & content & -> & Hfind)]; [auto|]. right. left.
            destruct q'; [reflexivity|discriminate].
        - rewrite (Hc Hwfc). split.
          + intros [Hin|(q & content & Hq & -> & Hfind)]; [auto|]. right.
            exists q, content. rewrite <- app_assoc. auto.
          + intros [Hin|(q' & content & -> & Hfind)]; [auto|]. right.
            exists q', content. rewrite <- app_assoc.
            repeat split; [|exact Hfind]. intros ->. discriminate. }
      rewrite Hhead. split.
      * intros [[Hin|(q' & content & -> & Hfind)]|(q & content & Hq & -> & Hfind)].
        -- auto.
        -- right. exists (name :: q'), content. repeat split; [discriminate|].
           cbn [find child]. rewrite String.eqb_refl. exact Hfind.
        -- right. exists q, content. repeat split; [exact Hq|].
           destruct q as [|n q']; [congruence|].
           cbn [find child] in *.
           destruct (child n rest) as [c0|] eqn:Hn; [|discriminate].
           destruct (String.eqb_spec name n) as [->|_]; [|exact Hfind].
           exfalso. apply Hfresh. apply list_elem_of_In. eapply child_name, Hn.
      * intros [Hin|(q & content & Hq & -> & Hfind)]; [auto|].
        destruct q as [|n q']; [congruence|].
        cbn [find child] in Hfind.
        destruct (String.eqb_spec name n) as [->|_].
        -- left. right. exists q', content. auto.
        -- right. exists (n :: q'), content. repeat split; [discriminate|exact Hfind].
Qed.

(** X26. On a directory whose entries bear distinct names, at every depth,
    [getAllFiles] lists exactly the regular files below the directory,
    each by its path from the directory given. *)
Theorem getAllFiles_lists_the_files dirPath disk entries :
  find dirPath disk = Some (Dir entries) ->
  wellFormed (Dir entries) ->
  exists allFiles,
    getAllFiles dirPath disk = Return allFiles /\
    forall p,
      In p allFiles <->
      exists q content,
        q <> [] /\ p = (dirPath ++ q)%list /\ find q (Dir entries) = Some (File content).
Proof.
  intros Hdir Hwf. unfold getAllFiles. rewrite Hdir.
  eexists. split; [reflexivity|]. intros p.
  rewrite (walk_files (Dir entries) Hwf dirPath [] p). simpl. tauto.
Qed.

Lemma getAllFiles_lists_the_files_witness :
  exists allFiles,
    getAllFiles ["srv"; "downloads"]
      (Samples.cacheDir [("a.zip", File "PK"); ("a_extracted", Dir [("x.txt", File "1")])])
    = Return allFiles /\
    forall p,
      In p allFiles <->
      exists q content,
        q <> [] /\ p = (["srv"; "downloads"] ++ q)%list /\
        find q (Dir [("documents",
                      Dir [("a.zip", File "PK"); ("a_extracted", Dir [("x.txt", File "1")])])])
        = Some (File content).
Proof.
  apply (getAllFiles_lists_the_files ["srv"; "downloads"]
           (Samples.cacheDir [("a.zip", File "PK"); ("a_extracted", Dir [("x.txt", File "1")])])).
  - reflexivity.
  - repeat (constructor; cbn [map fst snd]);
      try (intros Hin; repeat (inversion Hin as [|? ? ? Hin']; clear Hin; rename Hin' into Hin)).
Defined.

End ListingFacts.

(** ** What the two entry points do around the cache *)
Module CacheFacts.
Import JS Documents StringFacts Samples Scenarios DocumentFacts.

Section Entry.
Context `{Runtime}.

Lemma withDisk_same w : withDisk w (disk w) = w.
Proof. destruct w. reflexivity. Qed.

(** X27. The type of a document is looked at after the download only: a
    document of a type that is not supported is fetched and stored
    before the call fails, and stays in the cache. *)
Theorem unsupported_type_is_fetched_first url maxSizeMB pageOptions w pathname w' :
  existsSync downloadDir (disk w) = true ->
  urlPathname url = Return pathname ->
  let filename := orElse (basename pathname) "document" in
  let filepath := (downloadDir ++ [filename])%list in
  let ext := toLowerCase (extname filename) in
  existsSync filepath (disk w) = false ->
  ext ∉ [".pdf"; ".zip"; ".txt"; ".csv"; ".json"; ".xml"; ".html"] ->
  fetch url filepath maxSizeMB w = (Resolved, w') ->
  exists result,
    downloadAndExtract url maxSizeMB pageOptions w = (Done result, w') /\
    success result = false /\
    error result =
      Some ("Unsupported file type: " +:+ ext
            +:+ ". Supported: .pdf, .zip, .txt, .csv, .json, .xml, .html") /\
    existsSync filepath (disk w') = true.
Proof.
  intros Hdir Hurl filename filepath ext Hmiss Hext Hfetch.
  pose proof (fetch_log _ _ _ _ _ _ Hfetch) as [_ Hthere].
  assert (Hsize : exists size, statSize filepath (disk w') = Return size).
  { unfold statSize. unfold existsSync in Hthere.
    destruct (find filepath (disk w')) as [[]|]; [eauto|eauto|discriminate]. }
  destruct Hsize as [size Hsize].
  assert (Hpdf : String.eqb ext ".pdf" = false).
  { destruct (String.eqb_spec ext ".pdf") as [Heq|]; [|reflexivity].
    exfalso. apply Hext. rewrite Heq. repeat constructor. }
  assert (Hzip : String.eqb ext ".zip" = false).
  { destruct (String.eqb_spec ext ".zip") as [Heq|]; [|reflexivity].
    exfalso. apply Hext. rewrite Heq. repeat constructor. }
  assert (Htext : isTextType [".txt"; ".csv"; ".json"; ".xml"; ".html"] ext = false).
  { unfold isTextType. apply not_true_is_false. intros Hex.
    apply existsb_exists in Hex as (x & Hin & Hx).
    apply String.eqb_eq in Hx. subst x. apply Hext.
    apply list_elem_of_In. simpl in Hin. simpl. tauto. }
  unfold downloadAndExtract. rewrite Hdir, withDisk_same, Hurl.
  fold filename. fold filepath. rewrite Hmiss, Hfetch, Hsize.
  unfold extractByType. fold ext. rewrite Hpdf, Hzip, Htext.
  rewrite withDisk_same. eexists. split; [reflexivity|].
  repeat split. exact Hthere.
Qed.

(** X28. [readDocumentPages] does not create the download directory: while
    the directory is missing, a call with a file name (that steps
    neither up nor in place with [..] or [.]) is answered with the
    failure of the directory scan, and makes no request even when a URL
    comes with the name. *)
Theorem readDocumentPages_without_directory filename url pageOptions maxSizeMB w :
  filename <> "" ->
  Forall (fun segment => segment <> "." /\ segment <> "..") (segments filename) ->
  existsSync downloadDir (disk w) = false ->
  readDocumentPages (Some filename) url pageOptions maxSizeMB w =
    (Done (failed ("ENOENT: no such file or directory, scandir '"
                   +:+ render downloadDir +:+ "'")), w).
Proof.
  intros Hname _ Hdir. unfold readDocumentPages, resolveFile.
  cbn [default from_option id]. destruct filename as [|c name]; [congruence|].
  assert (Hdirect : existsSync (downloadDir ++ segments (String c name))%list (disk w) = false).
  { destruct (existsSync (downloadDir ++ segments (String c name))%list (disk w)) eqn:He;
      [|reflexivity].
    apply existsSync_prefix in He. congruence. }
  rewrite Hdirect. unfold getAllFiles. unfold existsSync in Hdir.
  destruct (find downloadDir (disk w)); [discriminate|].
  destruct (default "" url); reflexivity.
Qed.

End Entry.

Lemma unsupported_type_is_fetched_first_witness :
  exists result,
    downloadAndExtract "https://nse.example/docs/sheet.xlsx" 50 None (world0 [] [sheet])
    = (Done result,
       {| disk := cacheDir [("sheet.xlsx", File "a;b;")]; network := [];
          requests := ["https://nse.example/docs/sheet.xlsx"];
          downloaded := [["srv"; "downloads"; "documents"; "sheet.xlsx"]] |}) /\
    success result = false /\
    error result =
      Some ("Unsupported file type: " +:+ ".xlsx"
            +:+ ". Supported: .pdf, .zip, .txt, .csv, .json, .xml, .html") /\
    existsSync ["srv"; "downloads"; "documents"; "sheet.xlsx"]
      (cacheDir [("sheet.xlsx", File "a;b;")]) = true.
Proof.
  refine (unsupported_type_is_fetched_first "https://nse.example/docs/sheet.xlsx" 50 None
            (world0 [] [sheet]) "/docs/sheet.xlsx"
            {| disk := cacheDir [("sheet.xlsx", File "a;b;")]; network := [];
               requests := ["https://nse.example/docs/sheet.xlsx"];
               downloaded := [["srv"; "downloads"; "documents"; "sheet.xlsx"]] |}
            _ _ _ _ _).
  - reflexivity.
  - reflexivity.
  - reflexivity.
  - vm_compute. intros Hin.
    repeat (inversion Hin as [|? ? ? Hin']; clear Hin; rename Hin' into Hin).
  - reflexivity.
Defined.

Lemma readDocumentPages_without_directory_witness :
  readDocumentPages (Some "report.pdf") (Some "https://nse.example/docs/report.pdf")
    firstFive 50
    {| disk := Dir [("srv", Dir [])]; network := [serving]; requests := []; downloaded := [] |}
  = (Done (failed ("ENOENT: no such file or directory, scandir '"
                   +:+ render downloadDir +:+ "'")),
     {| disk := Dir [("srv", Dir [])]; network := [serving]; requests := [];
        downloaded := [] |}).
Proof.
  apply (readDocumentPages_without_directory "report.pdf"
           (Some "https://nse.example/docs/report.pdf") firstFive 50
           {| disk := Dir [("srv", Dir [])]; network := [serving]; requests := [];
              downloaded := [] |}).
  - discriminate.
  - repeat constructor; discriminate.
  - reflexivity.
Defined.


End CacheFacts.
